(** * MPR121 capacitive-touch driver: a shallow embedding of [src/MPR121.cpp]

    The driver is a C++ class whose methods mutate the handle's fields and
    talk to the chip through a [TwoWire] object and two Arduino pin
    primitives.  Here every method is a state transformer over a triple
    (handle, bus world, call trace); the bus and the pins are interfaces,
    so each result below holds for every device behind them.  The order of
    the two register reads of [updateTouchData], which C++ leaves to the
    compiler, is a parameter as well.

    Embedded: the constructor and every method of the file except
    [setWire].  [goSlow], [goFast], [begin] and [applySettings] come after
    the driver section, over a second interface for the [Settings] record
    and the set-up calls of the bus. *)

From Stdlib Require Import ZArith Bool Lia.
From stdpp Require Import base list.

Local Open Scope Z_scope.

(** ** Constants declared in [MPR121.h]

    The header is not part of the sources at hand.  Every constant the
    methods mention is a field of this interface; the development is
    parametric in it. *)
Class Header := {
  NOT_INITIALIZED_BIT : Z;
  ADDRESS_UNKNOWN_BIT : Z;
  READBACK_FAIL_BIT : Z;
  OVERCURRENT_FLAG_BIT : Z;
  OUT_OF_RANGE_BIT : Z;
  ELECTRODE_COUNT : Z;
  DIGITAL_PIN_COUNT_MAX : Z;
  SUCCESS : bool;
  TS1 : Z; TS2 : Z; OORS1 : Z; OORS2 : Z;
  E0FDL : Z; E0BV : Z; E0TTH : Z; E0RTH : Z;
  AFE2 : Z; ECR : Z; SRST : Z;
  CTL0 : Z; CTL1 : Z; DAT : Z; DIR : Z; EN : Z;
  SET : Z; CLR : Z; TOG : Z;
  PWM0 : Z; PWM1 : Z; PWM2 : Z; PWM3 : Z;
  (* Arduino.h *)
  INPUT : Z; OUTPUT : Z; INPUT_PULLUP : Z;
  (* conversion to the element type of baseline_data_ / filtered_data_ *)
  data_cast : Z -> Z
}.

Inductive Error :=
| NO_ERROR | NOT_INITIALIZED | ADDRESS_UNKNOWN | READBACK_FAIL
| OVERCURRENT_FLAG | OUT_OF_RANGE.

Inductive ProximityMode := DISABLED | PROX0_1 | PROX0_3 | PROX0_11.

Inductive PinMode := INPUT_PU | INPUT_PD | OUTPUT_HS | OUTPUT_LS.

Definition Error_eqb (a b : Error) : bool :=
  match a, b with
  | NO_ERROR, NO_ERROR | NOT_INITIALIZED, NOT_INITIALIZED
  | ADDRESS_UNKNOWN, ADDRESS_UNKNOWN | READBACK_FAIL, READBACK_FAIL
  | OVERCURRENT_FLAG, OVERCURRENT_FLAG | OUT_OF_RANGE, OUT_OF_RANGE => true
  | _, _ => false
  end.

(** ** Fixed-width integers and the error byte *)

Definition u8 (x : Z) : Z := x mod 256.
Definition u16 (x : Z) : Z := x mod 65536.

(** [1<<bit] *)
Definition bit_mask (b : Z) : Z := Z.shiftl 1 b.

(** [error_byte_ & (1<<bit)] used as a condition *)
Definition flag_set (e b : Z) : bool := negb (Z.land e (bit_mask b) =? 0).

(** [error_byte_ |= 1<<bit] *)
Definition raise_flag (e b : Z) : Z := u8 (Z.lor e (bit_mask b)).

(** [error_byte_ &= ~(1<<bit)] *)
Definition lower_flag (e b : Z) : Z := u8 (Z.land e (Z.lnot (bit_mask b))).

(** The five flag positions lie inside the byte and are pairwise distinct. *)
Definition error_bits `{Header} : list Z :=
  [NOT_INITIALIZED_BIT; ADDRESS_UNKNOWN_BIT; READBACK_FAIL_BIT;
   OVERCURRENT_FLAG_BIT; OUT_OF_RANGE_BIT].

Fixpoint distinctb (l : list Z) : bool :=
  match l with
  | [] => true
  | x :: r => forallb (fun y => negb (x =? y)) r && distinctb r
  end.

Definition error_bits_wf `{Header} : bool :=
  forallb (fun b => (0 <=? b) && (b <? 8)) error_bits && distinctb error_bits.

(** ** The handle *)

Record MPR121 := {
  address_ : Z;
  ecr_backup_ : Z;
  error_byte_ : Z;
  running_ : bool;
  touch_data_ : Z;
  touch_data_previous_ : Z;
  auto_touch_status_flag_ : bool;
  interrupt_pin_ : Z;
  baseline_data_ : list Z;
  filtered_data_ : list Z
}.

Definition set_ecr_backup (v : Z) (o : MPR121) : MPR121 :=
  {| address_ := address_ o; ecr_backup_ := v; error_byte_ := error_byte_ o;
     running_ := running_ o; touch_data_ := touch_data_ o;
     touch_data_previous_ := touch_data_previous_ o;
     auto_touch_status_flag_ := auto_touch_status_flag_ o;
     interrupt_pin_ := interrupt_pin_ o;
     baseline_data_ := baseline_data_ o; filtered_data_ := filtered_data_ o |}.

Definition set_error_byte (v : Z) (o : MPR121) : MPR121 :=
  {| address_ := address_ o; ecr_backup_ := ecr_backup_ o; error_byte_ := v;
     running_ := running_ o; touch_data_ := touch_data_ o;
     touch_data_previous_ := touch_data_previous_ o;
     auto_touch_status_flag_ := auto_touch_status_flag_ o;
     interrupt_pin_ := interrupt_pin_ o;
     baseline_data_ := baseline_data_ o; filtered_data_ := filtered_data_ o |}.

Definition set_running (v : bool) (o : MPR121) : MPR121 :=
  {| address_ := address_ o; ecr_backup_ := ecr_backup_ o;
     error_byte_ := error_byte_ o;
     running_ := v; touch_data_ := touch_data_ o;
     touch_data_previous_ := touch_data_previous_ o;
     auto_touch_status_flag_ := auto_touch_status_flag_ o;
     interrupt_pin_ := interrupt_pin_ o;
     baseline_data_ := baseline_data_ o; filtered_data_ := filtered_data_ o |}.

Definition set_touch (cur prev : Z) (o : MPR121) : MPR121 :=
  {| address_ := address_ o; ecr_backup_ := ecr_backup_ o;
     error_byte_ := error_byte_ o;
     running_ := running_ o; touch_data_ := cur;
     touch_data_previous_ := prev;
     auto_touch_status_flag_ := auto_touch_status_flag_ o;
     interrupt_pin_ := interrupt_pin_ o;
     baseline_data_ := baseline_data_ o; filtered_data_ := filtered_data_ o |}.

Definition set_auto_flag (v : bool) (o : MPR121) : MPR121 :=
  {| address_ := address_ o; ecr_backup_ := ecr_backup_ o;
     error_byte_ := error_byte_ o;
     running_ := running_ o; touch_data_ := touch_data_ o;
     touch_data_previous_ := touch_data_previous_ o;
     auto_touch_status_flag_ := v;
     interrupt_pin_ := interrupt_pin_ o;
     baseline_data_ := baseline_data_ o; filtered_data_ := filtered_data_ o |}.

Definition set_interrupt_pin (v : Z) (o : MPR121) : MPR121 :=
  {| address_ := address_ o; ecr_backup_ := ecr_backup_ o;
     error_byte_ := error_byte_ o;
     running_ := running_ o; touch_data_ := touch_data_ o;
     touch_data_previous_ := touch_data_previous_ o;
     auto_touch_status_flag_ := auto_touch_status_flag_ o;
     interrupt_pin_ := v;
     baseline_data_ := baseline_data_ o; filtered_data_ := filtered_data_ o |}.

Definition set_baseline (v : list Z) (o : MPR121) : MPR121 :=
  {| address_ := address_ o; ecr_backup_ := ecr_backup_ o;
     error_byte_ := error_byte_ o;
     running_ := running_ o; touch_data_ := touch_data_ o;
     touch_data_previous_ := touch_data_previous_ o;
     auto_touch_status_flag_ := auto_touch_status_flag_ o;
     interrupt_pin_ := interrupt_pin_ o;
     baseline_data_ := v; filtered_data_ := filtered_data_ o |}.

Definition set_filtered (v : list Z) (o : MPR121) : MPR121 :=
  {| address_ := address_ o; ecr_backup_ := ecr_backup_ o;
     error_byte_ := error_byte_ o;
     running_ := running_ o; touch_data_ := touch_data_ o;
     touch_data_previous_ := touch_data_previous_ o;
     auto_touch_status_flag_ := auto_touch_status_flag_ o;
     interrupt_pin_ := interrupt_pin_ o;
     baseline_data_ := baseline_data_ o; filtered_data_ := v |}.

(** [MPR121::MPR121()].  The constructor leaves [interrupt_pin_] and the two
    data arrays unassigned; their initial contents are arguments here. *)
Definition MPR121_new `{Header} (pin0 : Z) (b0 f0 : list Z) : MPR121 :=
  {| address_ := 0x5A; ecr_backup_ := 0x00;
     error_byte_ := u8 (bit_mask NOT_INITIALIZED_BIT);
     running_ := false; touch_data_ := 0; touch_data_previous_ := 0;
     auto_touch_status_flag_ := false;
     interrupt_pin_ := pin0; baseline_data_ := b0; filtered_data_ := f0 |}.

(** ** The collaborators: the [TwoWire] bus and the Arduino pin primitives *)

Class TwoWire (W : Type) := {
  tw_beginTransmission : Z -> W -> W;
  tw_write : Z -> W -> W;
  tw_endTransmission : bool -> W -> Z * W;
  tw_requestFrom : Z -> Z -> W -> Z * W;
  tw_read : W -> Z * W
}.

Class ArduinoPins (W : Type) := {
  pin_digitalRead : Z -> W -> Z * W;
  pin_pinMode : Z -> Z -> W -> W
}.

(** What the language leaves to the compiler.  [updateTouchData] computes
    [getRegister(TS1) + (getRegister(TS2)<<8)]; C++ does not say which
    operand of [+] is evaluated first, so which of the two registers is read
    first is the compiler's choice.  The development is parametric in it. *)
Class OperandOrder := {
  TS1_read_first : bool
}.

(** Every call that leaves the handle is recorded with its result. *)
Inductive Call :=
| BeginTransmission (a : Z)
| WriteByte (b : Z)
| EndTransmission (sendStop : bool) (status : Z)
| RequestFrom (a quantity got : Z)
| ReadByte (v : Z)
| DigitalRead (pin v : Z)
| SetPinMode (pin mode : Z).

Record Sys (W : Type) := mkSys {
  this : MPR121;
  world : W;
  trace : list Call    (* most recent call first *)
}.
Arguments mkSys {W}.
Arguments this {W}.
Arguments world {W}.
Arguments trace {W}.

Definition M (W A : Type) : Type := Sys W -> A * Sys W.

Definition ret {W A} (a : A) : M W A := fun s => (a, s).

Definition bind {W A B} (m : M W A) (k : A -> M W B) : M W B :=
  fun s => let (a, s') := m s in k a s'.

Notation "x <- c1 ;; c2" := (bind c1 (fun x => c2))
  (at level 100, c1 at next level, right associativity).
Notation "c1 ;; c2" := (bind c1 (fun _ => c2))
  (at level 100, right associativity).

Definition get_this {W} : M W MPR121 := fun s => (this s, s).

Definition modify {W} (f : MPR121 -> MPR121) : M W unit :=
  fun s => (tt, mkSys (f (this s)) (world s) (trace s)).

Definition skip {W} : M W unit := ret tt.

(** [for (size_t electrode = 0; electrode < n; ++electrode) body] *)
Fixpoint for_from {W} (start : Z) (n : nat) (body : Z -> M W unit) : M W unit :=
  match n with
  | O => skip
  | S k => body start ;; for_from (start + 1) k body
  end.

Definition for_electrodes {W} (count : Z) (body : Z -> M W unit) : M W unit :=
  for_from 0 (Z.to_nat count) body.

(** ** The driver *)

Section Driver.

Context {hd : Header} {order : OperandOrder} {W : Type}
        {wire : TwoWire W} {pins : ArduinoPins W}.

Local Abbreviation M := (M W).

(** *** Calls through [wire_ptr_] and to the Arduino core *)

Definition Wire_beginTransmission (a : Z) : M unit :=
  fun s => (tt, mkSys (this s) (tw_beginTransmission a (world s))
                      (BeginTransmission a :: trace s)).

Definition Wire_write (b : Z) : M unit :=
  fun s => (tt, mkSys (this s) (tw_write b (world s)) (WriteByte b :: trace s)).

Definition Wire_endTransmission (sendStop : bool) : M Z :=
  fun s => let (st, w) := tw_endTransmission sendStop (world s) in
           (st, mkSys (this s) w (EndTransmission sendStop st :: trace s)).

Definition Wire_requestFrom (a quantity : Z) : M Z :=
  fun s => let (n, w) := tw_requestFrom a quantity (world s) in
           (n, mkSys (this s) w (RequestFrom a quantity n :: trace s)).

Definition Wire_read : M Z :=
  fun s => let (v, w) := tw_read (world s) in
           (v, mkSys (this s) w (ReadByte v :: trace s)).

Definition Arduino_digitalRead (pin : Z) : M Z :=
  fun s => let (v, w) := pin_digitalRead pin (world s) in
           (v, mkSys (this s) w (DigitalRead pin v :: trace s)).

Definition Arduino_pinMode (pin mode : Z) : M unit :=
  fun s => (tt, mkSys (this s) (pin_pinMode pin mode (world s))
                      (SetPinMode pin mode :: trace s)).

(** *** Status *)

Definition isInitialized : M bool :=
  o <- get_this ;;
  ret (negb (flag_set (error_byte_ o) NOT_INITIALIZED_BIT)).

Definition isRunning : M bool :=
  o <- get_this ;; ret (running_ o).

Definition clearError : M unit :=
  modify (set_error_byte 0).

Definition set_flag_if (c : bool) (b : Z) : M unit :=
  if c then modify (fun o => set_error_byte (raise_flag (error_byte_ o) b) o)
  else modify (fun o => set_error_byte (lower_flag (error_byte_ o) b) o).

(** *** Register access *)

(** The source spells the bus address [address] here and [address_] in
    [setRegister]; both are the handle's one address field. *)
Definition getRegister (reg : Z) : M Z :=
  o <- get_this ;;
  Wire_beginTransmission (address_ o) ;;
  Wire_write reg ;;
  _ <- Wire_endTransmission false ;;
  _ <- Wire_requestFrom (address_ o) 1 ;;
  st <- Wire_endTransmission true ;;
  set_flag_if (negb (st =? 0)) ADDRESS_UNKNOWN_BIT ;;
  r <- Wire_read ;;
  let value := u8 r in
  set_flag_if ((reg =? TS2) && negb (Z.land value 0x80 =? 0))
              OVERCURRENT_FLAG_BIT ;;
  set_flag_if (((reg =? OORS1) || (reg =? OORS2)) && negb (value =? 0))
              OUT_OF_RANGE_BIT ;;
  ret value.

(** [setRegister] calls [stop()] and [run()], which call [setRegister(ECR, _)]
    back.  The body is written once, open in [stop] and [run]; the knot is
    tied below, and [run_eq], [stop_eq] give back the source's equations. *)
Definition setRegister_body (stop run : M unit) (reg value : Z) : M unit :=
  was_running <-
    (if reg =? ECR then
       modify (set_running (negb (Z.land value 0x3F =? 0))) ;;
       ret false
     else if reg <? CTL0 then
       o <- get_this ;;
       (if running_ o then stop else skip) ;;
       ret (running_ o)
     else ret false) ;;
  o <- get_this ;;
  Wire_beginTransmission (address_ o) ;;
  Wire_write reg ;;
  Wire_write value ;;
  st <- Wire_endTransmission true ;;
  set_flag_if (negb (st =? 0)) ADDRESS_UNKNOWN_BIT ;;
  if was_running then run else skip.

Definition run_body (setRegister : Z -> Z -> M unit) : M unit :=
  init <- isInitialized ;;
  if negb init then skip
  else
    o <- get_this ;;
    setRegister ECR (ecr_backup_ o).

Definition stop_body (setRegister : Z -> Z -> M unit) : M unit :=
  init <- isInitialized ;;
  if negb init then skip
  else
    v <- getRegister ECR ;;
    modify (set_ecr_backup v) ;;
    setRegister ECR (u8 (Z.land v 0xC0)).

(** A write to ECR takes the first branch and never reaches the bracket. *)
Definition setRegister_ECR : Z -> Z -> M unit :=
  setRegister_body skip skip.

Definition run : M unit := run_body setRegister_ECR.

Definition stop : M unit := stop_body setRegister_ECR.

Definition setRegister : Z -> Z -> M unit := setRegister_body stop run.

(** The bus transaction of [setRegister] on its own (the lines between the
    two [was_running] tests), to state what the bracket surrounds. *)
Definition write_register (reg value : Z) : M unit :=
  o <- get_this ;;
  Wire_beginTransmission (address_ o) ;;
  Wire_write reg ;;
  Wire_write value ;;
  st <- Wire_endTransmission true ;;
  set_flag_if (negb (st =? 0)) ADDRESS_UNKNOWN_BIT.

(** *** Error report *)

Definition getError : M Error :=
  _ <- getRegister OORS1 ;;
  _ <- getRegister OORS2 ;;
  init <- isInitialized ;;
  if negb init then ret NOT_INITIALIZED
  else
    o <- get_this ;;
    if flag_set (error_byte_ o) ADDRESS_UNKNOWN_BIT then ret ADDRESS_UNKNOWN
    else if flag_set (error_byte_ o) READBACK_FAIL_BIT then ret READBACK_FAIL
    else if flag_set (error_byte_ o) OVERCURRENT_FLAG_BIT then ret OVERCURRENT_FLAG
    else if flag_set (error_byte_ o) OUT_OF_RANGE_BIT then ret OUT_OF_RANGE
    else ret NO_ERROR.

Definition reset : M bool :=
  setRegister SRST 0x63 ;;
  v <- getRegister AFE2 ;;
  set_flag_if (negb (v =? 0x24)) READBACK_FAIL_BIT ;;
  t <- getRegister TS2 ;;
  set_flag_if (negb (Z.land t 0x80 =? 0)) OVERCURRENT_FLAG_BIT ;;
  e1 <- getError ;;
  if Error_eqb e1 NOT_INITIALIZED then ret SUCCESS
  else
    e2 <- getError ;;
    if Error_eqb e2 NO_ERROR then ret SUCCESS else ret (negb SUCCESS).

(** *** Data refresh *)

Definition touchStatusChanged : M bool :=
  o <- get_this ;;
  if auto_touch_status_flag_ o then ret true
  else
    v <- Arduino_digitalRead (interrupt_pin_ o) ;;
    ret (v =? 0).

Definition note_touchStatusChanged : M unit :=
  c <- touchStatusChanged ;;
  if c then modify (set_auto_flag true) else skip.

(** The two calls of [getRegister(TS1) + (getRegister(TS2)<<8)], in the
    order the compiler chose; the pair is (byte of TS1, byte of TS2). *)
Definition read_touch_status : M (Z * Z) :=
  if TS1_read_first then
    lo <- getRegister TS1 ;;
    hi <- getRegister TS2 ;;
    ret (lo, hi)
  else
    hi <- getRegister TS2 ;;
    lo <- getRegister TS1 ;;
    ret (lo, hi).

Definition updateTouchData : M unit :=
  init <- isInitialized ;;
  if negb init then skip
  else
    modify (set_auto_flag false) ;;
    modify (fun o => set_touch (touch_data_ o) (touch_data_ o) o) ;;
    p <- read_touch_status ;;
    modify (fun o => set_touch (u16 (fst p + Z.shiftl (snd p) 8))
                               (touch_data_previous_ o) o).

(** The success path returns [SUCCCESS] in the source, read as [SUCCESS]. *)
Definition updateBaselineData : M bool :=
  init <- isInitialized ;;
  if negb init then ret (negb SUCCESS)
  else
    o <- get_this ;;
    Wire_beginTransmission (address_ o) ;;
    Wire_write E0BV ;;
    _ <- Wire_endTransmission false ;;
    note_touchStatusChanged ;;
    n <- Wire_requestFrom (address_ o) (u8 ELECTRODE_COUNT) ;;
    if n =? ELECTRODE_COUNT then
      for_electrodes ELECTRODE_COUNT (fun electrode =>
        note_touchStatusChanged ;;
        r <- Wire_read ;;
        modify (fun o =>
          set_baseline (<[Z.to_nat electrode := data_cast (Z.shiftl r 2)]>
                          (baseline_data_ o)) o)) ;;
      ret SUCCESS
    else ret (negb SUCCESS).

Definition updateFilteredData : M bool :=
  init <- isInitialized ;;
  if negb init then ret (negb SUCCESS)
  else
    o <- get_this ;;
    Wire_beginTransmission (address_ o) ;;
    Wire_write E0FDL ;;
    _ <- Wire_endTransmission false ;;
    note_touchStatusChanged ;;
    n <- Wire_requestFrom (address_ o) 26 ;;
    if n =? 26 then
      for_electrodes ELECTRODE_COUNT (fun electrode =>
        note_touchStatusChanged ;;
        l <- Wire_read ;;
        note_touchStatusChanged ;;
        m <- Wire_read ;;
        let LSB := u8 l in
        let MSB := u8 m in
        modify (fun o =>
          set_filtered (<[Z.to_nat electrode :=
                            data_cast (Z.lor (Z.shiftl MSB 8) LSB)]>
                          (filtered_data_ o)) o)) ;;
      ret SUCCESS
    else ret (negb SUCCESS).

Definition updateAll : M unit :=
  updateTouchData ;;
  _ <- updateBaselineData ;;
  _ <- updateFilteredData ;;
  skip.

(** *** Queries *)

Definition touched (electrode : Z) : M bool :=
  init <- isInitialized ;;
  if (ELECTRODE_COUNT <=? electrode) || negb init then ret false
  else
    o <- get_this ;;
    ret (negb (Z.land (Z.shiftr (touch_data_ o) electrode) 1 =? 0)).

Definition getPreviousTouchData (electrode : Z) : M bool :=
  init <- isInitialized ;;
  if (ELECTRODE_COUNT - 1 <? electrode) || negb init then ret (negb SUCCESS)
  else
    o <- get_this ;;
    ret (negb (Z.land (Z.shiftr (touch_data_previous_ o) electrode) 1 =? 0)).

Fixpoint count_touched (start : Z) (n : nat) (touch_count : Z) : M Z :=
  match n with
  | O => ret touch_count
  | S k =>
      t <- touched (u8 start) ;;
      count_touched (start + 1) k
        (if t then u8 (touch_count + 1) else touch_count)
  end.

Definition getTouchCount : M Z :=
  init <- isInitialized ;;
  if init then count_touched 0 (Z.to_nat ELECTRODE_COUNT) 0 else ret 0.

Definition getBaselineData (electrode : Z) : M Z :=
  init <- isInitialized ;;
  if (ELECTRODE_COUNT <=? electrode) || negb init then ret 0xFFFF
  else
    o <- get_this ;;
    ret (default 0 (baseline_data_ o !! Z.to_nat electrode)).

Definition getFilteredData (electrode : Z) : M Z :=
  init <- isInitialized ;;
  if (ELECTRODE_COUNT <=? electrode) || negb init then ret 0xFFFF
  else
    o <- get_this ;;
    ret (default 0 (filtered_data_ o !! Z.to_nat electrode)).

Definition isNewTouch (electrode : Z) : M bool :=
  init <- isInitialized ;;
  if (ELECTRODE_COUNT <=? electrode) || negb init then ret false
  else
    p <- getPreviousTouchData electrode ;;
    if eqb p false then
      t <- touched electrode ;; ret (eqb t true)
    else ret false.

Definition isNewRelease (electrode : Z) : M bool :=
  init <- isInitialized ;;
  if (ELECTRODE_COUNT <=? electrode) || negb init then ret false
  else
    p <- getPreviousTouchData electrode ;;
    if eqb p true then
      t <- touched electrode ;; ret (eqb t false)
    else ret false.

(** *** Thresholds *)

(** [setTouchThreshold(electrode, threshold)] *)
Definition setTouchThreshold (electrode threshold : Z) : M unit :=
  init <- isInitialized ;;
  if (ELECTRODE_COUNT <=? electrode) || negb init then skip
  else setRegister (u8 (E0TTH + Z.shiftl electrode 1)) threshold.

(** [setTouchThreshold(threshold)] *)
Definition setTouchThreshold_all (threshold : Z) : M unit :=
  init <- isInitialized ;;
  if negb init then skip
  else
    o <- get_this ;;
    let was_running := running_ o in
    (if was_running then stop else skip) ;;
    for_electrodes ELECTRODE_COUNT (fun electrode =>
      setTouchThreshold (u8 electrode) threshold) ;;
    if was_running then run else skip.

(** [setReleaseThreshold(electrode, threshold)] *)
Definition setReleaseThreshold (electrode threshold : Z) : M unit :=
  init <- isInitialized ;;
  if (ELECTRODE_COUNT <=? electrode) || negb init then skip
  else setRegister (u8 (E0RTH + Z.shiftl electrode 1)) threshold.

(** [setReleaseThreshold(threshold)]; the source reads the running flag as
    [running] here, the same field as [running_]. *)
Definition setReleaseThreshold_all (threshold : Z) : M unit :=
  init <- isInitialized ;;
  if negb init then skip
  else
    o <- get_this ;;
    let was_running := running_ o in
    (if was_running then stop else skip) ;;
    for_electrodes ELECTRODE_COUNT (fun electrode =>
      setReleaseThreshold (u8 electrode) threshold) ;;
    if was_running then run else skip.

Definition getTouchThreshold (electrode : Z) : M Z :=
  init <- isInitialized ;;
  if (ELECTRODE_COUNT <=? electrode) || negb init then ret 0xFF
  else getRegister (u8 (E0TTH + Z.shiftl electrode 1)).

Definition getReleaseThreshold (electrode : Z) : M Z :=
  init <- isInitialized ;;
  if (ELECTRODE_COUNT <=? electrode) || negb init then ret 0xFF
  else getRegister (u8 (E0RTH + Z.shiftl electrode 1)).

(** *** Configuration *)

Definition setInterruptPin (pin : Z) : M unit :=
  init <- isInitialized ;;
  if negb init then skip
  else
    Arduino_pinMode pin INPUT_PULLUP ;;
    modify (set_interrupt_pin pin).

Definition proximity_bits (mode : ProximityMode) (ecr : Z) : Z :=
  match mode with
  | DISABLED => u8 (Z.land ecr (Z.lnot (Z.shiftl 3 4)))
  | PROX0_1 =>
      u8 (Z.land (u8 (Z.lor ecr (Z.shiftl 1 4))) (Z.lnot (Z.shiftl 1 5)))
  | PROX0_3 =>
      u8 (Z.lor (u8 (Z.land ecr (Z.lnot (Z.shiftl 1 4)))) (Z.shiftl 1 5))
  | PROX0_11 => u8 (Z.lor ecr (Z.shiftl 3 4))
  end.

Definition setProximityMode (mode : ProximityMode) : M unit :=
  init <- isInitialized ;;
  if negb init then skip
  else
    o <- get_this ;;
    let was_running := running_ o in
    (if was_running then stop else skip) ;;
    modify (fun o => set_ecr_backup (proximity_bits mode (ecr_backup_ o)) o) ;;
    if was_running then run else skip.

Definition setDigitalPinCount (pin_count : Z) : M unit :=
  init <- isInitialized ;;
  if negb init then skip
  else
    o <- get_this ;;
    let was_running := running_ o in
    let pin_count :=
      if DIGITAL_PIN_COUNT_MAX <? pin_count then DIGITAL_PIN_COUNT_MAX
      else pin_count in
    (if was_running then stop else skip) ;;
    modify (fun o =>
      set_ecr_backup
        (u8 (Z.lor (Z.land 0x0F ((ELECTRODE_COUNT - 1) - pin_count))
                   (Z.land (ecr_backup_ o) 0xF0))) o) ;;
    if was_running then run else skip.

(** [setRegister(r, getRegister(r) | bitmask)] and
    [setRegister(r, getRegister(r) & ~bitmask)] *)
Definition or_register (r bitmask : Z) : M unit :=
  v <- getRegister r ;; setRegister r (u8 (Z.lor v bitmask)).

Definition andnot_register (r bitmask : Z) : M unit :=
  v <- getRegister r ;; setRegister r (u8 (Z.land v (Z.lnot bitmask))).

(** [pinMode(electrode, PinMode)] *)
Definition pinMode (electrode : Z) (mode : PinMode) : M unit :=
  init <- isInitialized ;;
  if (electrode <? 4) || (11 <? electrode) || negb init then skip
  else
    let bitmask := u8 (Z.shiftl 1 (electrode - 4)) in
    match mode with
    | INPUT_PU =>
        or_register EN bitmask ;; andnot_register DIR bitmask ;;
        or_register CTL0 bitmask ;; or_register CTL1 bitmask
    | INPUT_PD =>
        or_register EN bitmask ;; andnot_register DIR bitmask ;;
        or_register CTL0 bitmask ;; andnot_register CTL1 bitmask
    | OUTPUT_HS =>
        or_register EN bitmask ;; or_register DIR bitmask ;;
        or_register CTL0 bitmask ;; or_register CTL1 bitmask
    | OUTPUT_LS =>
        or_register EN bitmask ;; or_register DIR bitmask ;;
        or_register CTL0 bitmask ;; andnot_register CTL1 bitmask
    end.

(** [pinMode(electrode, int)] *)
Definition pinMode_int (electrode mode : Z) : M unit :=
  init <- isInitialized ;;
  if negb init then skip
  else
    let bitmask := u8 (Z.shiftl 1 (electrode - 4)) in
    if mode =? OUTPUT then
      or_register EN bitmask ;; or_register DIR bitmask ;;
      andnot_register CTL0 bitmask ;; andnot_register CTL1 bitmask
    else if mode =? INPUT then
      or_register EN bitmask ;; andnot_register DIR bitmask ;;
      andnot_register CTL0 bitmask ;; andnot_register CTL1 bitmask
    else skip.

Definition digitalWrite (electrode val : Z) : M unit :=
  init <- isInitialized ;;
  if (electrode <? 4) || (11 <? electrode) || negb init then skip
  else if negb (val =? 0) then setRegister SET (u8 (Z.shiftl 1 (electrode - 4)))
  else setRegister CLR (u8 (Z.shiftl 1 (electrode - 4))).

Definition digitalToggle (electrode : Z) : M unit :=
  init <- isInitialized ;;
  if (electrode <? 4) || (11 <? electrode) || negb init then skip
  else setRegister TOG (u8 (Z.shiftl 1 (electrode - 4))).

Definition digitalRead (electrode : Z) : M bool :=
  init <- isInitialized ;;
  if (electrode <? 4) || (11 <? electrode) || negb init then ret (negb SUCCESS)
  else
    d <- getRegister DAT ;;
    ret (Z.land (Z.shiftr d (electrode - 4)) 1 =? 1).

Definition pwm_low (r shiftedVal : Z) : M unit :=
  scratch <- getRegister r ;;
  setRegister r (u8 (Z.lor (Z.land shiftedVal 0x0F) (Z.land scratch 0xF0))).

Definition pwm_high (r shiftedVal : Z) : M unit :=
  scratch <- getRegister r ;;
  setRegister r
    (u8 (Z.lor (Z.shiftl (Z.land shiftedVal 0x0F) 4) (Z.land scratch 0x0F))).

Definition analogWrite (electrode value : Z) : M unit :=
  init <- isInitialized ;;
  if (electrode <? 4) || (11 <? electrode) || negb init then skip
  else
    let shiftedVal := Z.shiftr value 4 in
    (if 0 <? shiftedVal then setRegister SET (u8 (Z.shiftl 1 (electrode - 4)))
     else setRegister CLR (u8 (Z.shiftl 1 (electrode - 4)))) ;;
    match electrode - 4 with
    | 0 => pwm_low PWM0 shiftedVal
    | 1 => pwm_high PWM0 shiftedVal
    | 2 => pwm_low PWM1 shiftedVal
    | 3 => pwm_high PWM1 shiftedVal
    | 4 => pwm_low PWM2 shiftedVal
    | 5 => pwm_high PWM2 shiftedVal
    | 6 => pwm_low PWM3 shiftedVal
    | 7 => pwm_high PWM3 shiftedVal
    | _ => skip
    end.

Definition setSamplePeriod (period : Z) : M unit :=
  scratch <- getRegister AFE2 ;;
  setRegister AFE2 (u8 (Z.lor (Z.land scratch 0xF8) (Z.land period 0x07))).

End Driver.

(** ** Reading the call trace *)

(** Status of the most recent [endTransmission()] that closed a transaction. *)
Fixpoint last_end_status (t : list Call) : option Z :=
  match t with
  | [] => None
  | EndTransmission true st :: _ => Some st
  | _ :: r => last_end_status r
  end.

(** Byte count answered by the most recent [requestFrom]. *)
Fixpoint last_request_count (t : list Call) : option Z :=
  match t with
  | [] => None
  | RequestFrom _ _ n :: _ => Some n
  | _ :: r => last_request_count r
  end.

(** The calls of one register write and of one register read, most recent
    first, as [setRegister] and [getRegister] issue them. *)
Definition write_calls (a reg value st : Z) : list Call :=
  [EndTransmission true st; WriteByte value; WriteByte reg; BeginTransmission a].

Definition read_calls (a reg st0 got st r : Z) : list Call :=
  [ReadByte r; EndTransmission true st; RequestFrom a 1 got;
   EndTransmission false st0; WriteByte reg; BeginTransmission a].

Definition is_request (c : Call) : bool :=
  match c with
  | RequestFrom _ _ _ => true
  | _ => false
  end.

Definition no_request (c : Call) : bool := negb (is_request c).

Definition any_call (c : Call) : bool := true.

(** [m] only appends calls that satisfy [P]. *)
Definition adds_only {W A} (P : Call -> bool) (m : M W A) : Prop :=
  forall s, exists new,
    trace (snd (m s)) = new ++ trace s /\ forallb P new = true.

(** Run from [s], [m] opens a transmission to the chip. *)
Definition issues_transaction {W A} (m : M W A) (s : Sys W) : Prop :=
  exists new,
    trace (snd (m s)) = new ++ trace s /\
    In (BeginTransmission (address_ (this s))) new.

(** Between [s] and [s'] a transaction was closed, and the address-unknown
    flag of [s'] tells whether the last one failed. *)
Definition reflects_last_transaction `{Header} {W} (s s' : Sys W) : Prop :=
  exists new st,
    trace s' = new ++ trace s /\
    last_end_status new = Some st /\
    flag_set (error_byte_ (this s')) ADDRESS_UNKNOWN_BIT = negb (st =? 0).

(** ** The error report as the specification words it

    A set of independent flags, and the first one set in the order
    not-initialized, address-unknown, readback-failure, overcurrent,
    out-of-range; none when no flag is set. *)

Record Flags := {
  not_initialized : bool;
  address_unknown : bool;
  readback_failure : bool;
  overcurrent : bool;
  out_of_range : bool
}.

Definition flags_of `{Header} (e : Z) : Flags :=
  {| not_initialized := Z.testbit e NOT_INITIALIZED_BIT;
     address_unknown := Z.testbit e ADDRESS_UNKNOWN_BIT;
     readback_failure := Z.testbit e READBACK_FAIL_BIT;
     overcurrent := Z.testbit e OVERCURRENT_FLAG_BIT;
     out_of_range := Z.testbit e OUT_OF_RANGE_BIT |}.

Definition precedence (f : Flags) : list (bool * Error) :=
  [(not_initialized f, NOT_INITIALIZED);
   (address_unknown f, ADDRESS_UNKNOWN);
   (readback_failure f, READBACK_FAIL);
   (overcurrent f, OVERCURRENT_FLAG);
   (out_of_range f, OUT_OF_RANGE)].

Fixpoint first_set (l : list (bool * Error)) : Error :=
  match l with
  | [] => NO_ERROR
  | (true, e) :: _ => e
  | (false, _) :: r => first_set r
  end.

Definition current_error (f : Flags) : Error := first_set (precedence f).

(** ** A header and a simulated chip for closed examples

    [MPR121.h] is not among the sources.  The values below are those of the
    chip's register map, with thirteen electrodes; they serve the closed
    examples only, and no theorem stated over [Header] depends on them. *)
Definition example_header : Header :=
  {| NOT_INITIALIZED_BIT := 0; ADDRESS_UNKNOWN_BIT := 1;
     READBACK_FAIL_BIT := 2; OVERCURRENT_FLAG_BIT := 3; OUT_OF_RANGE_BIT := 4;
     ELECTRODE_COUNT := 13; DIGITAL_PIN_COUNT_MAX := 8; SUCCESS := true;
     TS1 := 0x00; TS2 := 0x01; OORS1 := 0x02; OORS2 := 0x03;
     E0FDL := 0x04; E0BV := 0x1E; E0TTH := 0x41; E0RTH := 0x42;
     AFE2 := 0x5D; ECR := 0x5E; SRST := 0x80;
     CTL0 := 0x73; CTL1 := 0x74; DAT := 0x75; DIR := 0x76; EN := 0x77;
     SET := 0x78; CLR := 0x79; TOG := 0x7A;
     PWM0 := 0x81; PWM1 := 0x82; PWM2 := 0x83; PWM3 := 0x84;
     INPUT := 0; OUTPUT := 1; INPUT_PULLUP := 2;
     data_cast := fun x => x |}.

(** The two orders a compiler may choose for the reads of
    [updateTouchData]. *)
Definition TS1_first : OperandOrder := {| TS1_read_first := true |}.
Definition TS2_first : OperandOrder := {| TS1_read_first := false |}.

(** A register file behind the bus: a write transaction of two bytes stores
    the second at the first, one byte sets the read pointer, [requestFrom]
    answers from the pointer on.  [chip_ack = false] is an absent chip;
    [chip_burst] bounds the bytes one [requestFrom] delivers. *)
Record Chip := mkChip {
  chip_regs : Z -> Z;
  chip_ack : bool;
  chip_burst : Z;
  chip_irq : Z;
  chip_ptr : Z;
  chip_tx : list Z;
  chip_rx : list Z
}.

Definition chip_store (r v : Z) (f : Z -> Z) : Z -> Z :=
  fun x => if x =? r then v else f x.

Definition chip_commit (c : Chip) : Chip :=
  match chip_tx c with
  | [] => c
  | [r] => mkChip (chip_regs c) (chip_ack c) (chip_burst c) (chip_irq c)
                  r [] (chip_rx c)
  | r :: v :: _ =>
      mkChip (chip_store r v (chip_regs c)) (chip_ack c) (chip_burst c)
             (chip_irq c) r [] (chip_rx c)
  end.

Definition chip_drop_tx (c : Chip) : Chip :=
  mkChip (chip_regs c) (chip_ack c) (chip_burst c) (chip_irq c)
         (chip_ptr c) [] (chip_rx c).

#[export] Instance Chip_wire : TwoWire Chip := {
  tw_beginTransmission _ c := chip_drop_tx c;
  tw_write b c :=
    mkChip (chip_regs c) (chip_ack c) (chip_burst c) (chip_irq c)
           (chip_ptr c) (chip_tx c ++ [b]) (chip_rx c);
  tw_endTransmission _ c :=
    if chip_ack c then (0, chip_commit c) else (2, chip_drop_tx c);
  tw_requestFrom _ q c :=
    let n := if chip_ack c then Z.min q (chip_burst c) else 0 in
    (n, mkChip (chip_regs c) (chip_ack c) (chip_burst c) (chip_irq c)
               (chip_ptr c) (chip_tx c)
               (map (fun i => chip_regs c (chip_ptr c + Z.of_nat i))
                    (seq 0 (Z.to_nat n))));
  tw_read c :=
    match chip_rx c with
    | [] => (-1, c)
    | b :: r =>
        (b, mkChip (chip_regs c) (chip_ack c) (chip_burst c) (chip_irq c)
                   (chip_ptr c) (chip_tx c) r)
    end
}.

#[export] Instance Chip_pins : ArduinoPins Chip := {
  pin_digitalRead _ c := (chip_irq c, c);
  pin_pinMode _ _ c := c
}.

(** A chip that answers, with the given register contents. *)
Definition chip_with (regs : Z -> Z) : Chip :=
  mkChip regs true 255 1 0 [] [].

Definition regs_of (l : list (Z * Z)) : Z -> Z :=
  fold_right (fun p f => chip_store (fst p) (snd p) f) (fun _ => 0) l.

(** The handle as the constructor leaves it, in front of a chip. *)
Definition fresh (c : Chip) : Sys Chip :=
  mkSys (@MPR121_new example_header 0 (replicate 13 0) (replicate 13 0)) c [].

(** The handle as [begin()] hands it to [reset()]: the not-initialized flag
    cleared by [error_byte_ &= ~(1<<NOT_INITIALIZED_BIT)]. *)
Definition started (c : Chip) : Sys Chip :=
  mkSys (set_error_byte
           (lower_flag (error_byte_ (this (fresh c)))
                       (@NOT_INITIALIZED_BIT example_header))
           (this (fresh c))) c [].


(** * The rest of the driver: bus set-up, settings, [begin] *)

(** [begin()] and [setClock()] of the bus object.  They move no byte; the
    call trace, which lists transfers and pin calls, does not record them. *)
Class TwoWireSetup (W : Type) := {
  tw_begin : W -> W;
  tw_setClock : Z -> W -> W
}.

(** The [Settings] record of the header, with the fields [applySettings]
    reads. *)
Module Settings.
Record t := {
  TTHRESH : Z; RTHRESH : Z; INTERRUPT : Z;
  MHDR : Z; NHDR : Z; NCLR : Z; FDLR : Z;
  MHDF : Z; NHDF : Z; NCLF : Z; FDLF : Z;
  NHDT : Z; NCLT : Z; FDLT : Z;
  MHDPROXR : Z; NHDPROXR : Z; NCLPROXR : Z; FDLPROXR : Z;
  MHDPROXF : Z; NHDPROXF : Z; NCLPROXF : Z; FDLPROXF : Z;
  NHDPROXT : Z; NCLPROXT : Z; FDLPROXT : Z;
  DTR : Z; AFE1 : Z; AFE2 : Z; ECR : Z;
  ACCR0 : Z; ACCR1 : Z; USL : Z; LSL : Z; TL : Z
}.
End Settings.

(** The register addresses [applySettings] writes besides AFE2 and ECR, and
    the default settings, all declared in [MPR121.h]. *)
Class SettingsHeader := {
  MHDR : Z; NHDR : Z; NCLR : Z; FDLR : Z;
  MHDF : Z; NHDF : Z; NCLF : Z; FDLF : Z;
  NHDT : Z; NCLT : Z; FDLT : Z;
  MHDPROXR : Z; NHDPROXR : Z; NCLPROXR : Z; FDLPROXR : Z;
  MHDPROXF : Z; NHDPROXF : Z; NCLPROXF : Z; FDLPROXF : Z;
  NHDPROXT : Z; NCLPROXT : Z; FDLPROXT : Z;
  DTR : Z; AFE1 : Z;
  ACCR0 : Z; ACCR1 : Z; USL : Z; LSL : Z; TL : Z;
  default_settings_ : Settings.t
}.

Section Setup.

Context {hd : Header} {sh : SettingsHeader} {order : OperandOrder}
        {W : Type} {wire : TwoWire W} {pins : ArduinoPins W}
        {setup : TwoWireSetup W}.

Local Abbreviation M := (M W).

Definition Wire_begin : M unit :=
  fun s => (tt, mkSys (this s) (tw_begin (world s)) (trace s)).

Definition Wire_setClock (hz : Z) : M unit :=
  fun s => (tt, mkSys (this s) (tw_setClock hz (world s)) (trace s)).

Definition goSlow : M unit := Wire_setClock 100000.

Definition goFast : M unit := Wire_setClock 400000.

(** The source reads the fields through [settings->]; the running flag is
    spelled [running]. *)
Definition applySettings (settings : Settings.t) : M unit :=
  o <- get_this ;;
  let was_running := running_ o in
  (if was_running then stop else skip) ;;
  setRegister MHDR (Settings.MHDR settings) ;;
  setRegister NHDR (Settings.NHDR settings) ;;
  setRegister NCLR (Settings.NCLR settings) ;;
  setRegister FDLR (Settings.FDLR settings) ;;
  setRegister MHDF (Settings.MHDF settings) ;;
  setRegister NHDF (Settings.NHDF settings) ;;
  setRegister NCLF (Settings.NCLF settings) ;;
  setRegister FDLF (Settings.FDLF settings) ;;
  setRegister NHDT (Settings.NHDT settings) ;;
  setRegister NCLT (Settings.NCLT settings) ;;
  setRegister FDLT (Settings.FDLT settings) ;;
  setRegister MHDPROXR (Settings.MHDPROXR settings) ;;
  setRegister NHDPROXR (Settings.NHDPROXR settings) ;;
  setRegister NCLPROXR (Settings.NCLPROXR settings) ;;
  setRegister FDLPROXR (Settings.FDLPROXR settings) ;;
  setRegister MHDPROXF (Settings.MHDPROXF settings) ;;
  setRegister NHDPROXF (Settings.NHDPROXF settings) ;;
  setRegister NCLPROXF (Settings.NCLPROXF settings) ;;
  setRegister FDLPROXF (Settings.FDLPROXF settings) ;;
  setRegister NHDPROXT (Settings.NHDPROXT settings) ;;
  setRegister NCLPROXT (Settings.NCLPROXT settings) ;;
  setRegister FDLPROXT (Settings.FDLPROXT settings) ;;
  setRegister DTR (Settings.DTR settings) ;;
  setRegister AFE1 (Settings.AFE1 settings) ;;
  setRegister AFE2 (Settings.AFE2 settings) ;;
  setRegister ACCR0 (Settings.ACCR0 settings) ;;
  setRegister ACCR1 (Settings.ACCR1 settings) ;;
  setRegister USL (Settings.USL settings) ;;
  setRegister LSL (Settings.LSL settings) ;;
  setRegister TL (Settings.TL settings) ;;
  setRegister ECR (Settings.ECR settings) ;;
  modify (fun o =>
    set_error_byte (lower_flag (error_byte_ o) NOT_INITIALIZED_BIT) o) ;;
  setTouchThreshold_all (Settings.TTHRESH settings) ;;
  setReleaseThreshold_all (Settings.RTHRESH settings) ;;
  setInterruptPin (Settings.INTERRUPT settings) ;;
  if was_running then run else skip.

(** [begin()]: the test is [if (reset())], on the value [reset] returns. *)
Definition begin : M bool :=
  Wire_begin ;;
  modify (fun o =>
    set_error_byte (lower_flag (error_byte_ o) NOT_INITIALIZED_BIT) o) ;;
  ok <- reset ;;
  if ok then
    applySettings default_settings_ ;;
    ret SUCCESS
  else ret (negb SUCCESS).

Definition set_address (v : Z) (o : MPR121) : MPR121 :=
  {| address_ := v; ecr_backup_ := ecr_backup_ o;
     error_byte_ := error_byte_ o;
     running_ := running_ o; touch_data_ := touch_data_ o;
     touch_data_previous_ := touch_data_previous_ o;
     auto_touch_status_flag_ := auto_touch_status_flag_ o;
     interrupt_pin_ := interrupt_pin_ o;
     baseline_data_ := baseline_data_ o; filtered_data_ := filtered_data_ o |}.

(** [begin(address)] *)
Definition begin_at (address : Z) : M bool :=
  modify (set_address address) ;;
  begin.

End Setup.

(** ** More readers of the call trace and of the handle *)

(** The register writes a trace holds, most recent first: each is the four
    calls of the transaction in [setRegister]. *)
Fixpoint register_writes (t : list Call) : list (Z * Z) :=
  match t with
  | EndTransmission true _ :: WriteByte v :: WriteByte r
      :: BeginTransmission _ :: rest => (r, v) :: register_writes rest
  | _ :: rest => register_writes rest
  | [] => []
  end.

(** The bytes taken with [read()], most recent first. *)
Fixpoint reads_of (t : list Call) : list Z :=
  match t with
  | [] => []
  | ReadByte v :: rest => v :: reads_of rest
  | _ :: rest => reads_of rest
  end.

(** The single-register reads [(register, byte)] of a trace, most recent
    first: the six calls of [getRegister]. *)
Fixpoint register_reads (t : list Call) : list (Z * Z) :=
  match t with
  | ReadByte v :: EndTransmission true _ :: RequestFrom _ 1 _
      :: EndTransmission false _ :: WriteByte r :: BeginTransmission _ :: rest =>
      (r, v) :: register_reads rest
  | _ :: rest => register_reads rest
  | [] => []
  end.

(** The electrodes below [count] whose bit is set in a touch bitmap. *)
Definition touched_electrodes (bitmap count : Z) : list Z :=
  filter (fun e => Z.testbit bitmap e = true) (seqZ 0 count).

(** [(touch_data_ >> electrode) & 1] as a condition. *)
Definition bit_at (x electrode : Z) : bool :=
  negb (Z.land (Z.shiftr x electrode) 1 =? 0).

(** The writes of one threshold loop, in the order issued: register
    [base + 2*electrode] for each electrode. *)
Definition threshold_writes (base threshold count : Z) : list (Z * Z) :=
  map (fun e => (u8 (base + Z.shiftl e 1), threshold)) (seqZ 0 count).

(** Example values for the settings header (register map addresses and the
    usual defaults), for closed examples only. *)
Definition example_settings : Settings.t :=
  {| Settings.TTHRESH := 40; Settings.RTHRESH := 20; Settings.INTERRUPT := 4;
     Settings.MHDR := 0x01; Settings.NHDR := 0x01; Settings.NCLR := 0x10;
     Settings.FDLR := 0x20; Settings.MHDF := 0x01; Settings.NHDF := 0x01;
     Settings.NCLF := 0x10; Settings.FDLF := 0x20; Settings.NHDT := 0x01;
     Settings.NCLT := 0x10; Settings.FDLT := 0xFF;
     Settings.MHDPROXR := 0x0F; Settings.NHDPROXR := 0x0F;
     Settings.NCLPROXR := 0x00; Settings.FDLPROXR := 0x00;
     Settings.MHDPROXF := 0x01; Settings.NHDPROXF := 0x01;
     Settings.NCLPROXF := 0xFF; Settings.FDLPROXF := 0xFF;
     Settings.NHDPROXT := 0x00; Settings.NCLPROXT := 0x00;
     Settings.FDLPROXT := 0x00;
     Settings.DTR := 0x11; Settings.AFE1 := 0xFF; Settings.AFE2 := 0x30;
     Settings.ECR := 0xCC;
     Settings.ACCR0 := 0x00; Settings.ACCR1 := 0x00;
     Settings.USL := 0x00; Settings.LSL := 0x00; Settings.TL := 0x00 |}.

Definition example_settings_header : SettingsHeader :=
  {| MHDR := 0x2B; NHDR := 0x2C; NCLR := 0x2D; FDLR := 0x2E;
     MHDF := 0x2F; NHDF := 0x30; NCLF := 0x31; FDLF := 0x32;
     NHDT := 0x33; NCLT := 0x34; FDLT := 0x35;
     MHDPROXR := 0x36; NHDPROXR := 0x37; NCLPROXR := 0x38; FDLPROXR := 0x39;
     MHDPROXF := 0x3A; NHDPROXF := 0x3B; NCLPROXF := 0x3C; FDLPROXF := 0x3D;
     NHDPROXT := 0x3E; NCLPROXT := 0x3F; FDLPROXT := 0x40;
     DTR := 0x5B; AFE1 := 0x5C;
     ACCR0 := 0x7B; ACCR1 := 0x7C; USL := 0x7D; LSL := 0x7E; TL := 0x7F;
     default_settings_ := example_settings |}.

#[export] Instance Chip_setup : TwoWireSetup Chip := {
  tw_begin c := c;
  tw_setClock _ c := c
}.

(** The not-initialized and the readback flag: the two flags no register
    access writes. *)
Definition quiet_bit `{Header} (b : Z) : Prop :=
  b = NOT_INITIALIZED_BIT \/ b = READBACK_FAIL_BIT.

(** The ELEPROX field (bits 5 and 4 of ECR) each proximity mode stands
    for, as the comments of [setProximityMode] give it. *)
Definition proximity_code (mode : ProximityMode) : Z :=
  match mode with
  | DISABLED => 0x00
  | PROX0_1 => 0x10
  | PROX0_3 => 0x20
  | PROX0_11 => 0x30
  end.

(** The byte [setDigitalPinCount] computes from the saved ECR. *)
Definition pin_count_bits `{Header} (pin_count ecr : Z) : Z :=
  let pin_count :=
    if DIGITAL_PIN_COUNT_MAX <? pin_count then DIGITAL_PIN_COUNT_MAX
    else pin_count in
  u8 (Z.lor (Z.land 0x0F ((ELECTRODE_COUNT - 1) - pin_count))
            (Z.land ecr 0xF0)).

(** *** The digital pins *)

(** [1<<(electrode-4)] as the byte the GPIO methods pass on. *)
Definition one_hot (electrode : Z) : Z := u8 (Z.shiftl 1 (electrode - 4)).

(** [reg | bitmask] and [reg & ~bitmask], as the bytes handed to
    [setRegister]. *)
Definition with_bit (b : bool) (bitmask v : Z) : Z :=
  if b then u8 (Z.lor v bitmask) else u8 (Z.land v (Z.lnot bitmask)).

(** The EN, DIR, CTL0, CTL1 bits of each pin mode, from the comments of
    [pinMode]. *)
Definition pin_mode_bits (mode : PinMode) : bool * bool * bool * bool :=
  match mode with
  | INPUT_PU => (true, false, true, true)
  | INPUT_PD => (true, false, true, false)
  | OUTPUT_HS => (true, true, true, true)
  | OUTPUT_LS => (true, true, true, false)
  end.

(** The PWM register of an electrode and the byte [analogWrite] writes to
    it: electrodes 4, 6, 8, 10 own the low nibble, the others the high. *)
Definition pwm_register `{Header} (electrode : Z) : Z :=
  match electrode - 4 with
  | 0 | 1 => PWM0
  | 2 | 3 => PWM1
  | 4 | 5 => PWM2
  | _ => PWM3
  end.

Definition pwm_byte (electrode shiftedVal scratch : Z) : Z :=
  if Z.even (electrode - 4)
  then u8 (Z.lor (Z.land shiftedVal 0x0F) (Z.land scratch 0xF0))
  else u8 (Z.lor (Z.shiftl (Z.land shiftedVal 0x0F) 4) (Z.land scratch 0x0F)).

(** A register at or above CTL0, other than ECR: what the comment of
    [setRegister] calls a GPIO / LED register. *)
Definition gpio_register `{Header} (reg : Z) : Prop := reg <> ECR /\ CTL0 <= reg.

(** What a call left alone: the running flag, the saved ECR, the address. *)
Definition scan_untouched {W} (s s' : Sys W) : Prop :=
  running_ (this s') = running_ (this s) /\
  ecr_backup_ (this s') = ecr_backup_ (this s) /\
  address_ (this s') = address_ (this s).

(** [or_register] and [andnot_register] under one name. *)
Definition edit_bit `{Header} {W} `{TwoWire W}
    (b : bool) (reg bitmask : Z) : M W unit :=
  if b then or_register reg bitmask else andnot_register reg bitmask.

(** ** The methods as data, and what each may modify *)

(** Between the handle before a method and the handle after it, [R] holds. *)
Definition respects {W A} (R : MPR121 -> MPR121 -> Prop) (m : M W A) : Prop :=
  forall s, R (this s) (this (snd (m s))).

(** One call of a public method, with its arguments. *)
Inductive Op :=
| op_getError | op_clearError | op_touchStatusChanged
| op_updateTouchData | op_updateBaselineData | op_updateFilteredData
| op_updateAll
| op_touched (electrode : Z) | op_getTouchCount
| op_getBaselineData (electrode : Z) | op_getFilteredData (electrode : Z)
| op_isNewTouch (electrode : Z) | op_isNewRelease (electrode : Z)
| op_getPreviousTouchData (electrode : Z)
| op_setTouchThreshold_all (threshold : Z)
| op_setTouchThreshold (electrode threshold : Z)
| op_setReleaseThreshold_all (threshold : Z)
| op_setReleaseThreshold (electrode threshold : Z)
| op_getTouchThreshold (electrode : Z) | op_getReleaseThreshold (electrode : Z)
| op_goSlow | op_goFast
| op_setRegister (reg value : Z) | op_getRegister (reg : Z)
| op_run | op_stop | op_reset | op_isRunning | op_isInitialized
| op_setInterruptPin (pin : Z)
| op_setProximityMode (mode : ProximityMode)
| op_setDigitalPinCount (pin_count : Z)
| op_pinMode (electrode : Z) (mode : PinMode)
| op_pinMode_int (electrode mode : Z)
| op_digitalWrite (electrode val : Z) | op_digitalToggle (electrode : Z)
| op_digitalRead (electrode : Z)
| op_analogWrite (electrode value : Z)
| op_setSamplePeriod (period : Z)
| op_applySettings (settings : Settings.t)
| op_begin | op_begin_at (address : Z).

(** The methods that write the not-initialized flag. *)
Definition sets_up (op : Op) : bool :=
  match op with
  | op_clearError | op_applySettings _ | op_begin | op_begin_at _ => true
  | _ => false
  end.

(** The methods that return at once unless [isInitialized()] ([updateAll]
    through the three it calls). *)
Definition guarded (op : Op) : bool :=
  match op with
  | op_updateTouchData | op_updateBaselineData | op_updateFilteredData
  | op_updateAll | op_getTouchCount | op_run | op_stop
  | op_touched _ | op_getPreviousTouchData _
  | op_getBaselineData _ | op_getFilteredData _
  | op_isNewTouch _ | op_isNewRelease _
  | op_getTouchThreshold _ | op_getReleaseThreshold _
  | op_digitalRead _
  | op_setTouchThreshold_all _ | op_setTouchThreshold _ _
  | op_setReleaseThreshold_all _ | op_setReleaseThreshold _ _
  | op_setInterruptPin _ | op_setProximityMode _ | op_setDigitalPinCount _
  | op_pinMode _ _ | op_pinMode_int _ _
  | op_digitalWrite _ _ | op_digitalToggle _
  | op_analogWrite _ _ => true
  | _ => false
  end.

(** The electrode argument of a guarded method is one its range test lets
    through.  [pinMode(uint8_t, int)] has no range test; outside 4..11 its
    shift count is negative or too large, so it is taken in that range
    only. *)
Definition in_range `{Header} (op : Op) : bool :=
  match op with
  | op_touched e | op_getBaselineData e | op_getFilteredData e
  | op_isNewTouch e | op_isNewRelease e | op_getPreviousTouchData e
  | op_getTouchThreshold e | op_getReleaseThreshold e
  | op_setTouchThreshold e _ | op_setReleaseThreshold e _ =>
      e <? ELECTRODE_COUNT
  | op_pinMode e _ | op_pinMode_int e _
  | op_digitalWrite e _ | op_digitalToggle e | op_digitalRead e
  | op_analogWrite e _ => (4 <=? e) && (e <=? 11)
  | _ => true
  end.

(** Whether the body of a guarded method, past its guard and with its
    argument in range, has a call that goes to the chip; [running] is the
    running flag at the call.  The queries answer from the handle,
    [setInterruptPin] only sets a pin mode, the two methods that edit the
    saved ECR go to the chip only to stop and restart it, the threshold
    loops only when there is an electrode or a scan to stop, and
    [pinMode(uint8_t, int)] only for [OUTPUT] and [INPUT]. *)
Definition talks_to_chip `{Header} (running : bool) (op : Op) : bool :=
  match op with
  | op_updateTouchData | op_updateBaselineData | op_updateFilteredData
  | op_updateAll | op_run | op_stop
  | op_getTouchThreshold _ | op_getReleaseThreshold _
  | op_setTouchThreshold _ _ | op_setReleaseThreshold _ _
  | op_pinMode _ _ | op_digitalWrite _ _ | op_digitalToggle _
  | op_digitalRead _ | op_analogWrite _ _ => true
  | op_setTouchThreshold_all _ | op_setReleaseThreshold_all _ =>
      running || (0 <? ELECTRODE_COUNT)
  | op_setProximityMode _ | op_setDigitalPinCount _ => running
  | op_pinMode_int _ mode => (mode =? OUTPUT) || (mode =? INPUT)
  | op_touched _ | op_getTouchCount
  | op_getBaselineData _ | op_getFilteredData _
  | op_isNewTouch _ | op_isNewRelease _ | op_getPreviousTouchData _
  | op_setInterruptPin _ => false
  | _ => false  (* the methods without the guard are not classified *)
  end.

Definition is_pin_call (c : Call) : bool :=
  match c with
  | DigitalRead _ _ | SetPinMode _ _ => true
  | _ => false
  end.

(** Run from [s], [m] makes no call on the bus: what it appends to the
    trace are calls to the Arduino pin primitives. *)
Definition stays_off_bus {W A} (m : M W A) (s : Sys W) : Prop :=
  exists new,
    trace (snd (m s)) = new ++ trace s /\ forallb is_pin_call new = true.

(** The methods that clear [auto_touch_status_flag_]. *)
Definition refreshes_touch (op : Op) : bool :=
  match op with
  | op_updateTouchData | op_updateAll => true
  | _ => false
  end.

Section Api.

Context {hd : Header} {sh : SettingsHeader} {order : OperandOrder}
        {W : Type} {wire : TwoWire W} {pins : ArduinoPins W}
        {setup : TwoWireSetup W}.

Definition void {A} (m : M W A) : M W unit := _ <- m ;; skip.

Definition exec (op : Op) : M W unit :=
  match op with
  | op_getError => void getError
  | op_clearError => clearError
  | op_touchStatusChanged => void touchStatusChanged
  | op_updateTouchData => updateTouchData
  | op_updateBaselineData => void updateBaselineData
  | op_updateFilteredData => void updateFilteredData
  | op_updateAll => updateAll
  | op_touched e => void (touched e)
  | op_getTouchCount => void getTouchCount
  | op_getBaselineData e => void (getBaselineData e)
  | op_getFilteredData e => void (getFilteredData e)
  | op_isNewTouch e => void (isNewTouch e)
  | op_isNewRelease e => void (isNewRelease e)
  | op_getPreviousTouchData e => void (getPreviousTouchData e)
  | op_setTouchThreshold_all t => setTouchThreshold_all t
  | op_setTouchThreshold e t => setTouchThreshold e t
  | op_setReleaseThreshold_all t => setReleaseThreshold_all t
  | op_setReleaseThreshold e t => setReleaseThreshold e t
  | op_getTouchThreshold e => void (getTouchThreshold e)
  | op_getReleaseThreshold e => void (getReleaseThreshold e)
  | op_goSlow => goSlow
  | op_goFast => goFast
  | op_setRegister r v => setRegister r v
  | op_getRegister r => void (getRegister r)
  | op_run => run
  | op_stop => stop
  | op_reset => void reset
  | op_isRunning => void isRunning
  | op_isInitialized => void isInitialized
  | op_setInterruptPin p => setInterruptPin p
  | op_setProximityMode m => setProximityMode m
  | op_setDigitalPinCount n => setDigitalPinCount n
  | op_pinMode e m => pinMode e m
  | op_pinMode_int e m => pinMode_int e m
  | op_digitalWrite e v => digitalWrite e v
  | op_digitalToggle e => digitalToggle e
  | op_digitalRead e => void (digitalRead e)
  | op_analogWrite e v => analogWrite e v
  | op_setSamplePeriod p => setSamplePeriod p
  | op_applySettings st => applySettings st
  | op_begin => void begin
  | op_begin_at a => void (begin_at a)
  end.

(** A program of the user: calls one after the other. *)
Fixpoint exec_all (ops : list Op) : M W unit :=
  match ops with
  | [] => skip
  | op :: rest => exec op ;; exec_all rest
  end.

End Api.

(** The fields of the handle a method may assign. *)
Record Footprint := {
  fp_address : bool;
  fp_ecr_backup : bool;
  fp_error_byte : bool;
  fp_running : bool;
  fp_touch_data : bool;
  fp_auto_flag : bool;
  fp_interrupt_pin : bool;
  fp_baseline : bool;
  fp_filtered : bool
}.

(** [o'] agrees with [o] on every field outside the footprint;
    [fp_touch_data] stands for both touch bitmaps. *)
Definition within (F : Footprint) (o o' : MPR121) : Prop :=
  (fp_address F = false -> address_ o' = address_ o) /\
  (fp_ecr_backup F = false -> ecr_backup_ o' = ecr_backup_ o) /\
  (fp_error_byte F = false -> error_byte_ o' = error_byte_ o) /\
  (fp_running F = false -> running_ o' = running_ o) /\
  (fp_touch_data F = false ->
     touch_data_ o' = touch_data_ o /\
     touch_data_previous_ o' = touch_data_previous_ o) /\
  (fp_auto_flag F = false ->
     auto_touch_status_flag_ o' = auto_touch_status_flag_ o) /\
  (fp_interrupt_pin F = false -> interrupt_pin_ o' = interrupt_pin_ o) /\
  (fp_baseline F = false -> baseline_data_ o' = baseline_data_ o) /\
  (fp_filtered F = false -> filtered_data_ o' = filtered_data_ o).

Definition fp_none : Footprint :=
  {| fp_address := false; fp_ecr_backup := false; fp_error_byte := false;
     fp_running := false; fp_touch_data := false; fp_auto_flag := false;
     fp_interrupt_pin := false; fp_baseline := false; fp_filtered := false |}.

(** Only the error byte: a register read. *)
Definition fp_read : Footprint :=
  {| fp_address := false; fp_ecr_backup := false; fp_error_byte := true;
     fp_running := false; fp_touch_data := false; fp_auto_flag := false;
     fp_interrupt_pin := false; fp_baseline := false; fp_filtered := false |}.

(** Error byte and running flag: [run()]. *)
Definition fp_run : Footprint :=
  {| fp_address := false; fp_ecr_backup := false; fp_error_byte := true;
     fp_running := true; fp_touch_data := false; fp_auto_flag := false;
     fp_interrupt_pin := false; fp_baseline := false; fp_filtered := false |}.

(** Error byte, running flag and the saved ECR: a register write, with its
    possible [stop()] and [run()]. *)
Definition fp_write : Footprint :=
  {| fp_address := false; fp_ecr_backup := true; fp_error_byte := true;
     fp_running := true; fp_touch_data := false; fp_auto_flag := false;
     fp_interrupt_pin := false; fp_baseline := false; fp_filtered := false |}.

Definition fp_touch : Footprint :=
  {| fp_address := false; fp_ecr_backup := false; fp_error_byte := true;
     fp_running := false; fp_touch_data := true; fp_auto_flag := true;
     fp_interrupt_pin := false; fp_baseline := false; fp_filtered := false |}.

Definition fp_baseline_only : Footprint :=
  {| fp_address := false; fp_ecr_backup := false; fp_error_byte := false;
     fp_running := false; fp_touch_data := false; fp_auto_flag := true;
     fp_interrupt_pin := false; fp_baseline := true; fp_filtered := false |}.

Definition fp_filtered_only : Footprint :=
  {| fp_address := false; fp_ecr_backup := false; fp_error_byte := false;
     fp_running := false; fp_touch_data := false; fp_auto_flag := true;
     fp_interrupt_pin := false; fp_baseline := false; fp_filtered := true |}.

Definition fp_update_all : Footprint :=
  {| fp_address := false; fp_ecr_backup := false; fp_error_byte := true;
     fp_running := false; fp_touch_data := true; fp_auto_flag := true;
     fp_interrupt_pin := false; fp_baseline := true; fp_filtered := true |}.

Definition fp_pin : Footprint :=
  {| fp_address := false; fp_ecr_backup := false; fp_error_byte := false;
     fp_running := false; fp_touch_data := false; fp_auto_flag := false;
     fp_interrupt_pin := true; fp_baseline := false; fp_filtered := false |}.

Definition fp_settings : Footprint :=
  {| fp_address := false; fp_ecr_backup := true; fp_error_byte := true;
     fp_running := true; fp_touch_data := false; fp_auto_flag := false;
     fp_interrupt_pin := true; fp_baseline := false; fp_filtered := false |}.

Definition fp_begin_at : Footprint :=
  {| fp_address := true; fp_ecr_backup := true; fp_error_byte := true;
     fp_running := true; fp_touch_data := false; fp_auto_flag := false;
     fp_interrupt_pin := true; fp_baseline := false; fp_filtered := false |}.

Definition footprint (op : Op) : Footprint :=
  match op with
  | op_touchStatusChanged | op_touched _ | op_getTouchCount
  | op_getBaselineData _ | op_getFilteredData _
  | op_isNewTouch _ | op_isNewRelease _ | op_getPreviousTouchData _
  | op_goSlow | op_goFast | op_isRunning | op_isInitialized => fp_none
  | op_getError | op_clearError | op_getRegister _
  | op_getTouchThreshold _ | op_getReleaseThreshold _
  | op_digitalRead _ => fp_read
  | op_run => fp_run
  | op_updateTouchData => fp_touch
  | op_updateBaselineData => fp_baseline_only
  | op_updateFilteredData => fp_filtered_only
  | op_updateAll => fp_update_all
  | op_setInterruptPin _ => fp_pin
  | op_applySettings _ | op_begin => fp_settings
  | op_begin_at _ => fp_begin_at
  | op_setTouchThreshold_all _ | op_setTouchThreshold _ _
  | op_setReleaseThreshold_all _ | op_setReleaseThreshold _ _
  | op_setRegister _ _ | op_stop | op_reset
  | op_setProximityMode _ | op_setDigitalPinCount _
  | op_pinMode _ _ | op_pinMode_int _ _
  | op_digitalWrite _ _ | op_digitalToggle _ | op_analogWrite _ _
  | op_setSamplePeriod _ => fp_write
  end.
(** * Properties *)

(** ** Flags of the error byte *)

Lemma bit_mask_neg (b : Z) : b < 0 -> bit_mask b = 0.
Proof.
  intros Hb. unfold bit_mask.
  rewrite Z.shiftl_div_pow2 by lia.
  apply Z.div_small. split; [lia|].
  apply Z.pow_gt_1; lia.
Qed.

Lemma bit_mask_pow2 (b : Z) : 0 <= b -> bit_mask b = 2 ^ b.
Proof. intros Hb. unfold bit_mask. now rewrite Z.shiftl_1_l. Qed.

Lemma bit_mask_testbit (b i : Z) :
  0 <= b -> Z.testbit (bit_mask b) i = (b =? i).
Proof.
  intros Hb. rewrite bit_mask_pow2 by assumption.
  apply Z.pow2_bits_eqb; assumption.
Qed.

Lemma land_bit_mask (e b : Z) :
  0 <= b -> Z.land e (bit_mask b) = if Z.testbit e b then 2 ^ b else 0.
Proof.
  intros Hb. apply Z.bits_inj'. intros i Hi.
  rewrite Z.land_spec, bit_mask_testbit by assumption.
  destruct (Z.eqb_spec b i) as [->|Hne].
  - destruct (Z.testbit e i) eqn:E.
    + rewrite Z.pow2_bits_true by assumption. reflexivity.
    + rewrite Z.bits_0. reflexivity.
  - rewrite andb_false_r.
    destruct (Z.testbit e b).
    + rewrite Z.pow2_bits_false by lia. reflexivity.
    + rewrite Z.bits_0. reflexivity.
Qed.

(** The condition [error_byte_ & (1<<bit)] tests exactly that bit. *)
Lemma flag_set_testbit (e b : Z) : flag_set e b = Z.testbit e b.
Proof.
  unfold flag_set. destruct (Z.ltb_spec b 0) as [Hneg|Hpos].
  - rewrite bit_mask_neg, Z.land_0_r, Z.testbit_neg_r by assumption.
    reflexivity.
  - rewrite land_bit_mask by assumption.
    destruct (Z.testbit e b); [|reflexivity].
    assert (0 < 2 ^ b) by (apply Z.pow_pos_nonneg; lia).
    destruct (Z.eqb_spec (2 ^ b) 0); [lia | reflexivity].
Qed.

Lemma testbit_u8 (x i : Z) :
  0 <= i -> Z.testbit (u8 x) i = Z.testbit x i && (i <? 8).
Proof.
  intros Hi. unfold u8. change 256 with (2 ^ 8).
  destruct (Z.ltb_spec i 8).
  - rewrite Z.mod_pow2_bits_low by lia. now rewrite andb_true_r.
  - rewrite Z.mod_pow2_bits_high by lia. now rewrite andb_false_r.
Qed.

Lemma flag_set_raise (e b i : Z) :
  0 <= b -> 0 <= i < 8 ->
  flag_set (raise_flag e b) i = flag_set e i || (b =? i).
Proof.
  intros Hb Hi. rewrite !flag_set_testbit. unfold raise_flag.
  rewrite testbit_u8, Z.lor_spec, bit_mask_testbit by lia.
  destruct (Z.ltb_spec i 8); [|lia]. now rewrite andb_true_r.
Qed.

Lemma flag_set_lower (e b i : Z) :
  0 <= b -> 0 <= i < 8 ->
  flag_set (lower_flag e b) i = flag_set e i && negb (b =? i).
Proof.
  intros Hb Hi. rewrite !flag_set_testbit. unfold lower_flag.
  rewrite testbit_u8, Z.land_spec, Z.lnot_spec, bit_mask_testbit by lia.
  destruct (Z.ltb_spec i 8); [|lia]. now rewrite andb_true_r.
Qed.

Lemma flag_set_zero (b : Z) : flag_set 0 b = false.
Proof. unfold flag_set. now rewrite Z.land_0_l. Qed.

(** A property of every byte is checked on the 256 bytes. *)
Lemma byte_cases (P : Z -> bool) :
  forallb P (map Z.of_nat (seq 0 256)) = true ->
  forall v, 0 <= v < 256 -> P v = true.
Proof.
  intros H v Hv. rewrite forallb_forall in H. apply H.
  apply in_map_iff. exists (Z.to_nat v). split; [lia|].
  apply in_seq. lia.
Qed.

Lemma u8_range (x : Z) : 0 <= u8 x < 256.
Proof. unfold u8. apply Z.mod_pos_bound. lia. Qed.

Section Properties.

Context {hd : Header} {order : OperandOrder} {W : Type}
        {wire : TwoWire W} {pins : ArduinoPins W}.

(** What [error_bits_wf] says, flag by flag. *)
Lemma error_bits_wf_spec :
  error_bits_wf = true ->
  (0 <= NOT_INITIALIZED_BIT < 8 /\ 0 <= ADDRESS_UNKNOWN_BIT < 8 /\
   0 <= READBACK_FAIL_BIT < 8 /\ 0 <= OVERCURRENT_FLAG_BIT < 8 /\
   0 <= OUT_OF_RANGE_BIT < 8) /\
  (NOT_INITIALIZED_BIT <> ADDRESS_UNKNOWN_BIT /\
   NOT_INITIALIZED_BIT <> READBACK_FAIL_BIT /\
   NOT_INITIALIZED_BIT <> OVERCURRENT_FLAG_BIT /\
   NOT_INITIALIZED_BIT <> OUT_OF_RANGE_BIT /\
   ADDRESS_UNKNOWN_BIT <> READBACK_FAIL_BIT /\
   ADDRESS_UNKNOWN_BIT <> OVERCURRENT_FLAG_BIT /\
   ADDRESS_UNKNOWN_BIT <> OUT_OF_RANGE_BIT /\
   READBACK_FAIL_BIT <> OVERCURRENT_FLAG_BIT /\
   READBACK_FAIL_BIT <> OUT_OF_RANGE_BIT /\
   OVERCURRENT_FLAG_BIT <> OUT_OF_RANGE_BIT).
Proof.
  unfold error_bits_wf, error_bits. cbn [forallb distinctb].
  rewrite !andb_true_iff, !negb_true_iff, !Z.eqb_neq.
  rewrite !Z.leb_le, !Z.ltb_lt. intuition lia.
Qed.

(** [set_flag_if] on the flag it writes and on the others. *)
Lemma flag_after_set_flag_if (c : bool) (b i e : Z) :
  0 <= b -> 0 <= i < 8 ->
  flag_set (if c then raise_flag e b else lower_flag e b) i =
  if b =? i then c else flag_set e i.
Proof.
  intros Hb Hi. destruct c.
  - rewrite flag_set_raise by assumption.
    destruct (b =? i); [apply orb_true_r | apply orb_false_r].
  - rewrite flag_set_lower by assumption.
    destruct (b =? i); cbn; [apply andb_false_r | apply andb_true_r].
Qed.

Lemma set_flag_if_eq (c : bool) (b : Z) (s : Sys W) :
  set_flag_if c b s =
  (tt, mkSys (set_error_byte
                (if c then raise_flag (error_byte_ (this s)) b
                 else lower_flag (error_byte_ (this s)) b) (this s))
             (world s) (trace s)).
Proof. unfold set_flag_if. destruct c; reflexivity. Qed.

(** ** Register access, call by call *)

Ltac world_step :=
  match goal with
  | |- context [tw_endTransmission ?b ?w] =>
      let st := fresh "st" in let w' := fresh "w" in
      destruct (tw_endTransmission b w) as [st w']
  | |- context [tw_requestFrom ?a ?q ?w] =>
      let n := fresh "got" in let w' := fresh "w" in
      destruct (tw_requestFrom a q w) as [n w']
  | |- context [tw_read ?w] =>
      let r := fresh "r" in let w' := fresh "w" in
      destruct (tw_read w) as [r w']
  | |- context [pin_digitalRead ?p ?w] =>
      let v := fresh "lvl" in let w' := fresh "w" in
      destruct (pin_digitalRead p w) as [v w']
  end.

Ltac unfold_wire :=
  unfold bind, ret, skip, get_this, modify,
    Wire_beginTransmission, Wire_write, Wire_endTransmission,
    Wire_requestFrom, Wire_read, Arduino_digitalRead, Arduino_pinMode.

Ltac run_calls :=
  cbn; repeat (first [world_step | rewrite set_flag_if_eq]; cbn).

Ltac wf_facts H :=
  let R := fresh "Hrange" in let D := fresh "Hdistinct" in
  destruct (error_bits_wf_spec H) as [R D];
  decompose [and] R; decompose [and] D; clear R D.

Ltac flag_eqb :=
  repeat match goal with
  | |- context [?a =? ?a] => rewrite (Z.eqb_refl a)
  | H : ?a <> ?b |- context [?a =? ?b] =>
      rewrite (proj2 (Z.eqb_neq a b) H)
  | H : ?a <> ?b |- context [?b =? ?a] =>
      rewrite (proj2 (Z.eqb_neq b a) (not_eq_sym H))
  end.

(** One register read: the six calls it issues, the byte it returns, and
    what it leaves in each flag.  Only the error byte of the handle changes. *)
Lemma getRegister_spec (reg : Z) (s : Sys W) :
  error_bits_wf = true ->
  exists st0 got st r w' e',
    getRegister reg s =
      (u8 r, mkSys (set_error_byte e' (this s)) w'
                   (read_calls (address_ (this s)) reg st0 got st r ++ trace s))
    /\ flag_set e' NOT_INITIALIZED_BIT =
       flag_set (error_byte_ (this s)) NOT_INITIALIZED_BIT
    /\ flag_set e' READBACK_FAIL_BIT =
       flag_set (error_byte_ (this s)) READBACK_FAIL_BIT
    /\ flag_set e' ADDRESS_UNKNOWN_BIT = negb (st =? 0)
    /\ flag_set e' OVERCURRENT_FLAG_BIT =
       ((reg =? TS2) && negb (Z.land (u8 r) 0x80 =? 0))
    /\ flag_set e' OUT_OF_RANGE_BIT =
       (((reg =? OORS1) || (reg =? OORS2)) && negb (u8 r =? 0)).
Proof.
  intros Hwf. wf_facts Hwf.
  unfold getRegister. unfold_wire. run_calls.
  do 6 eexists. split; [reflexivity|].
  rewrite !flag_after_set_flag_if by lia. flag_eqb.
  repeat split; reflexivity.
Qed.

(** The same without any assumption on the flag positions. *)
Lemma getRegister_shape (reg : Z) (s : Sys W) :
  exists st0 got st r w' e',
    getRegister reg s =
      (u8 r, mkSys (set_error_byte e' (this s)) w'
                   (read_calls (address_ (this s)) reg st0 got st r ++ trace s)).
Proof.
  unfold getRegister. unfold_wire. run_calls.
  do 6 eexists. reflexivity.
Qed.

(** One register write on its own. *)
Lemma write_register_spec (reg value : Z) (s : Sys W) :
  exists st w',
    write_register reg value s =
      (tt, mkSys (set_error_byte
                    (if negb (st =? 0)
                     then raise_flag (error_byte_ (this s)) ADDRESS_UNKNOWN_BIT
                     else lower_flag (error_byte_ (this s)) ADDRESS_UNKNOWN_BIT)
                    (this s)) w'
                 (write_calls (address_ (this s)) reg value st ++ trace s)).
Proof.
  unfold write_register. unfold_wire. run_calls.
  do 2 eexists. reflexivity.
Qed.

(** [setRegister], branch by branch, in terms of [write_register]. *)
Lemma setRegister_body_ECR (st rn : M W unit) (value : Z) (s : Sys W) :
  setRegister_body st rn ECR value s =
  (modify (set_running (negb (Z.land value 0x3F =? 0))) ;;
   write_register ECR value) s.
Proof.
  unfold setRegister_body, write_register. unfold_wire.
  rewrite Z.eqb_refl. cbn. world_step.
  destruct (set_flag_if _ _ _) as [[] s']. reflexivity.
Qed.

Lemma setRegister_body_bracket (st rn : M W unit) (reg value : Z) (s : Sys W) :
  reg <> ECR -> reg < CTL0 -> running_ (this s) = true ->
  setRegister_body st rn reg value s =
  (st ;; write_register reg value ;; rn) s.
Proof.
  intros Hne Hlt Hrun.
  unfold setRegister_body, write_register. unfold_wire.
  rewrite (proj2 (Z.eqb_neq _ _) Hne), (proj2 (Z.ltb_lt _ _) Hlt).
  cbn. rewrite Hrun.
  destruct (st s) as [[] s1]. cbn. world_step.
  destruct (set_flag_if _ _ _) as [[] s2]. reflexivity.
Qed.

Lemma setRegister_body_plain (st rn : M W unit) (reg value : Z) (s : Sys W) :
  reg <> ECR -> (CTL0 <= reg \/ running_ (this s) = false) ->
  setRegister_body st rn reg value s = write_register reg value s.
Proof.
  intros Hne Hcase.
  unfold setRegister_body, write_register. unfold_wire.
  rewrite (proj2 (Z.eqb_neq _ _) Hne).
  destruct (Z.ltb_spec reg CTL0) as [Hlt|Hge]; cbn.
  - destruct Hcase as [Hc|Hc]; [lia|]. rewrite Hc. cbn.
    world_step. destruct (set_flag_if _ _ _) as [[] s2]. reflexivity.
  - world_step. destruct (set_flag_if _ _ _) as [[] s2]. reflexivity.
Qed.

(** The equations of the source for [run()] and [stop()]: their inner call
    is [setRegister] itself. *)
Lemma setRegister_ECR_eq (value : Z) (s : Sys W) :
  setRegister ECR value s = setRegister_ECR ECR value s.
Proof.
  unfold setRegister, setRegister_ECR.
  now rewrite !setRegister_body_ECR.
Qed.

Lemma run_eq (s : Sys W) : run s = run_body setRegister s.
Proof.
  unfold run, run_body, bind. destruct (isInitialized s) as [init s1].
  destruct (negb init); [reflexivity|].
  cbn. now rewrite setRegister_ECR_eq.
Qed.

Lemma stop_eq (s : Sys W) : stop s = stop_body setRegister s.
Proof.
  unfold stop, stop_body, bind. destruct (isInitialized s) as [init s1].
  destruct (negb init); [reflexivity|].
  destruct (getRegister ECR s1) as [v s2].
  destruct (modify _ s2) as [[] s3].
  now rewrite setRegister_ECR_eq.
Qed.

(** ** The initialization guard *)

Lemma isInitialized_eq (s : Sys W) :
  isInitialized s =
  (negb (flag_set (error_byte_ (this s)) NOT_INITIALIZED_BIT), s).
Proof. reflexivity. Qed.

Ltac guard_out H :=
  unfold bind; rewrite isInitialized_eq, H; cbn;
  rewrite ?orb_true_r; reflexivity.

(** [run()] and [stop()] on a handle whose not-initialized flag is set. *)
Lemma run_stop_return_early (s : Sys W) :
  flag_set (error_byte_ (this s)) NOT_INITIALIZED_BIT = true ->
  run s = (tt, s) /\ stop s = (tt, s).
Proof.
  intros H. split; [unfold run, run_body | unfold stop, stop_body];
    guard_out H.
Qed.

(** Every method that tests [isInitialized()] first returns at once on a
    handle whose not-initialized flag is set: the handle, the bus and the
    pins are left as they were. *)
Lemma guarded_methods_return_early (s : Sys W) :
  flag_set (error_byte_ (this s)) NOT_INITIALIZED_BIT = true ->
  updateTouchData s = (tt, s) /\
  updateBaselineData s = (negb SUCCESS, s) /\
  updateFilteredData s = (negb SUCCESS, s) /\
  getTouchCount s = (0, s) /\
  run s = (tt, s) /\
  stop s = (tt, s) /\
  (forall e, touched e s = (false, s)) /\
  (forall e, getPreviousTouchData e s = (negb SUCCESS, s)) /\
  (forall e, getBaselineData e s = (0xFFFF, s)) /\
  (forall e, getFilteredData e s = (0xFFFF, s)) /\
  (forall e, isNewTouch e s = (false, s)) /\
  (forall e, isNewRelease e s = (false, s)) /\
  (forall e, getTouchThreshold e s = (0xFF, s)) /\
  (forall e, getReleaseThreshold e s = (0xFF, s)) /\
  (forall e, digitalRead e s = (negb SUCCESS, s)).
Proof.
  intros H.
  repeat split; intros;
    first [ unfold updateTouchData; guard_out H
          | unfold updateBaselineData; guard_out H
          | unfold updateFilteredData; guard_out H
          | unfold getTouchCount; guard_out H
          | unfold run, run_body; guard_out H
          | unfold stop, stop_body; guard_out H
          | unfold touched; guard_out H
          | unfold getPreviousTouchData; guard_out H
          | unfold getBaselineData; guard_out H
          | unfold getFilteredData; guard_out H
          | unfold isNewTouch; guard_out H
          | unfold isNewRelease; guard_out H
          | unfold getTouchThreshold; guard_out H
          | unfold getReleaseThreshold; guard_out H
          | unfold digitalRead; guard_out H ].
Qed.

Lemma guarded_mutators_return_early (s : Sys W) :
  flag_set (error_byte_ (this s)) NOT_INITIALIZED_BIT = true ->
  (forall t, setTouchThreshold_all t s = (tt, s)) /\
  (forall e t, setTouchThreshold e t s = (tt, s)) /\
  (forall t, setReleaseThreshold_all t s = (tt, s)) /\
  (forall e t, setReleaseThreshold e t s = (tt, s)) /\
  (forall p, setInterruptPin p s = (tt, s)) /\
  (forall m, setProximityMode m s = (tt, s)) /\
  (forall n, setDigitalPinCount n s = (tt, s)) /\
  (forall e m, pinMode e m s = (tt, s)) /\
  (forall e m, pinMode_int e m s = (tt, s)) /\
  (forall e v, digitalWrite e v s = (tt, s)) /\
  (forall e, digitalToggle e s = (tt, s)) /\
  (forall e v, analogWrite e v s = (tt, s)).
Proof.
  intros H.
  repeat split; intros;
    first [ unfold setTouchThreshold_all; guard_out H
          | unfold setTouchThreshold; guard_out H
          | unfold setReleaseThreshold_all; guard_out H
          | unfold setReleaseThreshold; guard_out H
          | unfold setInterruptPin; guard_out H
          | unfold setProximityMode; guard_out H
          | unfold setDigitalPinCount; guard_out H
          | unfold pinMode; guard_out H
          | unfold pinMode_int; guard_out H
          | unfold digitalWrite; guard_out H
          | unfold digitalToggle; guard_out H
          | unfold analogWrite; guard_out H ].
Qed.

(** ** What a method appends to the call trace *)

Lemma adds_only_ret {A} (P : Call -> bool) (a : A) :
  adds_only P (ret a : M W A).
Proof. intros s. exists []. split; reflexivity. Qed.

Lemma adds_only_modify (P : Call -> bool) (f : MPR121 -> MPR121) :
  adds_only P (modify f : M W unit).
Proof. intros s. exists []. split; reflexivity. Qed.

Lemma adds_only_get_this (P : Call -> bool) :
  adds_only P (get_this : M W MPR121).
Proof. intros s. exists []. split; reflexivity. Qed.

Lemma adds_only_bind {A B} (P : Call -> bool) (m : M W A) (k : A -> M W B) :
  adds_only P m -> (forall a, adds_only P (k a)) -> adds_only P (bind m k).
Proof.
  intros Hm Hk s. unfold bind.
  destruct (Hm s) as (n1 & E1 & P1).
  destruct (m s) as [a s1]. cbn in E1.
  destruct (Hk a s1) as (n2 & E2 & P2).
  exists (n2 ++ n1). split.
  - rewrite E2, E1. apply app_assoc.
  - rewrite forallb_app, P1, P2. reflexivity.
Qed.

Lemma adds_only_beginTransmission (P : Call -> bool) (a : Z) :
  P (BeginTransmission a) = true -> adds_only P (Wire_beginTransmission a).
Proof. intros H s. exists [BeginTransmission a]. cbn. now rewrite H. Qed.

Lemma adds_only_write (P : Call -> bool) (b : Z) :
  P (WriteByte b) = true -> adds_only P (Wire_write b).
Proof. intros H s. exists [WriteByte b]. cbn. now rewrite H. Qed.

Lemma adds_only_endTransmission (P : Call -> bool) (b : bool) :
  (forall st, P (EndTransmission b st) = true) ->
  adds_only P (Wire_endTransmission b).
Proof.
  intros H s. unfold Wire_endTransmission.
  destruct (tw_endTransmission b (world s)) as [st w].
  exists [EndTransmission b st]. cbn. now rewrite H.
Qed.

Lemma adds_only_requestFrom (P : Call -> bool) (a q : Z) :
  (forall n, P (RequestFrom a q n) = true) ->
  adds_only P (Wire_requestFrom a q).
Proof.
  intros H s. unfold Wire_requestFrom.
  destruct (tw_requestFrom a q (world s)) as [n w].
  exists [RequestFrom a q n]. cbn. now rewrite H.
Qed.

Lemma adds_only_read (P : Call -> bool) :
  (forall v, P (ReadByte v) = true) -> adds_only P Wire_read.
Proof.
  intros H s. unfold Wire_read.
  destruct (tw_read (world s)) as [v w].
  exists [ReadByte v]. cbn. now rewrite H.
Qed.

Lemma adds_only_digitalRead (P : Call -> bool) (pin : Z) :
  (forall v, P (DigitalRead pin v) = true) ->
  adds_only P (Arduino_digitalRead pin).
Proof.
  intros H s. unfold Arduino_digitalRead.
  destruct (pin_digitalRead pin (world s)) as [v w].
  exists [DigitalRead pin v]. cbn. now rewrite H.
Qed.

Lemma adds_only_set_flag_if (P : Call -> bool) (c : bool) (b : Z) :
  adds_only P (set_flag_if c b : M W unit).
Proof. unfold set_flag_if. destruct c; apply adds_only_modify. Qed.

Lemma adds_only_for_from (P : Call -> bool) (body : Z -> M W unit) :
  (forall i, adds_only P (body i)) ->
  forall n start, adds_only P (for_from start n body).
Proof.
  intros Hb. induction n as [|n IH]; intros start; cbn [for_from].
  - apply adds_only_ret.
  - apply adds_only_bind; [apply Hb | intros _; apply IH].
Qed.

Ltac adds_step :=
  first
    [ apply adds_only_ret | apply adds_only_modify | apply adds_only_get_this
    | apply adds_only_set_flag_if
    | apply adds_only_beginTransmission; reflexivity
    | apply adds_only_write; reflexivity
    | apply adds_only_endTransmission; intros; reflexivity
    | apply adds_only_requestFrom; intros; reflexivity
    | apply adds_only_read; intros; reflexivity
    | apply adds_only_digitalRead; intros; reflexivity
    | apply adds_only_bind; [|intros]
    | match goal with
      | |- adds_only _ (if ?c then _ else _) => destruct c
      end ].

Ltac adds_auto := unfold skip; repeat adds_step.

Lemma getRegister_adds (P : Call -> bool) (reg : Z) :
  (forall c, is_request c = false -> P c = true) ->
  (forall a n, P (RequestFrom a 1 n) = true) ->
  adds_only P (getRegister reg).
Proof.
  intros HP HR. unfold getRegister.
  repeat first
    [ apply adds_only_ret | apply adds_only_modify | apply adds_only_get_this
    | apply adds_only_set_flag_if
    | apply adds_only_beginTransmission; apply HP; reflexivity
    | apply adds_only_write; apply HP; reflexivity
    | apply adds_only_endTransmission; intros; apply HP; reflexivity
    | apply adds_only_requestFrom; intros; apply HR
    | apply adds_only_read; intros; apply HP; reflexivity
    | apply adds_only_bind; [|intros] ].
Qed.

Lemma write_register_adds (reg value : Z) :
  adds_only no_request (write_register reg value).
Proof. unfold write_register. adds_auto. Qed.

Lemma setRegister_body_adds (P : Call -> bool) (st rn : M W unit) (reg value : Z) :
  (forall c, is_request c = false -> P c = true) ->
  adds_only P st -> adds_only P rn ->
  adds_only P (setRegister_body st rn reg value).
Proof.
  intros HP Hst Hrn. unfold setRegister_body, skip.
  repeat first
    [ assumption
    | apply adds_only_ret | apply adds_only_modify | apply adds_only_get_this
    | apply adds_only_set_flag_if
    | apply adds_only_beginTransmission; apply HP; reflexivity
    | apply adds_only_write; apply HP; reflexivity
    | apply adds_only_endTransmission; intros; apply HP; reflexivity
    | apply adds_only_bind; [|intros]
    | match goal with
      | |- adds_only _ (if ?c then _ else _) => destruct c
      end ].
Qed.

Lemma any_call_ok (c : Call) : is_request c = false -> any_call c = true.
Proof. reflexivity. Qed.

Lemma setRegister_ECR_adds (reg value : Z) :
  adds_only any_call (setRegister_ECR reg value).
Proof.
  apply setRegister_body_adds; [apply any_call_ok | | ]; apply adds_only_ret.
Qed.

Lemma run_adds : adds_only any_call run.
Proof.
  unfold run, run_body, isInitialized. adds_auto.
Qed.

Lemma stop_adds : adds_only any_call stop.
Proof.
  unfold stop, stop_body, isInitialized. adds_auto.
Qed.

Lemma setRegister_adds (reg value : Z) :
  adds_only any_call (setRegister reg value).
Proof.
  apply setRegister_body_adds;
    [apply any_call_ok | apply stop_adds | apply run_adds].
Qed.

(** A method that first reads a register opens a transmission. *)
Lemma issues_after_getRegister {A} (reg : Z) (k : Z -> M W A) (s : Sys W) :
  (forall v, adds_only any_call (k v)) ->
  issues_transaction (v <- getRegister reg ;; k v) s.
Proof.
  intros Hk. unfold issues_transaction, bind.
  destruct (getRegister_shape reg s) as (st0 & got & st & r & w' & e' & E).
  rewrite E.
  destruct (Hk (u8 r) (mkSys (set_error_byte e' (this s)) w'
      (read_calls (address_ (this s)) reg st0 got st r ++ trace s)))
    as (new & En & _).
  rewrite En. cbn [trace].
  exists (new ++ read_calls (address_ (this s)) reg st0 got st r).
  split; [now rewrite <- app_assoc|].
  apply in_or_app. right. cbn. tauto.
Qed.

(** [setSamplePeriod] has no initialization test: from every state,
    initialized or not, it opens a transmission. *)
Lemma setSamplePeriod_unguarded (period : Z) (s : Sys W) :
  issues_transaction (setSamplePeriod period) s.
Proof.
  unfold setSamplePeriod. apply issues_after_getRegister.
  intros v. apply setRegister_adds.
Qed.

Lemma note_touchStatusChanged_adds : adds_only no_request note_touchStatusChanged.
Proof. unfold note_touchStatusChanged, touchStatusChanged. adds_auto. Qed.

Lemma no_request_any (new : list Call) :
  forallb no_request new = true -> forallb any_call new = true.
Proof. intros _. induction new; [reflexivity | assumption]. Qed.

Lemma adds_only_weaken {A} (m : M W A) :
  adds_only no_request m -> adds_only any_call m.
Proof.
  intros H s. destruct (H s) as (new & E & F).
  exists new. split; [assumption | now apply no_request_any].
Qed.

(** The electrode loops of the two burst reads only read bytes and poll the
    interrupt pin. *)
Lemma baseline_loop_adds :
  adds_only no_request
    (for_electrodes ELECTRODE_COUNT (fun electrode =>
       note_touchStatusChanged ;;
       r <- Wire_read ;;
       modify (fun o =>
         set_baseline (<[Z.to_nat electrode := data_cast (Z.shiftl r 2)]>
                         (baseline_data_ o)) o))).
Proof.
  apply adds_only_for_from. intros i.
  apply adds_only_bind; [apply note_touchStatusChanged_adds | intros _].
  adds_auto.
Qed.

Lemma filtered_loop_adds :
  adds_only no_request
    (for_electrodes ELECTRODE_COUNT (fun electrode =>
       note_touchStatusChanged ;;
       l <- Wire_read ;;
       note_touchStatusChanged ;;
       m <- Wire_read ;;
       let LSB := u8 l in
       let MSB := u8 m in
       modify (fun o =>
         set_filtered (<[Z.to_nat electrode :=
                           data_cast (Z.lor (Z.shiftl MSB 8) LSB)]>
                         (filtered_data_ o)) o))).
Proof.
  apply adds_only_for_from. intros i.
  apply adds_only_bind; [apply note_touchStatusChanged_adds | intros _].
  apply adds_only_bind; [adds_auto | intros l].
  apply adds_only_bind; [apply note_touchStatusChanged_adds | intros _].
  adds_auto.
Qed.

Lemma issues_after_begin {A} (k : M W A) (s : Sys W) :
  adds_only any_call k ->
  issues_transaction (Wire_beginTransmission (address_ (this s)) ;; k) s.
Proof.
  intros Hk. unfold issues_transaction, bind, Wire_beginTransmission.
  match goal with |- context [k ?s1] => destruct (Hk s1) as (new & E & _) end.
  rewrite E. cbn [trace].
  exists (new ++ [BeginTransmission (address_ (this s))]). split.
  - now rewrite <- app_assoc.
  - apply in_or_app. right. now left.
Qed.

(** ** On an initialized handle the guarded methods reach the bus *)

Lemma issues_bind {A B} (m : M W A) (k : A -> M W B) (s : Sys W) :
  issues_transaction m s ->
  (forall a, adds_only any_call (k a)) ->
  issues_transaction (x <- m ;; k x) s.
Proof.
  intros (new & E & Hin) Hk. unfold issues_transaction, bind.
  destruct (m s) as [a s1]. cbn [snd] in E.
  destruct (Hk a s1) as (new2 & E2 & _).
  exists (new2 ++ new). split.
  - rewrite E2, E. apply app_assoc.
  - apply in_or_app. now right.
Qed.

Lemma initialized_methods_reach_bus (s : Sys W) :
  flag_set (error_byte_ (this s)) NOT_INITIALIZED_BIT = false ->
  issues_transaction run s /\
  issues_transaction stop s /\
  issues_transaction updateTouchData s /\
  issues_transaction updateBaselineData s /\
  issues_transaction updateFilteredData s.
Proof.
  intros H. repeat split.
  - unfold issues_transaction, run, run_body, bind.
    rewrite isInitialized_eq, H. cbn.
    unfold setRegister_ECR. rewrite setRegister_body_ECR.
    unfold bind, modify.
    match goal with |- context [write_register ?r ?v ?s1] =>
      destruct (write_register_spec r v s1) as (st & w' & E) end.
    rewrite E. cbn.
    exists (write_calls (address_ (this s)) ECR (ecr_backup_ (this s)) st).
    split; [reflexivity | cbn; tauto].
  - assert (E : stop s =
        (v <- getRegister ECR ;; modify (set_ecr_backup v) ;;
         setRegister_ECR ECR (u8 (Z.land v 0xC0))) s).
    { unfold stop, stop_body. unfold bind at 1.
      now rewrite isInitialized_eq, H. }
    unfold issues_transaction. rewrite E.
    apply issues_after_getRegister. intros v.
    apply adds_only_bind; [apply adds_only_modify | intros _].
    apply setRegister_ECR_adds.
  - set (s0 := mkSys (set_touch (touch_data_ (this s)) (touch_data_ (this s))
                        (set_auto_flag false (this s))) (world s) (trace s)).
    assert (E : updateTouchData s =
        (p <- read_touch_status ;;
         modify (fun o => set_touch (u16 (fst p + Z.shiftl (snd p) 8))
                                    (touch_data_previous_ o) o)) s0).
    { unfold updateTouchData. unfold bind at 1.
      now rewrite isInitialized_eq, H. }
    unfold issues_transaction. rewrite E.
    change (trace s) with (trace s0).
    change (address_ (this s)) with (address_ (this s0)).
    apply issues_bind; [|intros p; apply adds_only_modify].
    unfold read_touch_status.
    destruct TS1_read_first; apply issues_after_getRegister; intros x;
      (apply adds_only_bind;
         [apply getRegister_adds; reflexivity | intros y; apply adds_only_ret]).
  - unfold issues_transaction, updateBaselineData. unfold bind at 1.
    rewrite isInitialized_eq, H. cbn [negb]. unfold bind at 1, get_this.
    apply issues_after_begin.
    apply adds_only_bind; [adds_auto | intros _].
    apply adds_only_bind; [adds_auto | intros _].
    apply adds_only_bind;
      [apply adds_only_weaken, note_touchStatusChanged_adds | intros _].
    apply adds_only_bind; [adds_auto | intros n].
    destruct (_ =? _); [|apply adds_only_ret].
    apply adds_only_bind; [|intros; apply adds_only_ret].
    apply adds_only_weaken, baseline_loop_adds.
  - unfold issues_transaction, updateFilteredData. unfold bind at 1.
    rewrite isInitialized_eq, H. cbn [negb]. unfold bind at 1, get_this.
    apply issues_after_begin.
    apply adds_only_bind; [adds_auto | intros _].
    apply adds_only_bind; [adds_auto | intros _].
    apply adds_only_bind;
      [apply adds_only_weaken, note_touchStatusChanged_adds | intros _].
    apply adds_only_bind; [adds_auto | intros n].
    destruct (_ =? _); [|apply adds_only_ret].
    apply adds_only_bind; [|intros; apply adds_only_ret].
    apply adds_only_weaken, filtered_loop_adds.
Qed.

Lemma write_register_issues (reg value : Z) (s : Sys W) :
  issues_transaction (write_register reg value) s.
Proof.
  destruct (write_register_spec reg value s) as (st & w' & E).
  unfold issues_transaction. rewrite E.
  exists (write_calls (address_ (this s)) reg value st).
  split; [reflexivity | cbn; tauto].
Qed.

Lemma getRegister_issues (reg : Z) (s : Sys W) :
  issues_transaction (getRegister reg) s.
Proof.
  destruct (getRegister_shape reg s) as (st0 & got & st & r & w' & e' & E).
  unfold issues_transaction. rewrite E.
  exists (read_calls (address_ (this s)) reg st0 got st r).
  split; [reflexivity | cbn; tauto].
Qed.

(** A register write opens a transmission from every state. *)
Lemma setRegister_issues (reg value : Z) (s : Sys W) :
  issues_transaction (setRegister reg value) s.
Proof.
  assert (Hext : forall (m1 m2 : M W unit),
             m1 s = m2 s -> issues_transaction m2 s -> issues_transaction m1 s).
  { intros m1 m2 E. unfold issues_transaction. now rewrite E. }
  destruct (Z.eq_dec reg ECR) as [->|Hne].
  - eapply Hext; [apply setRegister_body_ECR|].
    unfold issues_transaction, bind, modify.
    match goal with |- context [write_register ?r ?v ?s1] =>
      destruct (write_register_spec r v s1) as (st & w' & E) end.
    rewrite E. cbn.
    exists (write_calls (address_ (this s)) ECR value st).
    split; [reflexivity | cbn; tauto].
  - destruct (Z.lt_ge_cases reg CTL0) as [Hlt|Hge];
      [destruct (running_ (this s)) eqn:Hrun|].
    + eapply Hext; [now apply setRegister_body_bracket|].
      destruct (flag_set (error_byte_ (this s)) NOT_INITIALIZED_BIT) eqn:Hni.
      * destruct (run_stop_return_early s Hni) as [_ Es].
        eapply Hext; [unfold bind at 1; rewrite Es; reflexivity|].
        apply issues_bind; [apply write_register_issues | intros _; apply run_adds].
      * apply issues_bind.
        -- now apply initialized_methods_reach_bus.
        -- intros _. apply adds_only_bind; [|intros _; apply run_adds].
           apply adds_only_weaken, write_register_adds.
    + eapply Hext; [apply setRegister_body_plain; auto|].
      apply write_register_issues.
    + eapply Hext; [apply setRegister_body_plain; [auto | left; lia]|].
      apply write_register_issues.
Qed.

(** The per-electrode methods that go to the bus, on an initialized handle
    and an electrode in range. *)
Lemma initialized_electrode_methods_reach_bus (s : Sys W) :
  flag_set (error_byte_ (this s)) NOT_INITIALIZED_BIT = false ->
  (forall e t, e < ELECTRODE_COUNT ->
     issues_transaction (getTouchThreshold e) s /\
     issues_transaction (getReleaseThreshold e) s /\
     issues_transaction (setTouchThreshold e t) s /\
     issues_transaction (setReleaseThreshold e t) s) /\
  (forall d v, 4 <= d <= 11 ->
     issues_transaction (digitalRead d) s /\
     issues_transaction (digitalWrite d v) s /\
     issues_transaction (digitalToggle d) s).
Proof.
  intros H. split.
  - intros e t He.
    assert (He1 : (ELECTRODE_COUNT <=? e) = false) by (apply Z.leb_gt; lia).
    repeat split; unfold issues_transaction.
    + unfold getTouchThreshold, bind. rewrite isInitialized_eq, H, He1.
      apply getRegister_issues.
    + unfold getReleaseThreshold, bind. rewrite isInitialized_eq, H, He1.
      apply getRegister_issues.
    + unfold setTouchThreshold, bind. rewrite isInitialized_eq, H, He1.
      apply setRegister_issues.
    + unfold setReleaseThreshold, bind. rewrite isInitialized_eq, H, He1.
      apply setRegister_issues.
  - intros d v Hd.
    assert (Hd1 : (d <? 4) || (11 <? d) = false).
    { apply orb_false_iff. rewrite !Z.ltb_ge. lia. }
    repeat split; unfold issues_transaction.
    + unfold digitalRead. unfold bind at 1.
      rewrite isInitialized_eq, H, Hd1. cbn [negb orb].
      apply (issues_after_getRegister DAT). intros x. apply adds_only_ret.
    + unfold digitalWrite, bind. rewrite isInitialized_eq, H, Hd1.
      cbn [negb orb]. destruct (negb (v =? 0)); apply setRegister_issues.
    + unfold digitalToggle, bind. rewrite isInitialized_eq, H, Hd1.
      apply setRegister_issues.
Qed.

(** ** Burst reads *)

Lemma last_request_skip (new t : list Call) :
  forallb no_request new = true ->
  last_request_count (new ++ t) = last_request_count t.
Proof.
  induction new as [|c new IH]; [reflexivity|].
  cbn [forallb]. rewrite andb_true_iff. intros [Hc Hn].
  destruct c; cbn in *; try discriminate; now apply IH.
Qed.

(** Polling the interrupt pin touches neither data array. *)
Lemma note_touchStatusChanged_frame (s : Sys W) :
  baseline_data_ (this (snd (note_touchStatusChanged s))) =
    baseline_data_ (this s) /\
  filtered_data_ (this (snd (note_touchStatusChanged s))) =
    filtered_data_ (this s).
Proof.
  unfold note_touchStatusChanged, touchStatusChanged. unfold_wire. cbn.
  destruct (auto_touch_status_flag_ (this s)); cbn; [tauto|].
  world_step. cbn. destruct (lvl =? 0); cbn; tauto.
Qed.

Ltac world_step_in E :=
  match type of E with
  | context [tw_endTransmission ?b ?w] =>
      let st := fresh "st" in let w' := fresh "w" in
      destruct (tw_endTransmission b w) as [st w']
  | context [tw_requestFrom ?a ?q ?w] =>
      let n := fresh "got" in let w' := fresh "w" in
      destruct (tw_requestFrom a q w) as [n w']
  end.

Lemma updateBaselineData_cases (s : Sys W) :
  flag_set (error_byte_ (this s)) NOT_INITIALIZED_BIT = false ->
  exists n,
    last_request_count (trace (snd (updateBaselineData s))) = Some n /\
    (n <> ELECTRODE_COUNT ->
     fst (updateBaselineData s) = negb SUCCESS /\
     baseline_data_ (this (snd (updateBaselineData s))) =
     baseline_data_ (this s)).
Proof.
  intros H. destruct (updateBaselineData s) as [res s'] eqn:E. cbn [fst snd].
  unfold updateBaselineData in E. unfold bind at 1 in E.
  rewrite isInitialized_eq, H in E. cbn [negb] in E.
  unfold bind at 1 2 3 4, get_this, Wire_beginTransmission, Wire_write,
    Wire_endTransmission in E.
  cbn in E. world_step_in E. cbn in E.
  unfold bind at 1 in E.
  match type of E with context [note_touchStatusChanged ?s0] =>
    destruct (note_touchStatusChanged_frame s0) as [Hb _];
    destruct (note_touchStatusChanged s0) as [[] s1] end.
  cbn in Hb. unfold bind at 1, Wire_requestFrom in E.
  world_step_in E. exists got.
  destruct (Z.eqb_spec got ELECTRODE_COUNT) as [Heq|Hne].
  - unfold bind at 1 in E.
    match type of E with context [for_electrodes ?c ?b ?s2] =>
      destruct (baseline_loop_adds s2) as (new & Et & Hnew);
      destruct (for_electrodes c b s2) as [[] s3] end.
    injection E as <- <-. cbn in Et. rewrite Et.
    rewrite last_request_skip by assumption. cbn. split; [reflexivity|].
    intros Hne. contradiction.
  - injection E as <- <-. cbn. split; [reflexivity|].
    intros _. split; [reflexivity | assumption].
Qed.

Lemma updateFilteredData_cases (s : Sys W) :
  flag_set (error_byte_ (this s)) NOT_INITIALIZED_BIT = false ->
  exists n,
    last_request_count (trace (snd (updateFilteredData s))) = Some n /\
    (n <> 26 ->
     fst (updateFilteredData s) = negb SUCCESS /\
     filtered_data_ (this (snd (updateFilteredData s))) =
     filtered_data_ (this s)).
Proof.
  intros H. destruct (updateFilteredData s) as [res s'] eqn:E. cbn [fst snd].
  unfold updateFilteredData in E. unfold bind at 1 in E.
  rewrite isInitialized_eq, H in E. cbn [negb] in E.
  unfold bind at 1 2 3 4, get_this, Wire_beginTransmission, Wire_write,
    Wire_endTransmission in E.
  cbn in E. world_step_in E. cbn in E.
  unfold bind at 1 in E.
  match type of E with context [note_touchStatusChanged ?s0] =>
    destruct (note_touchStatusChanged_frame s0) as [_ Hf];
    destruct (note_touchStatusChanged s0) as [[] s1] end.
  cbn in Hf. unfold bind at 1, Wire_requestFrom in E.
  world_step_in E. exists got.
  destruct (Z.eqb_spec got 26) as [Heq|Hne].
  - unfold bind at 1 in E.
    match type of E with context [for_electrodes ?c ?b ?s2] =>
      destruct (filtered_loop_adds s2) as (new & Et & Hnew);
      destruct (for_electrodes c b s2) as [[] s3] end.
    injection E as <- <-. cbn in Et. rewrite Et.
    rewrite last_request_skip by assumption. cbn. split; [reflexivity|].
    intros Hne. contradiction.
  - injection E as <- <-. cbn. split; [reflexivity|].
    intros _. split; [reflexivity | assumption].
Qed.

(** C8.  On an initialized handle, when the [requestFrom] of
    [updateBaselineData] (of [updateFilteredData]) answers fewer bytes than
    the count the method compares it with, the method returns [!SUCCESS]
    and the baseline (filtered) array is the one it was before the call.
    Each call issues exactly one such request, so a changed array means the
    full count was answered. *)
Theorem short_burst_leaves_data_unmodified (s : Sys W) :
  flag_set (error_byte_ (this s)) NOT_INITIALIZED_BIT = false ->
  (exists n, last_request_count (trace (snd (updateBaselineData s))) = Some n) /\
  (forall n,
     last_request_count (trace (snd (updateBaselineData s))) = Some n ->
     (n < ELECTRODE_COUNT ->
      fst (updateBaselineData s) = negb SUCCESS /\
      baseline_data_ (this (snd (updateBaselineData s))) =
      baseline_data_ (this s)) /\
     (baseline_data_ (this (snd (updateBaselineData s))) <>
      baseline_data_ (this s) -> n = ELECTRODE_COUNT)) /\
  (exists n, last_request_count (trace (snd (updateFilteredData s))) = Some n) /\
  (forall n,
     last_request_count (trace (snd (updateFilteredData s))) = Some n ->
     (n < 26 ->
      fst (updateFilteredData s) = negb SUCCESS /\
      filtered_data_ (this (snd (updateFilteredData s))) =
      filtered_data_ (this s)) /\
     (filtered_data_ (this (snd (updateFilteredData s))) <>
      filtered_data_ (this s) -> n = 26)).
Proof.
  intros H.
  destruct (updateBaselineData_cases s H) as (nb & Eb & Hb).
  destruct (updateFilteredData_cases s H) as (nf & Ef & Hf).
  split; [now exists nb|]. split.
  { intros n En. rewrite Eb in En. injection En as <-. split.
    - intros Hlt. apply Hb. lia.
    - intros Hchg. destruct (Z.eq_dec nb ELECTRODE_COUNT) as [|Hne]; [assumption|].
      destruct (Hb Hne) as [_ Hsame]. contradiction. }
  split; [now exists nf|].
  intros n En. rewrite Ef in En. injection En as <-. split.
  - intros Hlt. apply Hf. lia.
  - intros Hchg. destruct (Z.eq_dec nf 26) as [|Hne]; [assumption|].
    destruct (Hf Hne) as [_ Hsame]. contradiction.
Qed.

(** ** Electrode indices out of range *)

(** C9.  For an electrode index at or above [ELECTRODE_COUNT], [touched],
    [getBaselineData], [getFilteredData], [isNewTouch], [isNewRelease],
    [getTouchThreshold], [getReleaseThreshold] and [getPreviousTouchData]
    return their sentinel ([false], [0xFFFF], [0xFF], [!SUCCESS]); for an
    index outside 4..11, [digitalRead] returns [!SUCCESS].  The state after
    the call is the state before it: no call reached the bus or the pins. *)
Theorem out_of_range_electrode_returns_sentinel (e d : Z) (s : Sys W) :
  ELECTRODE_COUNT <= e ->
  d < 4 \/ 11 < d ->
  touched e s = (false, s) /\
  getBaselineData e s = (0xFFFF, s) /\
  getFilteredData e s = (0xFFFF, s) /\
  isNewTouch e s = (false, s) /\
  isNewRelease e s = (false, s) /\
  getTouchThreshold e s = (0xFF, s) /\
  getReleaseThreshold e s = (0xFF, s) /\
  getPreviousTouchData e s = (negb SUCCESS, s) /\
  digitalRead d s = (negb SUCCESS, s).
Proof.
  intros He Hd.
  assert (He1 : (ELECTRODE_COUNT <=? e) = true) by (apply Z.leb_le; lia).
  assert (He2 : (ELECTRODE_COUNT - 1 <? e) = true) by (apply Z.ltb_lt; lia).
  assert (Hd1 : (d <? 4) || (11 <? d) = true).
  { apply orb_true_iff. rewrite !Z.ltb_lt. exact Hd. }
  repeat split.
  - unfold touched, bind. rewrite isInitialized_eq, He1. reflexivity.
  - unfold getBaselineData, bind. rewrite isInitialized_eq, He1. reflexivity.
  - unfold getFilteredData, bind. rewrite isInitialized_eq, He1. reflexivity.
  - unfold isNewTouch, bind. rewrite isInitialized_eq, He1. reflexivity.
  - unfold isNewRelease, bind. rewrite isInitialized_eq, He1. reflexivity.
  - unfold getTouchThreshold, bind. rewrite isInitialized_eq, He1. reflexivity.
  - unfold getReleaseThreshold, bind. rewrite isInitialized_eq, He1. reflexivity.
  - unfold getPreviousTouchData, bind. rewrite isInitialized_eq, He2.
    reflexivity.
  - unfold digitalRead, bind. rewrite isInitialized_eq, Hd1. reflexivity.
Qed.

(** ** The error report *)

Lemma current_error_flag_set (e : Z) :
  current_error (flags_of e) =
  if flag_set e NOT_INITIALIZED_BIT then NOT_INITIALIZED
  else if flag_set e ADDRESS_UNKNOWN_BIT then ADDRESS_UNKNOWN
  else if flag_set e READBACK_FAIL_BIT then READBACK_FAIL
  else if flag_set e OVERCURRENT_FLAG_BIT then OVERCURRENT_FLAG
  else if flag_set e OUT_OF_RANGE_BIT then OUT_OF_RANGE
  else NO_ERROR.
Proof.
  rewrite !flag_set_testbit. unfold current_error, precedence, flags_of. cbn.
  repeat match goal with |- context [Z.testbit e ?b] =>
    destruct (Z.testbit e b) end; reflexivity.
Qed.

(** [getError] is the two out-of-range reads followed by the precedence
    test on the error byte they leave. *)
Lemma getError_eq (s : Sys W) :
  let s2 := snd (getRegister OORS2 (snd (getRegister OORS1 s))) in
  getError s = (current_error (flags_of (error_byte_ (this s2))), s2).
Proof.
  intros s2. subst s2. unfold getError. unfold bind at 1.
  destruct (getRegister OORS1 s) as [v1 s1]. cbn [snd]. unfold bind at 1.
  destruct (getRegister OORS2 s1) as [v2 s2]. cbn [snd].
  unfold bind at 1. rewrite isInitialized_eq, current_error_flag_set.
  destruct (flag_set (error_byte_ (this s2)) NOT_INITIALIZED_BIT);
    [reflexivity|]. cbn [negb]. unfold bind, get_this, ret.
  repeat match goal with |- context [flag_set ?e ?b] =>
    destruct (flag_set e b) end; reflexivity.
Qed.

(** A register read leaves the not-initialized and readback flags alone. *)
Lemma getRegister_keeps_not_initialized (reg : Z) (s : Sys W) :
  error_bits_wf = true ->
  flag_set (error_byte_ (this (snd (getRegister reg s)))) NOT_INITIALIZED_BIT =
  flag_set (error_byte_ (this s)) NOT_INITIALIZED_BIT.
Proof.
  intros Hwf.
  destruct (getRegister_spec reg s Hwf)
    as (st0 & got & st & r & w' & e' & E & Hni & _).
  rewrite E. exact Hni.
Qed.

(** ** Stop and run *)

Lemma masked_enable_byte (v : Z) :
  0 <= v < 256 ->
  Z.land (u8 (Z.land v 0xC0)) 0x3F = 0 /\
  Z.land (u8 (Z.land v 0xC0)) 0xC0 = Z.land v 0xC0.
Proof.
  intros Hv.
  pose proof (byte_cases
    (fun v => (Z.land (u8 (Z.land v 0xC0)) 0x3F =? 0) &&
              (Z.land (u8 (Z.land v 0xC0)) 0xC0 =? Z.land v 0xC0))) as B.
  cbv beta in B. specialize (B ltac:(vm_compute; reflexivity) v Hv).
  apply andb_true_iff in B. rewrite !Z.eqb_eq in B. exact B.
Qed.

(** [run()] on an initialized handle: one write of the saved byte to ECR. *)
Lemma run_spec (s : Sys W) :
  flag_set (error_byte_ (this s)) NOT_INITIALIZED_BIT = false ->
  exists st w',
    run s =
    (tt, mkSys
           (set_error_byte
              (if negb (st =? 0)
               then raise_flag (error_byte_ (this s)) ADDRESS_UNKNOWN_BIT
               else lower_flag (error_byte_ (this s)) ADDRESS_UNKNOWN_BIT)
              (set_running (negb (Z.land (ecr_backup_ (this s)) 0x3F =? 0))
                           (this s)))
           w'
           (write_calls (address_ (this s)) ECR (ecr_backup_ (this s)) st
              ++ trace s)).
Proof.
  intros H. unfold run, run_body, bind.
  rewrite isInitialized_eq, H. cbn.
  unfold setRegister_ECR. rewrite setRegister_body_ECR.
  unfold bind, modify.
  match goal with |- context [write_register ?r ?v ?s1] =>
    destruct (write_register_spec r v s1) as (st & w' & E) end.
  rewrite E. cbn. exists st, w'. reflexivity.
Qed.

(** [stop()] on an initialized handle: ECR is read and saved, and the byte
    written back keeps bits 7 and 6 only. *)
Lemma stop_spec (s : Sys W) :
  error_bits_wf = true ->
  flag_set (error_byte_ (this s)) NOT_INITIALIZED_BIT = false ->
  exists st0 got st1 r st2 w' e',
    stop s =
    (tt, mkSys
           (set_error_byte e'
              (set_running
                 (negb (Z.land (u8 (Z.land (u8 r) 0xC0)) 0x3F =? 0))
                 (set_ecr_backup (u8 r) (this s))))
           w'
           (write_calls (address_ (this s)) ECR (u8 (Z.land (u8 r) 0xC0)) st2
              ++ read_calls (address_ (this s)) ECR st0 got st1 r
              ++ trace s))
    /\ flag_set e' NOT_INITIALIZED_BIT = false
    /\ flag_set e' ADDRESS_UNKNOWN_BIT = negb (st2 =? 0).
Proof.
  intros Hwf H. unfold stop, stop_body. unfold bind at 1.
  rewrite isInitialized_eq, H. cbn [negb]. unfold bind at 1.
  destruct (getRegister_spec ECR s Hwf)
    as (st0 & got & st1 & r & w1 & e1 & E & Hni & _).
  rewrite E. unfold bind at 1, modify. cbn [this world trace].
  unfold setRegister_ECR. rewrite setRegister_body_ECR.
  unfold bind, modify.
  match goal with |- context [write_register ?r ?v ?s1] =>
    destruct (write_register_spec r v s1) as (st2 & w2 & E2) end.
  rewrite E2. cbn. wf_facts Hwf.
  exists st0, got, st1, r, st2, w2. eexists. split; [reflexivity|].
  rewrite !flag_after_set_flag_if by lia. flag_eqb.
  split; [congruence | reflexivity].
Qed.

(** C5.  On an initialized handle [stop()] followed by [run()] issues one
    read of the enable register and two writes to it.  With [v] the byte
    read, [stop()] writes a byte whose top two bits are those of [v] and
    whose six low bits are zero, and [run()] writes [v] itself back: the
    electrode-enable bits are again those read before the stop, and the top
    two bits were the same in every byte written. *)
Theorem stop_then_run_restores_enable_register (s : Sys W) :
  error_bits_wf = true ->
  flag_set (error_byte_ (this s)) NOT_INITIALIZED_BIT = false ->
  exists st0 got st1 r st2 st3 w' e',
    (stop ;; run) s =
    (tt, mkSys
           (set_error_byte e'
              (set_running (negb (Z.land (u8 r) 0x3F =? 0))
                           (set_ecr_backup (u8 r) (this s))))
           w'
           (write_calls (address_ (this s)) ECR (u8 r) st3
              ++ write_calls (address_ (this s)) ECR
                   (u8 (Z.land (u8 r) 0xC0)) st2
              ++ read_calls (address_ (this s)) ECR st0 got st1 r
              ++ trace s))
    /\ Z.land (u8 (Z.land (u8 r) 0xC0)) 0x3F = 0
    /\ Z.land (u8 (Z.land (u8 r) 0xC0)) 0xC0 = Z.land (u8 r) 0xC0.
Proof.
  intros Hwf H.
  destruct (stop_spec s Hwf H)
    as (st0 & got & st1 & r & st2 & w1 & e1 & E1 & Hni & _).
  unfold bind. rewrite E1.
  match goal with |- context [run ?s1] =>
    destruct (run_spec s1 Hni) as (st3 & w2 & E2) end.
  rewrite E2. cbn.
  exists st0, got, st1, r, st2, st3, w2. eexists.
  split; [reflexivity|]. apply masked_enable_byte, u8_range.
Qed.

(** ** The stop/run bracket of [setRegister] *)


(** ** The address-unknown flag *)

Lemma reflects_after (s s1 s2 : Sys W) :
  (exists pre, trace s1 = pre ++ trace s) ->
  reflects_last_transaction s1 s2 -> reflects_last_transaction s s2.
Proof.
  intros [pre Ep] (new & st & Et & El & Hf).
  exists (new ++ pre), st. split; [|split].
  - rewrite Et, Ep. apply app_assoc.
  - clear -El. induction new as [|c new IH]; [discriminate|].
    destruct c; cbn in *; try (now apply IH).
    destruct sendStop; [exact El | now apply IH].
  - exact Hf.
Qed.

Lemma reflects_then_same_or_reflects (s s1 s2 : Sys W) :
  reflects_last_transaction s s1 ->
  s2 = s1 \/ reflects_last_transaction s1 s2 ->
  reflects_last_transaction s s2.
Proof.
  intros H1 [->|H2]; [exact H1|].
  destruct H1 as (new & st & Et & _).
  apply (reflects_after s s1 s2); [now exists new | exact H2].
Qed.

Lemma write_register_reflects (reg value : Z) (s : Sys W) :
  error_bits_wf = true ->
  reflects_last_transaction s (snd (write_register reg value s)).
Proof.
  intros Hwf. wf_facts Hwf.
  destruct (write_register_spec reg value s) as (st & w' & E). rewrite E.
  exists (write_calls (address_ (this s)) reg value st), st.
  split; [reflexivity|]. split; [reflexivity|]. cbn.
  rewrite flag_after_set_flag_if by lia. now rewrite Z.eqb_refl.
Qed.

Lemma getRegister_reflects (reg : Z) (s : Sys W) :
  error_bits_wf = true ->
  reflects_last_transaction s (snd (getRegister reg s)).
Proof.
  intros Hwf.
  destruct (getRegister_spec reg s Hwf)
    as (st0 & got & st & r & w' & e' & E & _ & _ & Hau & _).
  rewrite E.
  exists (read_calls (address_ (this s)) reg st0 got st r), st.
  split; [reflexivity|]. split; [reflexivity | exact Hau].
Qed.

Lemma run_same_or_reflects (s : Sys W) :
  error_bits_wf = true ->
  snd (run s) = s \/ reflects_last_transaction s (snd (run s)).
Proof.
  intros Hwf.
  destruct (flag_set (error_byte_ (this s)) NOT_INITIALIZED_BIT) eqn:H.
  - left. destruct (run_stop_return_early s H) as [E _].
    now rewrite E.
  - right. destruct (run_spec s H) as (st & w' & E). rewrite E.
    wf_facts Hwf.
    exists (write_calls (address_ (this s)) ECR (ecr_backup_ (this s)) st), st.
    split; [reflexivity|]. split; [reflexivity|]. cbn.
    rewrite flag_after_set_flag_if by lia. now rewrite Z.eqb_refl.
Qed.

Lemma stop_same_or_reflects (s : Sys W) :
  error_bits_wf = true ->
  snd (stop s) = s \/ reflects_last_transaction s (snd (stop s)).
Proof.
  intros Hwf.
  destruct (flag_set (error_byte_ (this s)) NOT_INITIALIZED_BIT) eqn:H.
  - left. destruct (run_stop_return_early s H) as [_ E].
    now rewrite E.
  - right.
    destruct (stop_spec s Hwf H)
      as (st0 & got & st1 & r & st2 & w1 & e1 & E & _ & Hau).
    rewrite E.
    exists (write_calls (address_ (this s)) ECR (u8 (Z.land (u8 r) 0xC0)) st2
            ++ read_calls (address_ (this s)) ECR st0 got st1 r), st2.
    split; [cbn; reflexivity|]. split; [reflexivity | exact Hau].
Qed.

(** C7.  Every [setRegister] and every [getRegister] closes at least one
    transaction, and when the call returns the address-unknown flag is set
    if the last [endTransmission()] it checked reported a failure and clear
    if it reported success, whatever the flag was before. *)
Theorem address_unknown_reflects_last_transaction
    (reg value : Z) (s : Sys W) :
  error_bits_wf = true ->
  reflects_last_transaction s (snd (setRegister reg value s)) /\
  reflects_last_transaction s (snd (getRegister reg s)).
Proof.
  intros Hwf. split; [|now apply getRegister_reflects].
  destruct (Z.eq_dec reg ECR) as [->|Hne].
  - unfold setRegister. rewrite setRegister_body_ECR. unfold bind, modify.
    match goal with |- context [write_register ?r ?v ?s1] =>
      apply (reflects_after s s1); [now exists [] |];
      now apply write_register_reflects end.
  - destruct (Z.lt_ge_cases reg CTL0) as [Hlt|Hge];
      [destruct (running_ (this s)) eqn:Hrun|].
    + unfold setRegister.
      rewrite setRegister_body_bracket by assumption.
      unfold bind at 1.
      destruct (stop_adds s) as (pre & Epre & _).
      destruct (stop s) as [[] s1]. cbn [snd] in Epre. unfold bind.
      pose proof (write_register_reflects reg value s1 Hwf) as Hw.
      destruct (write_register reg value s1) as [[] s2]. cbn [snd] in Hw.
      pose proof (run_same_or_reflects s2 Hwf) as Hr.
      apply (reflects_after s s1); [now exists pre|].
      apply (reflects_then_same_or_reflects s1 s2); assumption.
    + unfold setRegister.
      rewrite setRegister_body_plain by (auto; now right).
      now apply write_register_reflects.
    + unfold setRegister.
      rewrite setRegister_body_plain by (auto; left; lia).
      now apply write_register_reflects.
Qed.

(** ** What a register read does to the fault flags *)

(** The two tests of [getRegister] that update the overcurrent and the
    out-of-range flag have an [else] branch that clears the flag, and that
    branch is taken for every register other than the status register the
    test names. *)
Lemma getRegister_lowers_fault_flags (reg : Z) (s : Sys W) :
  error_bits_wf = true ->
  (reg <> TS2 ->
   flag_set (error_byte_ (this (snd (getRegister reg s))))
            OVERCURRENT_FLAG_BIT = false) /\
  (reg <> OORS1 -> reg <> OORS2 ->
   flag_set (error_byte_ (this (snd (getRegister reg s))))
            OUT_OF_RANGE_BIT = false).
Proof.
  intros Hwf.
  destruct (getRegister_spec reg s Hwf)
    as (st0 & got & st & r & w' & e' & E & _ & _ & _ & Hoc & Hoor).
  rewrite E. cbn [snd this error_byte_ set_error_byte]. split.
  - intros Hne. rewrite Hoc, (proj2 (Z.eqb_neq _ _) Hne). reflexivity.
  - intros H1 H2.
    rewrite Hoor, (proj2 (Z.eqb_neq _ _) H1), (proj2 (Z.eqb_neq _ _) H2).
    reflexivity.
Qed.

(** Hence [getError], which ends its reads with OORS2, never reports an
    overcurrent. *)
Lemma getError_never_overcurrent (s : Sys W) :
  error_bits_wf = true -> OORS2 <> TS2 ->
  fst (getError s) <> OVERCURRENT_FLAG.
Proof.
  intros Hwf Hne. pose proof (getError_eq s) as E. cbn zeta in E.
  rewrite E. cbn [fst]. rewrite current_error_flag_set.
  destruct (getRegister_lowers_fault_flags OORS2
              (snd (getRegister OORS1 s)) Hwf) as [Hoc _].
  rewrite (Hoc Hne).
  repeat match goal with |- context [flag_set ?e ?b] =>
    destruct (flag_set e b) end; discriminate.
Qed.

End Properties.


(** * More properties *)

(** ** A relation every step of a method respects

    [R] relates the handle before to the handle after.  When [R] is
    reflexive and transitive and holds across each field assignment a
    method makes, it holds across the method.  Each lemma below depends on
    the assignments its method makes and on no other. *)

Ltac bus_step :=
  match goal with
  | |- context [tw_endTransmission ?b ?w] =>
      let st := fresh "st" in let w' := fresh "w" in
      destruct (tw_endTransmission b w) as [st w']
  | |- context [tw_requestFrom ?a ?q ?w] =>
      let n := fresh "got" in let w' := fresh "w" in
      destruct (tw_requestFrom a q w) as [n w']
  | |- context [tw_read ?w] =>
      let r := fresh "r" in let w' := fresh "w" in
      destruct (tw_read w) as [r w']
  | |- context [pin_digitalRead ?p ?w] =>
      let v := fresh "lvl" in let w' := fresh "w" in
      destruct (pin_digitalRead p w) as [v w']
  end.

Ltac bits_facts H :=
  let R := fresh "Hrange" in let D := fresh "Hdistinct" in
  destruct (error_bits_wf_spec H) as [R D];
  decompose [and] R; decompose [and] D; clear R D.

Ltac bits_eqb :=
  repeat match goal with
  | |- context [?a =? ?a] => rewrite (Z.eqb_refl a)
  | H : ?a <> ?b |- context [?a =? ?b] =>
      rewrite (proj2 (Z.eqb_neq a b) H)
  | H : ?a <> ?b |- context [?b =? ?a] =>
      rewrite (proj2 (Z.eqb_neq b a) (not_eq_sym H))
  end.

Section Respects.

Context {hd : Header} {sh : SettingsHeader} {order : OperandOrder}
        {W : Type} {wire : TwoWire W} {pins : ArduinoPins W}
        {setup : TwoWireSetup W}.

Variable R : MPR121 -> MPR121 -> Prop.

Hypothesis R_refl : forall o, R o o.
Hypothesis R_trans : forall o1 o2 o3, R o1 o2 -> R o2 o3 -> R o1 o3.

(** The assignments found in the methods. *)
Hypothesis R_address_unknown : forall c o,
  R o (set_error_byte
         (if c : bool then raise_flag (error_byte_ o) ADDRESS_UNKNOWN_BIT
          else lower_flag (error_byte_ o) ADDRESS_UNKNOWN_BIT) o).
Hypothesis R_overcurrent : forall c o,
  R o (set_error_byte
         (if c : bool then raise_flag (error_byte_ o) OVERCURRENT_FLAG_BIT
          else lower_flag (error_byte_ o) OVERCURRENT_FLAG_BIT) o).
Hypothesis R_out_of_range : forall c o,
  R o (set_error_byte
         (if c : bool then raise_flag (error_byte_ o) OUT_OF_RANGE_BIT
          else lower_flag (error_byte_ o) OUT_OF_RANGE_BIT) o).
Hypothesis R_readback : forall c o,
  R o (set_error_byte
         (if c : bool then raise_flag (error_byte_ o) READBACK_FAIL_BIT
          else lower_flag (error_byte_ o) READBACK_FAIL_BIT) o).
Hypothesis R_initialized : forall o,
  R o (set_error_byte (lower_flag (error_byte_ o) NOT_INITIALIZED_BIT) o).
Hypothesis R_clear : forall o, R o (set_error_byte 0 o).
Hypothesis R_running : forall v o, R o (set_running v o).
Hypothesis R_ecr_backup : forall v o, R o (set_ecr_backup v o).
Hypothesis R_touch : forall c p o, R o (set_touch c p o).
Hypothesis R_auto_set : forall o, R o (set_auto_flag true o).
Hypothesis R_auto_clear : forall o, R o (set_auto_flag false o).
Hypothesis R_interrupt_pin : forall v o, R o (set_interrupt_pin v o).
Hypothesis R_baseline : forall i v o,
  R o (set_baseline (<[i := v]> (baseline_data_ o)) o).
Hypothesis R_filtered : forall i v o,
  R o (set_filtered (<[i := v]> (filtered_data_ o)) o).
Hypothesis R_address : forall v o, R o (set_address v o).

Lemma respects_ret {A} (a : A) : respects R (ret a : M W A).
Proof. intros s. apply R_refl. Qed.

Lemma respects_bind {A B} (m : M W A) (k : A -> M W B) :
  respects R m -> (forall a, respects R (k a)) -> respects R (bind m k).
Proof.
  intros Hm Hk s. unfold bind. specialize (Hm s).
  destruct (m s) as [a s1]. cbn [snd] in Hm.
  eapply R_trans; [exact Hm | apply Hk].
Qed.

Lemma respects_modify (f : MPR121 -> MPR121) :
  (forall o, R o (f o)) -> respects R (modify f : M W unit).
Proof. intros Hf s. apply Hf. Qed.

(** A call that leaves the handle alone. *)
Lemma respects_same_handle {A} (m : M W A) :
  (forall s, this (snd (m s)) = this s) -> respects R m.
Proof. intros H s. rewrite H. apply R_refl. Qed.

Lemma respects_for_from (body : Z -> M W unit) :
  (forall i, respects R (body i)) ->
  forall n start, respects R (for_from start n body).
Proof.
  intros Hb. induction n as [|n IH]; intros start; cbn [for_from].
  - apply respects_ret.
  - apply respects_bind; [apply Hb | intros _; apply IH].
Qed.

Lemma respects_set_flag_if (c : bool) (b : Z) :
  (forall c o,
     R o (set_error_byte
            (if c : bool then raise_flag (error_byte_ o) b
             else lower_flag (error_byte_ o) b) o)) ->
  respects R (set_flag_if c b : M W unit).
Proof.
  intros H s. rewrite set_flag_if_eq. cbn. apply (H c).
Qed.

Ltac same_handle :=
  apply respects_same_handle; intros ?s;
  unfold Wire_beginTransmission, Wire_write, Wire_endTransmission,
    Wire_requestFrom, Wire_read, Arduino_digitalRead, Arduino_pinMode,
    Wire_begin, Wire_setClock, get_this, ret, skip;
  cbn; repeat bus_step; reflexivity.

Ltac respects_step :=
  first
    [ assumption
    | match goal with
      | H : context [respects] |- respects _ _ => simple apply H
      end
    | simple apply respects_ret
    | simple apply respects_set_flag_if; assumption
    | simple apply respects_modify; intros ?o; solve [auto]
    | simple apply respects_for_from; intros ?i
    | simple apply respects_bind; [|intros]
    | match goal with
      | |- respects _ (if ?c then _ else _) => destruct c
      | |- respects _ (match ?x with _ => _ end) => destruct x
      end
    | same_handle ].

Ltac respects_auto := unfold skip, void; repeat respects_step.

Lemma getRegister_respects (reg : Z) : respects R (getRegister reg).
Proof. unfold getRegister. respects_auto. Qed.

Lemma setRegister_ECR_respects (reg value : Z) :
  respects R (setRegister_ECR reg value).
Proof. unfold setRegister_ECR, setRegister_body. respects_auto. Qed.

Lemma run_respects : respects R run.
Proof.
  pose proof setRegister_ECR_respects.
  unfold run, run_body, isInitialized. respects_auto.
Qed.

Lemma stop_respects : respects R stop.
Proof.
  pose proof setRegister_ECR_respects. pose proof getRegister_respects.
  unfold stop, stop_body, isInitialized. respects_auto.
Qed.

Lemma setRegister_respects (reg value : Z) : respects R (setRegister reg value).
Proof.
  pose proof run_respects. pose proof stop_respects.
  unfold setRegister, setRegister_body. respects_auto.
Qed.

Lemma getError_respects : respects R getError.
Proof.
  pose proof getRegister_respects.
  unfold getError, isInitialized. respects_auto.
Qed.

Lemma reset_respects : respects R reset.
Proof.
  pose proof getRegister_respects. pose proof setRegister_respects.
  pose proof getError_respects.
  unfold reset. respects_auto.
Qed.

Lemma clearError_respects : respects R (clearError : M W unit).
Proof. unfold clearError. respects_auto. Qed.

Lemma note_touchStatusChanged_respects : respects R note_touchStatusChanged.
Proof. unfold note_touchStatusChanged, touchStatusChanged. respects_auto. Qed.

Lemma touchStatusChanged_respects : respects R touchStatusChanged.
Proof. unfold touchStatusChanged. respects_auto. Qed.

Lemma updateTouchData_respects : respects R updateTouchData.
Proof.
  pose proof getRegister_respects.
  unfold updateTouchData, read_touch_status, isInitialized. respects_auto.
Qed.

Lemma updateBaselineData_respects : respects R updateBaselineData.
Proof.
  pose proof note_touchStatusChanged_respects.
  unfold updateBaselineData, isInitialized, for_electrodes. respects_auto.
Qed.

Lemma updateFilteredData_respects : respects R updateFilteredData.
Proof.
  pose proof note_touchStatusChanged_respects.
  unfold updateFilteredData, isInitialized, for_electrodes. respects_auto.
Qed.

Lemma updateAll_respects : respects R updateAll.
Proof.
  pose proof updateTouchData_respects.
  pose proof updateBaselineData_respects.
  pose proof updateFilteredData_respects.
  unfold updateAll. respects_auto.
Qed.

(** The queries leave the handle alone. *)
Lemma touched_respects (e : Z) : respects R (touched e : M W bool).
Proof. unfold touched, isInitialized. respects_auto. Qed.

Lemma getPreviousTouchData_respects (e : Z) :
  respects R (getPreviousTouchData e : M W bool).
Proof. unfold getPreviousTouchData, isInitialized. respects_auto. Qed.

Lemma count_touched_respects (n : nat) :
  forall start acc, respects R (count_touched start n acc : M W Z).
Proof.
  pose proof touched_respects.
  induction n as [|n IH]; intros start acc; cbn [count_touched].
  - apply respects_ret.
  - apply respects_bind; [auto | intros t; apply IH].
Qed.

Lemma getTouchCount_respects : respects R (getTouchCount : M W Z).
Proof.
  pose proof count_touched_respects.
  unfold getTouchCount, isInitialized. respects_auto.
Qed.

Lemma getBaselineData_respects (e : Z) : respects R (getBaselineData e : M W Z).
Proof. unfold getBaselineData, isInitialized. respects_auto. Qed.

Lemma getFilteredData_respects (e : Z) : respects R (getFilteredData e : M W Z).
Proof. unfold getFilteredData, isInitialized. respects_auto. Qed.

Lemma isNewTouch_respects (e : Z) : respects R (isNewTouch e : M W bool).
Proof.
  pose proof touched_respects. pose proof getPreviousTouchData_respects.
  unfold isNewTouch, isInitialized. respects_auto.
Qed.

Lemma isNewRelease_respects (e : Z) : respects R (isNewRelease e : M W bool).
Proof.
  pose proof touched_respects. pose proof getPreviousTouchData_respects.
  unfold isNewRelease, isInitialized. respects_auto.
Qed.

Lemma isRunning_respects : respects R (isRunning : M W bool).
Proof. unfold isRunning. respects_auto. Qed.

Lemma isInitialized_respects : respects R (isInitialized : M W bool).
Proof. unfold isInitialized. respects_auto. Qed.

(** Thresholds. *)
Lemma setTouchThreshold_respects (e t : Z) : respects R (setTouchThreshold e t).
Proof.
  pose proof setRegister_respects.
  unfold setTouchThreshold, isInitialized. respects_auto.
Qed.

Lemma setReleaseThreshold_respects (e t : Z) :
  respects R (setReleaseThreshold e t).
Proof.
  pose proof setRegister_respects.
  unfold setReleaseThreshold, isInitialized. respects_auto.
Qed.

Lemma setTouchThreshold_all_respects (t : Z) :
  respects R (setTouchThreshold_all t).
Proof.
  pose proof setTouchThreshold_respects.
  pose proof run_respects. pose proof stop_respects.
  unfold setTouchThreshold_all, isInitialized, for_electrodes. respects_auto.
Qed.

Lemma setReleaseThreshold_all_respects (t : Z) :
  respects R (setReleaseThreshold_all t).
Proof.
  pose proof setReleaseThreshold_respects.
  pose proof run_respects. pose proof stop_respects.
  unfold setReleaseThreshold_all, isInitialized, for_electrodes. respects_auto.
Qed.

Lemma getTouchThreshold_respects (e : Z) : respects R (getTouchThreshold e).
Proof.
  pose proof getRegister_respects.
  unfold getTouchThreshold, isInitialized. respects_auto.
Qed.

Lemma getReleaseThreshold_respects (e : Z) : respects R (getReleaseThreshold e).
Proof.
  pose proof getRegister_respects.
  unfold getReleaseThreshold, isInitialized. respects_auto.
Qed.

(** Configuration. *)
Lemma goSlow_respects : respects R goSlow.
Proof. unfold goSlow. respects_auto. Qed.

Lemma goFast_respects : respects R goFast.
Proof. unfold goFast. respects_auto. Qed.

Lemma setInterruptPin_respects (p : Z) : respects R (setInterruptPin p).
Proof. unfold setInterruptPin, isInitialized. respects_auto. Qed.

Lemma setProximityMode_respects (m : ProximityMode) :
  respects R (setProximityMode m).
Proof.
  pose proof run_respects. pose proof stop_respects.
  unfold setProximityMode, isInitialized. respects_auto.
Qed.

Lemma setDigitalPinCount_respects (n : Z) : respects R (setDigitalPinCount n).
Proof.
  pose proof run_respects. pose proof stop_respects.
  unfold setDigitalPinCount, isInitialized. respects_auto.
Qed.

Lemma or_register_respects (r b : Z) : respects R (or_register r b).
Proof.
  pose proof getRegister_respects. pose proof setRegister_respects.
  unfold or_register. respects_auto.
Qed.

Lemma andnot_register_respects (r b : Z) : respects R (andnot_register r b).
Proof.
  pose proof getRegister_respects. pose proof setRegister_respects.
  unfold andnot_register. respects_auto.
Qed.

Lemma pinMode_respects (e : Z) (m : PinMode) : respects R (pinMode e m).
Proof.
  pose proof or_register_respects. pose proof andnot_register_respects.
  unfold pinMode, isInitialized. respects_auto.
Qed.

Lemma pinMode_int_respects (e m : Z) : respects R (pinMode_int e m).
Proof.
  pose proof or_register_respects. pose proof andnot_register_respects.
  unfold pinMode_int, isInitialized. respects_auto.
Qed.

Lemma digitalWrite_respects (e v : Z) : respects R (digitalWrite e v).
Proof.
  pose proof setRegister_respects.
  unfold digitalWrite, isInitialized. respects_auto.
Qed.

Lemma digitalToggle_respects (e : Z) : respects R (digitalToggle e).
Proof.
  pose proof setRegister_respects.
  unfold digitalToggle, isInitialized. respects_auto.
Qed.

Lemma digitalRead_respects (e : Z) : respects R (digitalRead e).
Proof.
  pose proof getRegister_respects.
  unfold digitalRead, isInitialized. respects_auto.
Qed.

Lemma pwm_low_respects (r v : Z) : respects R (pwm_low r v).
Proof.
  pose proof getRegister_respects. pose proof setRegister_respects.
  unfold pwm_low. respects_auto.
Qed.

Lemma pwm_high_respects (r v : Z) : respects R (pwm_high r v).
Proof.
  pose proof getRegister_respects. pose proof setRegister_respects.
  unfold pwm_high. respects_auto.
Qed.

Lemma analogWrite_respects (e v : Z) : respects R (analogWrite e v).
Proof.
  pose proof setRegister_respects.
  pose proof pwm_low_respects. pose proof pwm_high_respects.
  unfold analogWrite, isInitialized. respects_auto.
Qed.

Lemma setSamplePeriod_respects (p : Z) : respects R (setSamplePeriod p).
Proof.
  pose proof getRegister_respects. pose proof setRegister_respects.
  unfold setSamplePeriod. respects_auto.
Qed.

(** Set-up. *)
Lemma applySettings_respects (st : Settings.t) : respects R (applySettings st).
Proof.
  pose proof setRegister_respects.
  pose proof run_respects. pose proof stop_respects.
  pose proof setTouchThreshold_all_respects.
  pose proof setReleaseThreshold_all_respects.
  pose proof setInterruptPin_respects.
  unfold applySettings. respects_auto.
Qed.

Lemma begin_respects : respects R begin.
Proof.
  pose proof reset_respects. pose proof applySettings_respects.
  unfold begin. respects_auto.
Qed.

Lemma begin_at_respects (a : Z) : respects R (begin_at a).
Proof.
  pose proof begin_respects.
  unfold begin_at. respects_auto.
Qed.

End Respects.

(** ** What the methods leave alone *)

Section Frames.

Context {hd : Header} {sh : SettingsHeader} {order : OperandOrder}
        {W : Type} {wire : TwoWire W} {pins : ArduinoPins W}
        {setup : TwoWireSetup W}.

Lemma within_refl (F : Footprint) (o : MPR121) : within F o o.
Proof. unfold within. repeat split. Qed.

Lemma within_trans (F : Footprint) (o1 o2 o3 : MPR121) :
  within F o1 o2 -> within F o2 o3 -> within F o1 o3.
Proof.
  unfold within.
  intros (A1 & B1 & C1 & D1 & E1 & G1 & H1 & I1 & J1)
         (A2 & B2 & C2 & D2 & E2 & G2 & H2 & I2 & J2).
  split; [intros Hf; now rewrite A2, A1|].
  split; [intros Hf; now rewrite B2, B1|].
  split; [intros Hf; now rewrite C2, C1|].
  split; [intros Hf; now rewrite D2, D1|].
  split; [intros Hf; destruct (E1 Hf) as [<- <-];
          destruct (E2 Hf) as [<- <-]; now split|].
  split; [intros Hf; now rewrite G2, G1|].
  split; [intros Hf; now rewrite H2, H1|].
  split; [intros Hf; now rewrite I2, I1|].
  intros Hf; now rewrite J2, J1.
Qed.

Lemma respects_void {A} (R : MPR121 -> MPR121 -> Prop) (m : M W A) :
  respects R m -> respects R (void m).
Proof.
  intros H s. unfold void, bind, skip, ret. specialize (H s).
  destruct (m s) as [a s1]. exact H.
Qed.

Ltac frame_side F :=
  first
    [ exact (within_refl F)
    | exact (within_trans F)
    | intros; unfold within; cbn;
      repeat match goal with |- _ /\ _ => split end;
      intros Hfalse; first [discriminate Hfalse | reflexivity | now split] ].

Ltac method_respects :=
  lazymatch goal with
  | |- respects _ getError => apply getError_respects
  | |- respects _ clearError => apply clearError_respects
  | |- respects _ touchStatusChanged => apply touchStatusChanged_respects
  | |- respects _ updateTouchData => apply updateTouchData_respects
  | |- respects _ updateBaselineData => apply updateBaselineData_respects
  | |- respects _ updateFilteredData => apply updateFilteredData_respects
  | |- respects _ updateAll => apply updateAll_respects
  | |- respects _ (touched _) => apply touched_respects
  | |- respects _ getTouchCount => apply getTouchCount_respects
  | |- respects _ (getBaselineData _) => apply getBaselineData_respects
  | |- respects _ (getFilteredData _) => apply getFilteredData_respects
  | |- respects _ (isNewTouch _) => apply isNewTouch_respects
  | |- respects _ (isNewRelease _) => apply isNewRelease_respects
  | |- respects _ (getPreviousTouchData _) => apply getPreviousTouchData_respects
  | |- respects _ (setTouchThreshold_all _) => apply setTouchThreshold_all_respects
  | |- respects _ (setTouchThreshold _ _) => apply setTouchThreshold_respects
  | |- respects _ (setReleaseThreshold_all _) => apply setReleaseThreshold_all_respects
  | |- respects _ (setReleaseThreshold _ _) => apply setReleaseThreshold_respects
  | |- respects _ (getTouchThreshold _) => apply getTouchThreshold_respects
  | |- respects _ (getReleaseThreshold _) => apply getReleaseThreshold_respects
  | |- respects _ goSlow => apply goSlow_respects
  | |- respects _ goFast => apply goFast_respects
  | |- respects _ (setRegister _ _) => apply setRegister_respects
  | |- respects _ (getRegister _) => apply getRegister_respects
  | |- respects _ run => apply run_respects
  | |- respects _ stop => apply stop_respects
  | |- respects _ reset => apply reset_respects
  | |- respects _ isRunning => apply isRunning_respects
  | |- respects _ isInitialized => apply isInitialized_respects
  | |- respects _ (setInterruptPin _) => apply setInterruptPin_respects
  | |- respects _ (setProximityMode _) => apply setProximityMode_respects
  | |- respects _ (setDigitalPinCount _) => apply setDigitalPinCount_respects
  | |- respects _ (pinMode _ _) => apply pinMode_respects
  | |- respects _ (pinMode_int _ _) => apply pinMode_int_respects
  | |- respects _ (digitalWrite _ _) => apply digitalWrite_respects
  | |- respects _ (digitalToggle _) => apply digitalToggle_respects
  | |- respects _ (digitalRead _) => apply digitalRead_respects
  | |- respects _ (analogWrite _ _) => apply analogWrite_respects
  | |- respects _ (setSamplePeriod _) => apply setSamplePeriod_respects
  | |- respects _ (applySettings _) => apply applySettings_respects
  | |- respects _ begin => apply begin_respects
  | |- respects _ (begin_at _) => apply begin_at_respects
  end.

Tactic Notation "frame_by" uconstr(lem) constr(F) :=
  apply lem; frame_side F.

(** X1.  Each public method assigns only the fields of the handle its
    footprint lists: every other field is the same after the call as
    before it, whatever the bus and the pins answer. *)
Theorem methods_stay_within_footprint (op : Op) :
  respects (within (footprint op)) (exec (W := W) op).
Proof.
  destruct op; cbn [exec footprint];
    try apply respects_void.
  - frame_by getError_respects fp_read.
  - frame_by clearError_respects fp_read.
  - frame_by touchStatusChanged_respects fp_none.
  - frame_by updateTouchData_respects fp_touch.
  - frame_by updateBaselineData_respects fp_baseline_only.
  - frame_by updateFilteredData_respects fp_filtered_only.
  - frame_by updateAll_respects fp_update_all.
  - frame_by touched_respects fp_none.
  - frame_by getTouchCount_respects fp_none.
  - frame_by getBaselineData_respects fp_none.
  - frame_by getFilteredData_respects fp_none.
  - frame_by isNewTouch_respects fp_none.
  - frame_by isNewRelease_respects fp_none.
  - frame_by getPreviousTouchData_respects fp_none.
  - frame_by setTouchThreshold_all_respects fp_write.
  - frame_by setTouchThreshold_respects fp_write.
  - frame_by setReleaseThreshold_all_respects fp_write.
  - frame_by setReleaseThreshold_respects fp_write.
  - frame_by getTouchThreshold_respects fp_read.
  - frame_by getReleaseThreshold_respects fp_read.
  - frame_by goSlow_respects fp_none.
  - frame_by goFast_respects fp_none.
  - frame_by setRegister_respects fp_write.
  - frame_by getRegister_respects fp_read.
  - frame_by run_respects fp_run.
  - frame_by stop_respects fp_write.
  - frame_by reset_respects fp_write.
  - frame_by isRunning_respects fp_none.
  - frame_by isInitialized_respects fp_none.
  - frame_by setInterruptPin_respects fp_pin.
  - frame_by setProximityMode_respects fp_write.
  - frame_by setDigitalPinCount_respects fp_write.
  - frame_by pinMode_respects fp_write.
  - frame_by pinMode_int_respects fp_write.
  - frame_by digitalWrite_respects fp_write.
  - frame_by digitalToggle_respects fp_write.
  - frame_by digitalRead_respects fp_read.
  - frame_by analogWrite_respects fp_write.
  - frame_by setSamplePeriod_respects fp_write.
  - frame_by applySettings_respects fp_settings.
  - frame_by begin_respects fp_settings.
  - frame_by begin_at_respects fp_begin_at.
Qed.


(** *** The not-initialized flag *)

(** What [applySettings] calls after it cleared the flag leaves the flag
    alone. *)
Lemma set_up_tail_keeps_not_initialized (t p : Z) :
  error_bits_wf = true ->
  let R := fun o o' =>
             flag_set (error_byte_ o') NOT_INITIALIZED_BIT =
             flag_set (error_byte_ o) NOT_INITIALIZED_BIT in
  respects R (setTouchThreshold_all (W := W) t) /\
  respects R (setReleaseThreshold_all (W := W) t) /\
  respects R (setInterruptPin (W := W) p) /\
  respects R (run (W := W)).
Proof.
  intros Hwf R. subst R. bits_facts Hwf.
  assert (Hflag : forall b, 0 <= b -> b <> NOT_INITIALIZED_BIT ->
            forall (c : bool) o,
              flag_set (error_byte_
                 (set_error_byte
                    (if c then raise_flag (error_byte_ o) b
                     else lower_flag (error_byte_ o) b) o))
                NOT_INITIALIZED_BIT =
              flag_set (error_byte_ o) NOT_INITIALIZED_BIT).
  { intros b Hb Hne c o. cbn. rewrite flag_after_set_flag_if by lia.
    now rewrite (proj2 (Z.eqb_neq _ _) Hne). }
  repeat split;
    method_respects;
    first
      [ reflexivity
      | intros o1 o2 o3 E1 E2; now rewrite E2
      | apply Hflag; (lia || congruence)
      | intros; reflexivity ].
Qed.

(** The flag is the same before and after. *)
Lemma exec_keeps_not_initialized (op : Op) :
  error_bits_wf = true -> sets_up op = false ->
  respects (fun o o' =>
              flag_set (error_byte_ o') NOT_INITIALIZED_BIT =
              flag_set (error_byte_ o) NOT_INITIALIZED_BIT)
           (exec (W := W) op).
Proof.
  intros Hwf Hop. bits_facts Hwf.
  assert (Hflag : forall b, 0 <= b -> b <> NOT_INITIALIZED_BIT ->
            forall (c : bool) o,
              flag_set (error_byte_
                 (set_error_byte
                    (if c then raise_flag (error_byte_ o) b
                     else lower_flag (error_byte_ o) b) o))
                NOT_INITIALIZED_BIT =
              flag_set (error_byte_ o) NOT_INITIALIZED_BIT).
  { intros b Hb Hne c o. cbn. rewrite flag_after_set_flag_if by lia.
    now rewrite (proj2 (Z.eqb_neq _ _) Hne). }
  destruct op; try discriminate Hop; cbn [exec];
    try apply respects_void;
    method_respects;
    first
      [ reflexivity
      | intros o1 o2 o3 E1 E2; now rewrite E2
      | apply Hflag; (lia || congruence)
      | intros; reflexivity ].
Qed.

(** X2.  No sequence of calls of the methods other than [clearError],
    [applySettings], [begin] and [begin(address)] changes what
    [isInitialized()] answers: an initialized handle stays initialized and
    a not-initialized one stays so, whatever the chip answers. *)
Theorem only_set_up_changes_isInitialized (ops : list Op) (s : Sys W) :
  error_bits_wf = true ->
  forallb (fun op => negb (sets_up op)) ops = true ->
  fst (isInitialized (snd (exec_all ops s))) = fst (isInitialized s).
Proof.
  intros Hwf. revert s.
  induction ops as [|op ops IH]; intros s Hops; [reflexivity|].
  cbn [forallb] in Hops. apply andb_true_iff in Hops as [Hop Hrest].
  apply negb_true_iff in Hop.
  cbn [exec_all]. unfold bind.
  pose proof (exec_keeps_not_initialized op Hwf Hop s) as Hstep.
  destruct (exec op s) as [[] s1]. cbn [snd] in Hstep.
  rewrite (IH s1 Hrest). rewrite !isInitialized_eq. cbn [fst].
  now rewrite Hstep.
Qed.

(** *** The touch-status flag *)

Lemma exec_keeps_auto_flag (op : Op) :
  refreshes_touch op = false ->
  respects (fun o o' =>
              auto_touch_status_flag_ o = true ->
              auto_touch_status_flag_ o' = true)
           (exec (W := W) op).
Proof.
  intros Hop.
  destruct op; try discriminate Hop; cbn [exec];
    try apply respects_void;
    method_respects;
    first
      [ intros o H; exact H
      | intros o1 o2 o3 E1 E2 H; exact (E2 (E1 H))
      | intros; cbn; first [assumption | reflexivity] ].
Qed.

(** X3.  Once [auto_touch_status_flag_] is set it stays set through every
    sequence of calls that contains neither [updateTouchData] nor
    [updateAll]; at the end [touchStatusChanged()] answers true without
    reading the interrupt pin. *)
Theorem touch_status_flag_is_sticky (ops : list Op) (s : Sys W) :
  forallb (fun op => negb (refreshes_touch op)) ops = true ->
  auto_touch_status_flag_ (this s) = true ->
  let s' := snd (exec_all ops s) in
  auto_touch_status_flag_ (this s') = true /\
  touchStatusChanged s' = (true, s').
Proof.
  intros Hops Hs s'.
  assert (H : auto_touch_status_flag_ (this s') = true).
  { subst s'. revert s Hs Hops.
    induction ops as [|op ops IH]; intros s Hs Hops; [exact Hs|].
    cbn [forallb] in Hops. apply andb_true_iff in Hops as [Hop Hrest].
    apply negb_true_iff in Hop.
    cbn [exec_all]. unfold bind.
    pose proof (exec_keeps_auto_flag op Hop s Hs) as Hstep.
    destruct (exec op s) as [[] s1]. cbn [snd] in Hstep.
    now apply IH. }
  split; [exact H|].
  unfold touchStatusChanged, bind, get_this. now rewrite H.
Qed.

End Frames.

(** ** Touch bitmaps *)

Section Touch.

Context {hd : Header} {order : OperandOrder} {W : Type}
        {wire : TwoWire W} {pins : ArduinoPins W}.

(** [(x >> e) & 1] is bit [e] of [x]. *)
Lemma bit_at_testbit (x e : Z) : 0 <= e -> bit_at x e = Z.testbit x e.
Proof.
  intros He. unfold bit_at.
  change 1 with (Z.ones 1) at 1. rewrite Z.land_ones by lia.
  change (2 ^ 1) with 2. rewrite <- Z.bit0_mod.
  rewrite Z.shiftr_spec by lia. rewrite Z.add_0_l.
  destruct (Z.testbit x e); reflexivity.
Qed.

Lemma touched_in_range (e : Z) (s : Sys W) :
  flag_set (error_byte_ (this s)) NOT_INITIALIZED_BIT = false ->
  0 <= e < ELECTRODE_COUNT ->
  touched e s = (Z.testbit (touch_data_ (this s)) e, s).
Proof.
  intros Hi He. unfold touched, bind. rewrite isInitialized_eq, Hi.
  replace (ELECTRODE_COUNT <=? e) with false by (symmetry; apply Z.leb_gt; lia).
  cbn. unfold ret. f_equal. apply (bit_at_testbit _ e). lia.
Qed.

Lemma getPreviousTouchData_in_range (e : Z) (s : Sys W) :
  flag_set (error_byte_ (this s)) NOT_INITIALIZED_BIT = false ->
  0 <= e < ELECTRODE_COUNT ->
  getPreviousTouchData e s = (Z.testbit (touch_data_previous_ (this s)) e, s).
Proof.
  intros Hi He. unfold getPreviousTouchData, bind. rewrite isInitialized_eq, Hi.
  replace (ELECTRODE_COUNT - 1 <? e) with false
    by (symmetry; apply Z.ltb_ge; lia).
  cbn. unfold ret. f_equal. apply (bit_at_testbit _ e). lia.
Qed.

(** X4.  On an initialized handle and for an electrode in range,
    [isNewTouch] is true exactly when the electrode's bit is clear in the
    previous bitmap and set in the current one, [isNewRelease] exactly when
    it is set in the previous and clear in the current; the two are never
    true together, and neither changes the state. *)
Theorem touch_edges (e : Z) (s : Sys W) :
  flag_set (error_byte_ (this s)) NOT_INITIALIZED_BIT = false ->
  0 <= e < ELECTRODE_COUNT ->
  let cur := Z.testbit (touch_data_ (this s)) e in
  let prev := Z.testbit (touch_data_previous_ (this s)) e in
  isNewTouch e s = (negb prev && cur, s) /\
  isNewRelease e s = (prev && negb cur, s) /\
  (fst (isNewTouch e s) && fst (isNewRelease e s) = false).
Proof.
  intros Hi He cur prev.
  assert (Hle : (ELECTRODE_COUNT <=? e) = false) by (apply Z.leb_gt; lia).
  assert (Et : isNewTouch e s = (negb prev && cur, s)).
  { unfold isNewTouch. unfold bind at 1. rewrite isInitialized_eq, Hi, Hle.
    cbn [negb orb]. unfold bind at 1.
    rewrite (getPreviousTouchData_in_range e s Hi He). fold prev.
    destruct prev; cbn; [reflexivity|].
    unfold bind. rewrite (touched_in_range e s Hi He). fold cur.
    destruct cur; reflexivity. }
  assert (Er : isNewRelease e s = (prev && negb cur, s)).
  { unfold isNewRelease. unfold bind at 1. rewrite isInitialized_eq, Hi, Hle.
    cbn [negb orb]. unfold bind at 1.
    rewrite (getPreviousTouchData_in_range e s Hi He). fold prev.
    destruct prev; cbn; [|reflexivity].
    unfold bind. rewrite (touched_in_range e s Hi He). fold cur.
    destruct cur; reflexivity. }
  split; [exact Et|]. split; [exact Er|].
  rewrite Et, Er. cbn [fst]. destruct prev, cur; reflexivity.
Qed.

(** The calls of the two status reads, most recent first, in the order the
    compiler chose. *)
Lemma updateTouchData_eq (s : Sys W) :
  flag_set (error_byte_ (this s)) NOT_INITIALIZED_BIT = false ->
  exists lo hi st0 got0 st1 st2 got2 st3 w' e',
    updateTouchData s =
    (tt, mkSys
           (set_error_byte e'
              (set_touch (u16 (u8 lo + Z.shiftl (u8 hi) 8))
                         (touch_data_ (this s))
                         (set_auto_flag false (this s))))
           w'
           ((if TS1_read_first
             then read_calls (address_ (this s)) TS2 st2 got2 st3 hi
                  ++ read_calls (address_ (this s)) TS1 st0 got0 st1 lo
             else read_calls (address_ (this s)) TS1 st0 got0 st1 lo
                  ++ read_calls (address_ (this s)) TS2 st2 got2 st3 hi)
            ++ trace s)).
Proof.
  intros Hi.
  unfold updateTouchData. unfold bind at 1. rewrite isInitialized_eq, Hi.
  cbn [negb]. unfold bind at 1 2, modify. cbn [this world trace].
  unfold bind at 1. unfold read_touch_status.
  destruct TS1_read_first.
  - unfold bind at 1.
    match goal with |- context [getRegister TS1 ?s0] =>
      destruct (getRegister_shape TS1 s0)
        as (st0 & got0 & st1 & lo & w1 & e1 & E1) end.
    rewrite E1. cbn [this world trace address_ set_touch set_auto_flag].
    unfold bind at 1.
    match goal with |- context [getRegister TS2 ?s0] =>
      destruct (getRegister_shape TS2 s0)
        as (st2 & got2 & st3 & hi & w2 & e2 & E2) end.
    rewrite E2. cbn.
    exists lo, hi, st0, got0, st1, st2, got2, st3, w2, e2. reflexivity.
  - unfold bind at 1.
    match goal with |- context [getRegister TS2 ?s0] =>
      destruct (getRegister_shape TS2 s0)
        as (st2 & got2 & st3 & hi & w1 & e1 & E1) end.
    rewrite E1. cbn [this world trace address_ set_touch set_auto_flag].
    unfold bind at 1.
    match goal with |- context [getRegister TS1 ?s0] =>
      destruct (getRegister_shape TS1 s0)
        as (st0 & got0 & st1 & lo & w2 & e2 & E2) end.
    rewrite E2. cbn.
    exists lo, hi, st0, got0, st1, st2, got2, st3, w2, e2. reflexivity.
Qed.

(** X5.  [updateTouchData()] on an initialized handle makes two register
    reads, one of TS1 and one of TS2, in the order the compiler chose for
    the operands of [+], and nothing else on the bus.  Afterwards the
    previous bitmap is the bitmap held before the call, the current bitmap
    is the byte of TS1 plus 256 times the byte of TS2, whichever was read
    first, and the touch-status flag is clear. *)
Theorem updateTouchData_shifts_bitmaps (s : Sys W) :
  flag_set (error_byte_ (this s)) NOT_INITIALIZED_BIT = false ->
  let s' := snd (updateTouchData s) in
  exists lo hi st0 got0 st1 st2 got2 st3,
    trace s' =
      (if TS1_read_first
       then read_calls (address_ (this s)) TS2 st2 got2 st3 hi
            ++ read_calls (address_ (this s)) TS1 st0 got0 st1 lo
       else read_calls (address_ (this s)) TS1 st0 got0 st1 lo
            ++ read_calls (address_ (this s)) TS2 st2 got2 st3 hi)
      ++ trace s /\
    touch_data_previous_ (this s') = touch_data_ (this s) /\
    touch_data_ (this s') = u8 lo + 256 * u8 hi /\
    auto_touch_status_flag_ (this s') = false.
Proof.
  intros Hi s'. subst s'.
  destruct (updateTouchData_eq s Hi)
    as (lo & hi & st0 & got0 & st1 & st2 & got2 & st3 & w' & e' & E).
  rewrite E. cbn [snd this trace].
  exists lo, hi, st0, got0, st1, st2, got2, st3.
  split; [reflexivity|]. split; [reflexivity|]. split; [|reflexivity].
  cbn. pose proof (u8_range lo). pose proof (u8_range hi).
  unfold u16. rewrite Z.shiftl_mul_pow2 by lia. change (2 ^ 8) with 256.
  rewrite Z.mod_small by lia. lia.
Qed.

(** *** Counting touches *)

Lemma count_touched_spec (n : nat) :
  forall (start acc : Z) (s : Sys W),
    flag_set (error_byte_ (this s)) NOT_INITIALIZED_BIT = false ->
    0 <= start -> start + Z.of_nat n <= ELECTRODE_COUNT ->
    ELECTRODE_COUNT <= 255 ->
    0 <= acc -> acc + Z.of_nat n <= 255 ->
    count_touched start n acc s =
    (acc + Z.of_nat (length (filter
                       (fun e => Z.testbit (touch_data_ (this s)) e = true)
                       (seqZ start (Z.of_nat n)))), s).
Proof.
  induction n as [|n IH]; intros start acc s Hi Hs Hn Hec Ha Hacc.
  - rewrite seqZ_nil by lia. cbn. unfold ret. f_equal. lia.
  - cbn [count_touched]. unfold bind.
    assert (Hu : u8 start = start) by (unfold u8; apply Z.mod_small; lia).
    rewrite Hu, (touched_in_range start s Hi) by lia.
    rewrite seqZ_cons by lia.
    replace (Z.pred (Z.of_nat (S n))) with (Z.of_nat n) by lia.
    rewrite filter_cons.
    destruct (Z.testbit (touch_data_ (this s)) start) eqn:Hb.
    + rewrite decide_True by reflexivity.
      rewrite (IH (start + 1) (u8 (acc + 1)) s) by
        (try assumption; unfold u8; rewrite ?Z.mod_small by lia; lia).
      unfold u8. rewrite Z.mod_small by lia.
      cbn [length]. f_equal. replace (Z.succ start) with (start + 1) by lia.
      lia.
    + rewrite decide_False by discriminate.
      rewrite (IH (start + 1) acc s) by (try assumption; lia).
      replace (Z.succ start) with (start + 1) by lia. reflexivity.
Qed.

(** X6.  On an initialized handle [getTouchCount()] returns the number of
    electrodes below [ELECTRODE_COUNT] whose bit is set in the current
    bitmap, and changes nothing. *)
Theorem getTouchCount_counts_set_bits (s : Sys W) :
  flag_set (error_byte_ (this s)) NOT_INITIALIZED_BIT = false ->
  0 <= ELECTRODE_COUNT <= 255 ->
  getTouchCount s =
  (Z.of_nat (length (touched_electrodes (touch_data_ (this s))
                                        ELECTRODE_COUNT)), s).
Proof.
  intros Hi Hec. unfold getTouchCount, bind. rewrite isInitialized_eq, Hi.
  cbn [negb]. rewrite count_touched_spec by (try assumption; lia).
  unfold touched_electrodes. rewrite Z2Nat.id by lia. reflexivity.
Qed.

End Touch.

(** ** Reset and the error report *)

Section Reset.

Context {hd : Header} {W : Type} {wire : TwoWire W}.

Lemma quiet_bit_facts (b : Z) :
  error_bits_wf = true -> quiet_bit b ->
  0 <= b < 8 /\ b <> ADDRESS_UNKNOWN_BIT /\ b <> OVERCURRENT_FLAG_BIT /\
  b <> OUT_OF_RANGE_BIT.
Proof.
  intros Hwf Hb. bits_facts Hwf. destruct Hb as [->| ->]; repeat split;
    first [lia | congruence].
Qed.

Lemma set_flag_if_keeps_other (b b' : Z) (c : bool) (o : MPR121) :
  0 <= b' -> 0 <= b < 8 -> b <> b' ->
  flag_set (error_byte_
     (set_error_byte (if c then raise_flag (error_byte_ o) b'
                      else lower_flag (error_byte_ o) b') o)) b =
  flag_set (error_byte_ o) b.
Proof.
  intros H0 Hb Hne. cbn. rewrite flag_after_set_flag_if by lia.
  now rewrite (proj2 (Z.eqb_neq b' b)) by congruence.
Qed.

Ltac keeps_flag Hwf Hb :=
  destruct (quiet_bit_facts _ Hwf Hb) as (? & ? & ? & ?);
  bits_facts Hwf;
  first
    [ reflexivity
    | intros ?o1 ?o2 ?o3 ?E1 ?E2; now rewrite E2
    | intros; apply set_flag_if_keeps_other; (lia || congruence)
    | intros; reflexivity ].

Lemma getRegister_keeps_flag (b reg : Z) (s : Sys W) :
  error_bits_wf = true -> quiet_bit b ->
  flag_set (error_byte_ (this (snd (getRegister reg s)))) b =
  flag_set (error_byte_ (this s)) b.
Proof.
  intros Hwf Hb.
  apply (getRegister_respects
           (fun o o' => flag_set (error_byte_ o') b = flag_set (error_byte_ o) b));
    keeps_flag Hwf Hb.
Qed.

Lemma setRegister_keeps_flag (b reg value : Z) (s : Sys W) :
  error_bits_wf = true -> quiet_bit b ->
  flag_set (error_byte_ (this (snd (setRegister reg value s)))) b =
  flag_set (error_byte_ (this s)) b.
Proof.
  intros Hwf Hb.
  apply (setRegister_respects
           (fun o o' => flag_set (error_byte_ o') b = flag_set (error_byte_ o) b));
    keeps_flag Hwf Hb.
Qed.

Lemma getError_keeps_flag (b : Z) (s : Sys W) :
  error_bits_wf = true -> quiet_bit b ->
  flag_set (error_byte_ (this (snd (getError s)))) b =
  flag_set (error_byte_ (this s)) b.
Proof.
  intros Hwf Hb.
  apply (getError_respects
           (fun o o' => flag_set (error_byte_ o') b = flag_set (error_byte_ o) b));
    keeps_flag Hwf Hb.
Qed.

Ltac back_to_start :=
  repeat (first
    [ rewrite set_flag_if_keeps_other by (lia || congruence)
    | rewrite getRegister_keeps_flag by assumption
    | rewrite setRegister_keeps_flag by assumption ];
    cbn [snd this]).

(** The report when the not-initialized flag is set, and when it is clear
    and the readback flag is set. *)
Lemma getError_not_initialized (s : Sys W) :
  error_bits_wf = true ->
  flag_set (error_byte_ (this s)) NOT_INITIALIZED_BIT = true ->
  fst (getError s) = NOT_INITIALIZED.
Proof.
  intros Hwf Hni. pose proof (getError_eq s) as E. cbn zeta in E.
  pose proof (getError_keeps_flag NOT_INITIALIZED_BIT s Hwf (or_introl eq_refl))
    as Hk.
  rewrite E in Hk |- *. cbn [fst snd] in *.
  rewrite current_error_flag_set, Hk, Hni. reflexivity.
Qed.

Lemma getError_readback (s : Sys W) :
  error_bits_wf = true ->
  flag_set (error_byte_ (this s)) NOT_INITIALIZED_BIT = false ->
  flag_set (error_byte_ (this s)) READBACK_FAIL_BIT = true ->
  fst (getError s) = ADDRESS_UNKNOWN \/ fst (getError s) = READBACK_FAIL.
Proof.
  intros Hwf Hni Hrb. pose proof (getError_eq s) as E. cbn zeta in E.
  pose proof (getError_keeps_flag NOT_INITIALIZED_BIT s Hwf (or_introl eq_refl))
    as Hk1.
  pose proof (getError_keeps_flag READBACK_FAIL_BIT s Hwf (or_intror eq_refl))
    as Hk2.
  rewrite E in Hk1, Hk2 |- *. cbn [fst snd] in *.
  rewrite current_error_flag_set, Hk1, Hni, Hk2, Hrb.
  destruct (flag_set _ ADDRESS_UNKNOWN_BIT); [now left | now right].
Qed.

(** The state [reset()] is in when it first asks [getError()]. *)
Lemma reset_eq (s : Sys W) :
  let s1 := snd (setRegister SRST 0x63 s) in
  let v := fst (getRegister AFE2 s1) in
  let s2 := snd (getRegister AFE2 s1) in
  let s3 := snd (set_flag_if (negb (v =? 0x24)) READBACK_FAIL_BIT s2) in
  let t := fst (getRegister TS2 s3) in
  let s4 := snd (getRegister TS2 s3) in
  let s5 := snd (set_flag_if (negb (Z.land t 0x80 =? 0))
                             OVERCURRENT_FLAG_BIT s4) in
  reset s =
  (e1 <- getError ;;
   if Error_eqb e1 NOT_INITIALIZED then ret SUCCESS
   else e2 <- getError ;;
        if Error_eqb e2 NO_ERROR then ret SUCCESS else ret (negb SUCCESS)) s5.
Proof.
  cbn zeta. unfold reset. unfold bind at 1.
  destruct (setRegister SRST 99 s) as [[] s1]. cbn [snd]. unfold bind at 1.
  destruct (getRegister AFE2 s1) as [v s2]. cbn [fst snd]. unfold bind at 1.
  destruct (set_flag_if _ READBACK_FAIL_BIT s2) as [[] s3]. cbn [snd].
  unfold bind at 1.
  destruct (getRegister TS2 s3) as [t s4]. cbn [fst snd]. unfold bind at 1.
  destruct (set_flag_if _ OVERCURRENT_FLAG_BIT s4) as [[] s5]. reflexivity.
Qed.

(** X7.  On a handle whose not-initialized flag is set, [reset()] returns
    [SUCCESS] whatever the chip answers: an absent chip, a wrong readback
    or an overcurrent do not make it fail, because [getError()] reports
    [NOT_INITIALIZED] before any other error. *)
Theorem reset_succeeds_when_not_initialized (s : Sys W) :
  error_bits_wf = true ->
  flag_set (error_byte_ (this s)) NOT_INITIALIZED_BIT = true ->
  fst (reset s) = SUCCESS.
Proof.
  intros Hwf Hni. pose proof (reset_eq s) as E. cbn zeta in E. rewrite E.
  clear E. bits_facts Hwf.
  assert (Q : quiet_bit NOT_INITIALIZED_BIT) by now left.
  match goal with |- fst (_ ?s5) = _ =>
    assert (Hafter : flag_set (error_byte_ (this s5)) NOT_INITIALIZED_BIT = true)
  end.
  { rewrite !set_flag_if_eq. cbn [snd this]. back_to_start. exact Hni. }
  unfold bind.
  match goal with |- context [getError ?s5] =>
    pose proof (getError_not_initialized s5 Hwf Hafter) as He;
    destruct (getError s5) as [e1 s6] end.
  cbn [fst] in He. subst e1. reflexivity.
Qed.

(** X8.  On an initialized handle, when the byte read back from AFE2 after
    the soft reset is not 0x24, [reset()] returns [!SUCCESS] and leaves the
    readback flag set. *)
Theorem reset_fails_on_readback_mismatch (s : Sys W) :
  error_bits_wf = true ->
  flag_set (error_byte_ (this s)) NOT_INITIALIZED_BIT = false ->
  fst (getRegister AFE2 (snd (setRegister SRST 0x63 s))) <> 0x24 ->
  fst (reset s) = negb SUCCESS /\
  flag_set (error_byte_ (this (snd (reset s)))) READBACK_FAIL_BIT = true.
Proof.
  intros Hwf Hni Hv. pose proof (reset_eq s) as E. cbn zeta in E. rewrite E.
  clear E. bits_facts Hwf.
  assert (Q1 : quiet_bit NOT_INITIALIZED_BIT) by now left.
  assert (Q2 : quiet_bit READBACK_FAIL_BIT) by now right.
  set (s5 := snd (set_flag_if _ OVERCURRENT_FLAG_BIT _)).
  assert (Hafter : flag_set (error_byte_ (this s5)) NOT_INITIALIZED_BIT = false
                 /\ flag_set (error_byte_ (this s5)) READBACK_FAIL_BIT = true).
  { unfold s5. rewrite !set_flag_if_eq. cbn [snd this]. split.
    - back_to_start. exact Hni.
    - rewrite set_flag_if_keeps_other by (lia || congruence).
      rewrite getRegister_keeps_flag by assumption.
      cbn. rewrite flag_after_set_flag_if by lia. rewrite Z.eqb_refl.
      apply negb_true_iff. now apply Z.eqb_neq. }
  destruct Hafter as [Hna Hra]. clearbody s5. unfold bind.
  pose proof (getError_readback s5 Hwf Hna Hra) as He1.
  pose proof (getError_keeps_flag NOT_INITIALIZED_BIT s5 Hwf Q1) as Hnb.
  pose proof (getError_keeps_flag READBACK_FAIL_BIT s5 Hwf Q2) as Hrb.
  destruct (getError s5) as [e1 s6]. cbn [fst snd] in Hnb, Hrb, He1.
  rewrite Hna in Hnb. rewrite Hra in Hrb.
  pose proof (getError_readback s6 Hwf Hnb Hrb) as He2.
  pose proof (getError_keeps_flag READBACK_FAIL_BIT s6 Hwf Q2) as Hrc.
  assert (Hstep : forall e, e = ADDRESS_UNKNOWN \/ e = READBACK_FAIL ->
            Error_eqb e NOT_INITIALIZED = false /\ Error_eqb e NO_ERROR = false).
  { intros e [-> | ->]; split; reflexivity. }
  rewrite (proj1 (Hstep e1 He1)).
  destruct (getError s6) as [e2 s7]. cbn [fst snd] in Hrc, He2.
  rewrite (proj2 (Hstep e2 He2)). rewrite Hrb in Hrc.
  unfold ret. cbn [fst snd]. split; [reflexivity | exact Hrc].
Qed.

(** X9.  [getError()] never reports an overcurrent, and it reports
    [OUT_OF_RANGE] only when the byte it read from OORS2 is not zero: what
    OORS1 held is forgotten by the read of OORS2 that follows it. *)
Theorem getError_reports_out_of_range_from_OORS2 (s : Sys W) :
  error_bits_wf = true -> OORS2 <> TS2 ->
  fst (getError s) <> OVERCURRENT_FLAG /\
  (fst (getRegister OORS2 (snd (getRegister OORS1 s))) = 0 ->
   fst (getError s) <> OUT_OF_RANGE).
Proof.
  intros Hwf Hne. split; [now apply getError_never_overcurrent|].
  intros Hz. pose proof (getError_eq s) as E. cbn zeta in E. rewrite E.
  cbn [fst]. rewrite current_error_flag_set.
  destruct (getRegister_spec OORS2 (snd (getRegister OORS1 s)) Hwf)
    as (st0 & got & st & r & w' & e' & E2 & _ & _ & _ & _ & Hoor).
  rewrite E2 in Hz |- *. cbn [fst snd this error_byte_ set_error_byte] in *.
  rewrite Hoor, Hz. rewrite andb_false_r.
  repeat match goal with |- context [flag_set ?e ?b] =>
    destruct (flag_set e b) end; discriminate.
Qed.

Lemma reset_keeps_not_initialized (s : Sys W) :
  error_bits_wf = true ->
  flag_set (error_byte_ (this (snd (reset s)))) NOT_INITIALIZED_BIT =
  flag_set (error_byte_ (this s)) NOT_INITIALIZED_BIT.
Proof.
  intros Hwf.
  assert (Hb : quiet_bit NOT_INITIALIZED_BIT) by now left.
  apply (reset_respects
           (fun o o' => flag_set (error_byte_ o') NOT_INITIALIZED_BIT =
                        flag_set (error_byte_ o) NOT_INITIALIZED_BIT));
    keeps_flag Hwf Hb.
Qed.

End Reset.

(** ** Set-up *)

Section SetUp.

Context {hd : Header} {sh : SettingsHeader} {order : OperandOrder}
        {W : Type} {wire : TwoWire W} {pins : ArduinoPins W}
        {setup : TwoWireSetup W}.

Lemma after_bind {A B} (P : Sys W -> Prop) (m : M W A) (k : A -> M W B) :
  (forall a s, P (snd (k a s))) -> forall s, P (snd (bind m k s)).
Proof. intros H s. unfold bind. destruct (m s) as [a s1]. apply H. Qed.

Lemma lowered_not_initialized (e : Z) :
  error_bits_wf = true ->
  flag_set (lower_flag e NOT_INITIALIZED_BIT) NOT_INITIALIZED_BIT = false.
Proof.
  intros Hwf. bits_facts Hwf. rewrite flag_set_lower by lia.
  rewrite Z.eqb_refl. apply andb_false_r.
Qed.

Lemma applySettings_ends_initialized (settings : Settings.t) (s : Sys W) :
  error_bits_wf = true ->
  flag_set (error_byte_ (this (snd (applySettings settings s))))
           NOT_INITIALIZED_BIT = false.
Proof.
  intros Hwf.
  revert s. unfold applySettings.
  do 33 (apply (after_bind
                  (fun s' => flag_set (error_byte_ (this s'))
                                      NOT_INITIALIZED_BIT = false));
         intros ?).
  intros s. unfold bind at 1, modify.
  set (s0 := mkSys _ _ _).
  assert (H0 : flag_set (error_byte_ (this s0)) NOT_INITIALIZED_BIT = false)
    by (apply lowered_not_initialized; exact Hwf).
  clearbody s0. unfold bind at 1.
  destruct (set_up_tail_keeps_not_initialized
              (W := W) (Settings.TTHRESH settings)
              (Settings.INTERRUPT settings) Hwf) as (T1 & _ & T3 & T4).
  destruct (set_up_tail_keeps_not_initialized
              (W := W) (Settings.RTHRESH settings)
              (Settings.INTERRUPT settings) Hwf) as (_ & T2 & _).
  pose proof (T1 s0) as H1.
  destruct (setTouchThreshold_all _ s0) as [[] s1].
  cbn [snd] in H1. unfold bind at 1.
  pose proof (T2 s1) as H2.
  destruct (setReleaseThreshold_all _ s1) as [[] s2].
  cbn [snd] in H2. unfold bind at 1.
  pose proof (T3 s2) as H3.
  destruct (setInterruptPin _ s2) as [[] s3].
  cbn [snd] in H3.
  pose proof (T4 s3) as H4.
  match goal with |- context [if ?c then _ else _] => destruct c end;
    cbn [snd skip ret]; congruence.
Qed.

(** X10.  [applySettings] leaves the handle initialized from every state,
    a not-initialized one included: it tests nothing, clears the flag after
    its register writes, and nothing it calls afterwards sets it again. *)
Theorem applySettings_initializes (settings : Settings.t) (s : Sys W) :
  error_bits_wf = true ->
  fst (isInitialized (snd (applySettings settings s))) = true.
Proof.
  intros Hwf. rewrite isInitialized_eq. cbn [fst].
  now rewrite applySettings_ends_initialized.
Qed.

(** X11.  [begin()] clears the not-initialized flag before it resets the
    chip and never sets it back: it returns [SUCCESS] or [!SUCCESS] as
    [reset()] returned true or false, and in both cases [isInitialized()]
    answers true afterwards. *)
Theorem begin_leaves_initialized (s : Sys W) :
  error_bits_wf = true ->
  let s0 := mkSys (set_error_byte
                     (lower_flag (error_byte_ (this s)) NOT_INITIALIZED_BIT)
                     (this s))
                  (tw_begin (world s)) (trace s) in
  fst (begin s) = (if fst (reset s0) then SUCCESS else negb SUCCESS) /\
  fst (isInitialized (snd (begin s))) = true.
Proof.
  intros Hwf s0.
  assert (H0 : flag_set (error_byte_ (this s0)) NOT_INITIALIZED_BIT = false)
    by (apply lowered_not_initialized; exact Hwf).
  assert (E : begin s =
              (ok <- reset ;;
               if ok then applySettings default_settings_ ;; ret SUCCESS
               else ret (negb SUCCESS)) s0) by reflexivity.
  rewrite E. clearbody s0. clear E. unfold bind at 1 3.
  pose proof (reset_keeps_not_initialized s0 Hwf) as H1.
  destruct (reset s0) as [ok s1]. cbn [fst snd] in *.
  destruct ok.
  - unfold bind.
    pose proof (applySettings_ends_initialized default_settings_ s1 Hwf) as H2.
    destruct (applySettings default_settings_ s1) as [[] s2].
    unfold ret. cbn [fst snd] in *. split; [reflexivity|].
    rewrite isInitialized_eq. cbn [fst]. now rewrite H2.
  - unfold ret. cbn [fst snd]. split; [reflexivity|].
    rewrite isInitialized_eq. cbn [fst]. rewrite H1, H0. reflexivity.
Qed.

End SetUp.

(** ** The threshold loops *)

Section Thresholds.

Context {hd : Header} {W : Type} {wire : TwoWire W}.

Lemma register_writes_after_write (a reg value st : Z) (t : list Call) :
  register_writes (write_calls a reg value st ++ t) =
  (reg, value) :: register_writes t.
Proof. reflexivity. Qed.

Lemma register_writes_after_read (a reg st0 got st r : Z) (t : list Call) :
  register_writes (read_calls a reg st0 got st r ++ t) = register_writes t.
Proof. reflexivity. Qed.

(** A write to a register other than ECR on an initialized, stopped handle:
    one transaction, and the handle stays initialized and stopped. *)
Lemma setRegister_stopped (reg value : Z) (s : Sys W) :
  error_bits_wf = true ->
  flag_set (error_byte_ (this s)) NOT_INITIALIZED_BIT = false ->
  running_ (this s) = false -> reg <> ECR ->
  let s' := snd (setRegister reg value s) in
  register_writes (trace s') = (reg, value) :: register_writes (trace s) /\
  flag_set (error_byte_ (this s')) NOT_INITIALIZED_BIT = false /\
  running_ (this s') = false /\
  ecr_backup_ (this s') = ecr_backup_ (this s) /\
  address_ (this s') = address_ (this s).
Proof.
  intros Hwf Hi Hr Hne s'. subst s'. unfold setRegister.
  rewrite setRegister_body_plain by (auto; now right).
  destruct (write_register_spec reg value s) as (st & w' & E). rewrite E.
  cbn [snd this trace]. rewrite register_writes_after_write.
  bits_facts Hwf. repeat split; try assumption.
  cbn. rewrite flag_after_set_flag_if by lia.
  now rewrite (proj2 (Z.eqb_neq _ _)) by congruence.
Qed.

Section Loop.

(** One loop for the two thresholds: [set] is [setTouchThreshold] with
    [base = E0TTH], or [setReleaseThreshold] with [base = E0RTH]. *)
Variable set : Z -> Z -> M W unit.
Variable base : Z.

Hypothesis set_in_range : forall e t s,
  flag_set (error_byte_ (this s)) NOT_INITIALIZED_BIT = false ->
  0 <= e < ELECTRODE_COUNT ->
  set e t s = setRegister (u8 (base + Z.shiftl e 1)) t s.

Lemma threshold_loop (t : Z) (n : nat) :
  forall (start : Z) (s : Sys W),
    error_bits_wf = true ->
    flag_set (error_byte_ (this s)) NOT_INITIALIZED_BIT = false ->
    running_ (this s) = false ->
    0 <= start -> start + Z.of_nat n <= ELECTRODE_COUNT ->
    ELECTRODE_COUNT <= 256 ->
    (forall e, 0 <= e < ELECTRODE_COUNT -> u8 (base + Z.shiftl e 1) <> ECR) ->
    let s' := snd (for_from start n (fun e => set (u8 e) t) s) in
    register_writes (trace s') =
      rev (map (fun e => (u8 (base + Z.shiftl e 1), t))
               (seqZ start (Z.of_nat n)))
      ++ register_writes (trace s) /\
    flag_set (error_byte_ (this s')) NOT_INITIALIZED_BIT = false /\
    running_ (this s') = false /\
    ecr_backup_ (this s') = ecr_backup_ (this s) /\
    address_ (this s') = address_ (this s).
Proof.
  induction n as [|n IH]; intros start s Hwf Hi Hr Hs Hn Hec Hregs.
  - rewrite seqZ_nil by lia. cbn. auto.
  - cbn [for_from]. cbv zeta. unfold bind.
    assert (Hu : u8 start = start) by (unfold u8; apply Z.mod_small; lia).
    rewrite Hu, set_in_range by (assumption || lia).
    destruct (setRegister_stopped (u8 (base + Z.shiftl start 1)) t s
                Hwf Hi Hr) as (Hw & Hi1 & Hr1 & Hb1 & Ha1);
      [apply Hregs; lia|].
    destruct (setRegister _ t s) as [[] s1]. cbn [snd] in *.
    pose proof (IH (start + 1) s1 Hwf Hi1 Hr1) as IH1. cbv zeta in IH1.
    destruct IH1 as (Hw2 & Hi2 & Hr2 & Hb2 & Ha2);
      try assumption; try lia.
    rewrite Hw2, Hw, Hi2, Hr2, Hb2, Hb1, Ha2, Ha1.
    repeat split; try reflexivity.
    rewrite (seqZ_cons start) by lia.
    replace (Z.pred (Z.of_nat (S n))) with (Z.of_nat n) by lia.
    replace (Z.succ start) with (start + 1) by lia.
    cbn [map rev]. rewrite <- app_assoc. reflexivity.
Qed.

(** The whole method, with its bracket. *)
Lemma threshold_method (t : Z) (s : Sys W) :
  error_bits_wf = true ->
  flag_set (error_byte_ (this s)) NOT_INITIALIZED_BIT = false ->
  0 <= ELECTRODE_COUNT <= 256 ->
  (forall e, 0 <= e < ELECTRODE_COUNT -> u8 (base + Z.shiftl e 1) <> ECR) ->
  let method : M W unit :=
    init <- isInitialized ;;
    if negb init then skip
    else
      o <- get_this ;;
      let was_running := running_ o in
      (if was_running then stop else skip) ;;
      for_electrodes ELECTRODE_COUNT (fun electrode => set (u8 electrode) t) ;;
      if was_running then run else skip in
  let s' := snd (method s) in
  if running_ (this s) then
    exists r,
      rev (register_writes (trace s')) =
        rev (register_writes (trace s))
        ++ [(ECR, u8 (Z.land (u8 r) 0xC0))]
        ++ threshold_writes base t ELECTRODE_COUNT
        ++ [(ECR, u8 r)]
  else
    rev (register_writes (trace s')) =
      rev (register_writes (trace s))
      ++ threshold_writes base t ELECTRODE_COUNT.
Proof.
  intros Hwf Hi Hec Hregs method s'. subst s' method.
  destruct (running_ (this s)) eqn:Hrun;
    unfold bind at 1; rewrite isInitialized_eq, Hi; cbn [negb];
    unfold bind at 1, get_this; cbv zeta; rewrite Hrun.
  - unfold bind at 1.
    destruct (stop_spec s Hwf Hi)
      as (st0 & got & st1 & r & st2 & w1 & e1 & E1 & Hni & _).
    rewrite E1. unfold bind at 1.
    set (s1 := mkSys _ _ _).
    assert (Hr1 : running_ (this s1) = false).
    { cbn. destruct (masked_enable_byte (u8 r) (u8_range r)) as [-> _].
      reflexivity. }
    destruct (threshold_loop t (Z.to_nat ELECTRODE_COUNT) 0 s1 Hwf Hni Hr1)
      as (Hw & Hi2 & Hr2 & Hb2 & Ha2); try assumption; try lia.
    unfold for_electrodes.
    destruct (for_from 0 _ _ s1) as [[] s2]. cbn [snd] in *.
    destruct (run_spec s2 Hi2) as (st3 & w3 & E3). rewrite E3.
    cbn [snd trace]. rewrite register_writes_after_write, Hw.
    exists r. unfold s1. cbn [trace].
    rewrite register_writes_after_write, register_writes_after_read.
    rewrite Hb2. cbn [this ecr_backup_ set_error_byte set_running
                           set_ecr_backup address_].
    rewrite Z2Nat.id by lia. unfold threshold_writes.
    cbn [rev]. rewrite rev_app_distr, rev_involutive. cbn [rev app].
    rewrite <- !app_assoc. reflexivity.
  - unfold bind at 1, skip, ret. cbn [snd].
    destruct (threshold_loop t (Z.to_nat ELECTRODE_COUNT) 0 s Hwf Hi Hrun)
      as (Hw & Hi2 & Hr2 & Hb2 & Ha2); try assumption; try lia.
    unfold for_electrodes, bind.
    destruct (for_from 0 _ _ s) as [[] s2]. unfold skip, ret. cbn [snd] in *.
    rewrite Hw. rewrite Z2Nat.id by lia. unfold threshold_writes.
    rewrite rev_app_distr, rev_involutive. reflexivity.
Qed.

End Loop.

(** X12.  On an initialized handle [setTouchThreshold(threshold)] writes
    [threshold] to register [E0TTH + 2*electrode] once for each electrode,
    in increasing order, and [setReleaseThreshold(threshold)] does the same
    from [E0RTH].  When the handle was running the writes are enclosed in
    one stop and one run: a write to ECR of the byte read with its six low
    bits cleared before them and a write of the byte read after them.
    There is no other register write. *)
Theorem threshold_methods_write_each_electrode_once (t : Z) (s : Sys W) :
  error_bits_wf = true ->
  flag_set (error_byte_ (this s)) NOT_INITIALIZED_BIT = false ->
  0 <= ELECTRODE_COUNT <= 256 ->
  (forall e, 0 <= e < ELECTRODE_COUNT ->
     u8 (E0TTH + Z.shiftl e 1) <> ECR /\ u8 (E0RTH + Z.shiftl e 1) <> ECR) ->
  let bracketed (base : Z) (s' : Sys W) :=
    if running_ (this s) then
      exists r,
        rev (register_writes (trace s')) =
          rev (register_writes (trace s))
          ++ [(ECR, u8 (Z.land (u8 r) 0xC0))]
          ++ threshold_writes base t ELECTRODE_COUNT
          ++ [(ECR, u8 r)]
    else
      rev (register_writes (trace s')) =
        rev (register_writes (trace s))
        ++ threshold_writes base t ELECTRODE_COUNT in
  bracketed E0TTH (snd (setTouchThreshold_all t s)) /\
  bracketed E0RTH (snd (setReleaseThreshold_all t s)).
Proof.
  intros Hwf Hi Hec Hregs bracketed. subst bracketed. cbv beta. split.
  - apply (threshold_method setTouchThreshold E0TTH); try assumption.
    + intros e t0 s0 Hi0 He. unfold setTouchThreshold, bind.
      rewrite isInitialized_eq, Hi0.
      replace (ELECTRODE_COUNT <=? e) with false
        by (symmetry; apply Z.leb_gt; lia).
      reflexivity.
    + intros e He. now apply Hregs.
  - apply (threshold_method setReleaseThreshold E0RTH); try assumption.
    + intros e t0 s0 Hi0 He. unfold setReleaseThreshold, bind.
      rewrite isInitialized_eq, Hi0.
      replace (ELECTRODE_COUNT <=? e) with false
        by (symmetry; apply Z.leb_gt; lia).
      reflexivity.
    + intros e He. now apply Hregs.
Qed.

End Thresholds.

(** ** What a full burst read stores *)

Section Bursts.

Context {hd : Header} {order : OperandOrder} {W : Type}
        {wire : TwoWire W} {pins : ArduinoPins W}.

Lemma reads_of_app (a b : list Call) :
  reads_of (a ++ b) = reads_of a ++ reads_of b.
Proof.
  induction a as [|c a IH]; [reflexivity|].
  destruct c; cbn; rewrite IH; reflexivity.
Qed.

(** Polling the interrupt pin takes no byte from the bus and changes only
    the touch-status flag. *)
Lemma note_touchStatusChanged_quiet (s : Sys W) :
  let s' := snd (note_touchStatusChanged s) in
  reads_of (trace s') = reads_of (trace s) /\
  baseline_data_ (this s') = baseline_data_ (this s) /\
  filtered_data_ (this s') = filtered_data_ (this s) /\
  error_byte_ (this s') = error_byte_ (this s).
Proof.
  unfold note_touchStatusChanged, touchStatusChanged, bind, get_this, ret,
    modify, skip, Arduino_digitalRead. cbn.
  destruct (auto_touch_status_flag_ (this s)); cbn; [tauto|].
  bus_step. cbn. destruct (lvl =? 0); cbn; tauto.
Qed.

Lemma baseline_loop_stores (n : nat) :
  forall (k : nat) (s : Sys W),
    (k + n <= length (baseline_data_ (this s)))%nat ->
    let s' :=
      snd (for_from (Z.of_nat k) n (fun electrode =>
             note_touchStatusChanged ;;
             r <- Wire_read ;;
             modify (fun o =>
               set_baseline (<[Z.to_nat electrode := data_cast (Z.shiftl r 2)]>
                               (baseline_data_ o)) o)) s) in
    exists bytes,
      length bytes = n /\
      reads_of (trace s') = rev bytes ++ reads_of (trace s) /\
      baseline_data_ (this s') =
        take k (baseline_data_ (this s))
        ++ map (fun r => data_cast (Z.shiftl r 2)) bytes
        ++ drop (k + n) (baseline_data_ (this s)) /\
      error_byte_ (this s') = error_byte_ (this s).
Proof.
  induction n as [|n IH]; intros k s Hlen; cbv zeta.
  - exists []. cbn. rewrite Nat.add_0_r, take_drop. auto.
  - cbv zeta in IH.
    match goal with |- context [for_from _ _ ?b _] => set (body := b) in * end.
    destruct (for_from (Z.of_nat k) (S n) body s) as [u s'] eqn:E.
    cbn [snd]. cbn [for_from] in E. unfold bind at 1 in E.
    destruct (body (Z.of_nat k) s) as [[] s3] eqn:Eb.
    assert (Hbody : exists r,
              reads_of (trace s3) = r :: reads_of (trace s) /\
              baseline_data_ (this s3) =
                <[k := data_cast (Z.shiftl r 2)]> (baseline_data_ (this s)) /\
              error_byte_ (this s3) = error_byte_ (this s)).
    { unfold body in Eb. unfold bind at 1 2 in Eb.
      destruct (note_touchStatusChanged_quiet s) as (Hr & Hb & _ & He).
      destruct (note_touchStatusChanged s) as [[] s1].
      cbn [snd] in Hr, Hb, He.
      unfold Wire_read, modify in Eb.
      destruct (tw_read (world s1)) as [r w2].
      injection Eb as <-. exists r. cbn. rewrite Nat2Z.id, Hr, Hb, He. auto. }
    destruct Hbody as (r & Hr & Hb & He).
    replace (Z.of_nat k + 1) with (Z.of_nat (S k)) in E by lia.
    assert (Hlen3 : (S k + n <= length (baseline_data_ (this s3)))%nat).
    { rewrite Hb, length_insert. lia. }
    destruct (IH (S k) s3 Hlen3) as (bytes & Hl & Hrd & Harr & Herr).
    rewrite E in Hrd, Harr, Herr. cbn [snd] in Hrd, Harr, Herr.
    exists (r :: bytes). split; [cbn; now rewrite Hl|].
    split; [|split].
    + rewrite Hrd, Hr. cbn [rev]. now rewrite <- app_assoc.
    + rewrite Harr, Hb.
      rewrite (take_S_r _ _ (data_cast (Z.shiftl r 2)))
        by (apply list_lookup_insert_eq; lia).
      rewrite take_insert_ge by lia.
      rewrite drop_insert_lt by lia.
      cbn [map]. rewrite <- app_assoc.
      replace (S k + n)%nat with (k + S n)%nat by lia. reflexivity.
    + now rewrite Herr.
Qed.

(** X13.  When the [requestFrom] of [updateBaselineData] answers the full
    count on an initialized handle whose baseline array has
    [ELECTRODE_COUNT] entries, the method returns [SUCCESS], takes exactly
    that many bytes from the bus, and entry [e] of the array becomes byte
    [e] shifted left by two (converted to the element type), which is what
    [getBaselineData(e)] then returns. *)
Theorem full_baseline_burst_is_stored (s : Sys W) :
  flag_set (error_byte_ (this s)) NOT_INITIALIZED_BIT = false ->
  0 <= ELECTRODE_COUNT ->
  length (baseline_data_ (this s)) = Z.to_nat ELECTRODE_COUNT ->
  last_request_count (trace (snd (updateBaselineData s))) =
    Some ELECTRODE_COUNT ->
  let s' := snd (updateBaselineData s) in
  fst (updateBaselineData s) = SUCCESS /\
  exists bytes,
    length bytes = Z.to_nat ELECTRODE_COUNT /\
    reads_of (trace s') = rev bytes ++ reads_of (trace s) /\
    baseline_data_ (this s') = map (fun r => data_cast (Z.shiftl r 2)) bytes /\
    forall e, 0 <= e < ELECTRODE_COUNT ->
      getBaselineData e s' =
      (default 0 (map (fun r => data_cast (Z.shiftl r 2)) bytes
                    !! Z.to_nat e), s').
Proof.
  intros Hi Hec Hlen Hreq s'. subst s'.
  destruct (updateBaselineData s) as [res s'] eqn:E. cbn [fst snd] in *.
  unfold updateBaselineData in E. unfold bind at 1 in E.
  rewrite isInitialized_eq, Hi in E. cbn [negb] in E.
  unfold bind at 1 2 3 4, get_this, Wire_beginTransmission, Wire_write,
    Wire_endTransmission in E.
  cbn in E. destruct (tw_endTransmission false _) as [st0 w1] in E.
  cbn in E. unfold bind at 1 in E.
  match type of E with context [note_touchStatusChanged ?s0] =>
    destruct (note_touchStatusChanged_quiet s0) as (Hr & Hb & _ & He);
    destruct (note_touchStatusChanged s0) as [[] s1] end.
  cbn [snd this trace reads_of] in Hr, Hb, He.
  unfold bind at 1, Wire_requestFrom in E.
  destruct (tw_requestFrom _ _ (world s1)) as [got w2] in E.
  destruct (Z.eqb_spec got ELECTRODE_COUNT) as [Heq|Hne].
  - unfold bind at 1 in E. unfold for_electrodes in E.
    set (s2 := mkSys _ _ _) in E.
    assert (Hlen2 : (0 + Z.to_nat ELECTRODE_COUNT <=
                     length (baseline_data_ (this s2)))%nat).
    { unfold s2. cbn. rewrite Hb, Hlen. lia. }
    destruct (baseline_loop_stores (Z.to_nat ELECTRODE_COUNT) 0 s2 Hlen2)
      as (bytes & Hl & Hrd & Harr & Herr).
    change (Z.of_nat 0) with 0 in Hrd, Harr, Herr.
    destruct (for_from 0 _ _ s2) as [[] s3]. cbn [snd] in *.
    unfold ret in E. injection E as <- <-.
    split; [reflexivity|]. exists bytes.
    assert (Hfinal : baseline_data_ (this s3) =
                     map (fun r => data_cast (Z.shiftl r 2)) bytes).
    { rewrite Harr. unfold s2. cbn [this]. rewrite Hb, take_0.
      rewrite drop_ge by (rewrite Hlen; lia). now rewrite app_nil_r. }
    split; [exact Hl|]. split; [|split; [exact Hfinal|]].
    + rewrite Hrd. unfold s2. cbn [trace reads_of]. now rewrite Hr.
    + intros e He'. unfold getBaselineData, bind.
      rewrite isInitialized_eq, Herr. unfold s2. cbn [this].
      rewrite He, Hi.
      replace (ELECTRODE_COUNT <=? e) with false
        by (symmetry; apply Z.leb_gt; lia).
      cbn. unfold ret, get_this. now rewrite Hfinal.
  - exfalso. injection E as <- <-. cbn in Hreq. congruence.
Qed.


(** The two bytes of one filtered value, low byte first, as the bus
    delivers them. *)
Lemma filtered_loop_stores (n : nat) :
  forall (k : nat) (s : Sys W),
    (k + n <= length (filtered_data_ (this s)))%nat ->
    let s' :=
      snd (for_from (Z.of_nat k) n (fun electrode =>
             note_touchStatusChanged ;;
             l <- Wire_read ;;
             note_touchStatusChanged ;;
             m <- Wire_read ;;
             let LSB := u8 l in
             let MSB := u8 m in
             modify (fun o =>
               set_filtered (<[Z.to_nat electrode :=
                                 data_cast (Z.lor (Z.shiftl MSB 8) LSB)]>
                               (filtered_data_ o)) o)) s) in
    exists pairs : list (Z * Z),
      length pairs = n /\
      reads_of (trace s') =
        rev (concat (map (fun p => [fst p; snd p]) pairs))
        ++ reads_of (trace s) /\
      filtered_data_ (this s') =
        take k (filtered_data_ (this s))
        ++ map (fun p => data_cast (Z.lor (Z.shiftl (u8 (snd p)) 8)
                                          (u8 (fst p)))) pairs
        ++ drop (k + n) (filtered_data_ (this s)) /\
      error_byte_ (this s') = error_byte_ (this s).
Proof.
  induction n as [|n IH]; intros k s Hlen; cbv zeta.
  - exists []. cbn. rewrite Nat.add_0_r, take_drop. auto.
  - cbv zeta in IH.
    match goal with |- context [for_from _ _ ?b _] => set (body := b) in * end.
    destruct (for_from (Z.of_nat k) (S n) body s) as [u s'] eqn:E.
    cbn [snd]. cbn [for_from] in E. unfold bind at 1 in E.
    destruct (body (Z.of_nat k) s) as [[] s3] eqn:Eb.
    assert (Hbody : exists l m,
              reads_of (trace s3) = m :: l :: reads_of (trace s) /\
              filtered_data_ (this s3) =
                <[k := data_cast (Z.lor (Z.shiftl (u8 m) 8) (u8 l))]>
                  (filtered_data_ (this s)) /\
              error_byte_ (this s3) = error_byte_ (this s)).
    { unfold body in Eb. unfold bind at 1 2 in Eb.
      destruct (note_touchStatusChanged_quiet s) as (Hr & _ & Hf & He).
      destruct (note_touchStatusChanged s) as [[] s1].
      cbn [snd] in Hr, Hf, He.
      unfold Wire_read at 1 in Eb.
      destruct (tw_read (world s1)) as [l w2].
      unfold bind at 1 2 in Eb.
      match type of Eb with context [note_touchStatusChanged ?s0] =>
        destruct (note_touchStatusChanged_quiet s0) as (Hr2 & _ & Hf2 & He2);
        destruct (note_touchStatusChanged s0) as [[] s2] end.
      cbn [snd this trace reads_of] in Hr2, Hf2, He2.
      unfold Wire_read, modify in Eb.
      destruct (tw_read (world s2)) as [m w3]. cbv zeta in Eb.
      injection Eb as <-. exists l, m. cbn.
      rewrite Nat2Z.id, Hr2, Hr, Hf2, Hf, He2, He. auto. }
    destruct Hbody as (l & m & Hr & Hb & He).
    replace (Z.of_nat k + 1) with (Z.of_nat (S k)) in E by lia.
    assert (Hlen3 : (S k + n <= length (filtered_data_ (this s3)))%nat).
    { rewrite Hb, length_insert. lia. }
    destruct (IH (S k) s3 Hlen3) as (pairs & Hl & Hrd & Harr & Herr).
    rewrite E in Hrd, Harr, Herr. cbn [snd] in Hrd, Harr, Herr.
    exists ((l, m) :: pairs). split; [cbn; now rewrite Hl|].
    split; [|split].
    + rewrite Hrd, Hr. cbn [map concat fst snd app rev].
      rewrite <- !app_assoc. reflexivity.
    + rewrite Harr, Hb.
      rewrite (take_S_r _ _ (data_cast (Z.lor (Z.shiftl (u8 m) 8) (u8 l))))
        by (apply list_lookup_insert_eq; lia).
      rewrite take_insert_ge by lia.
      rewrite drop_insert_lt by lia.
      cbn [map fst snd]. rewrite <- app_assoc.
      replace (S k + n)%nat with (k + S n)%nat by lia. reflexivity.
    + now rewrite Herr.
Qed.

(** X14.  When the [requestFrom] of [updateFilteredData] answers 26 bytes
    on an initialized handle whose filtered array has [ELECTRODE_COUNT]
    entries, the method returns [SUCCESS], takes two bytes per electrode
    from the bus, low byte first, and entry [e] of the array becomes
    [(MSB << 8) | LSB] of pair [e]. *)
Theorem full_filtered_burst_is_stored (s : Sys W) :
  flag_set (error_byte_ (this s)) NOT_INITIALIZED_BIT = false ->
  0 <= ELECTRODE_COUNT ->
  length (filtered_data_ (this s)) = Z.to_nat ELECTRODE_COUNT ->
  last_request_count (trace (snd (updateFilteredData s))) = Some 26 ->
  let s' := snd (updateFilteredData s) in
  let value p := data_cast (Z.lor (Z.shiftl (u8 (snd p)) 8) (u8 (fst p))) in
  fst (updateFilteredData s) = SUCCESS /\
  exists pairs : list (Z * Z),
    length pairs = Z.to_nat ELECTRODE_COUNT /\
    reads_of (trace s') =
      rev (concat (map (fun p => [fst p; snd p]) pairs))
      ++ reads_of (trace s) /\
    filtered_data_ (this s') = map value pairs /\
    forall e, 0 <= e < ELECTRODE_COUNT ->
      getFilteredData e s' = (default 0 (map value pairs !! Z.to_nat e), s').
Proof.
  intros Hi Hec Hlen Hreq s' value. subst s' value.
  destruct (updateFilteredData s) as [res s'] eqn:E. cbn [fst snd] in *.
  unfold updateFilteredData in E. unfold bind at 1 in E.
  rewrite isInitialized_eq, Hi in E. cbn [negb] in E.
  unfold bind at 1 2 3 4, get_this, Wire_beginTransmission, Wire_write,
    Wire_endTransmission in E.
  cbn in E. destruct (tw_endTransmission false _) as [st0 w1] in E.
  cbn in E. unfold bind at 1 in E.
  match type of E with context [note_touchStatusChanged ?s0] =>
    destruct (note_touchStatusChanged_quiet s0) as (Hr & _ & Hf & He);
    destruct (note_touchStatusChanged s0) as [[] s1] end.
  cbn [snd this trace reads_of] in Hr, Hf, He.
  unfold bind at 1, Wire_requestFrom in E.
  destruct (tw_requestFrom _ _ (world s1)) as [got w2] in E.
  destruct (Z.eqb_spec got 26) as [Heq|Hne].
  - unfold bind at 1 in E. unfold for_electrodes in E.
    set (s2 := mkSys _ _ _) in E.
    assert (Hlen2 : (0 + Z.to_nat ELECTRODE_COUNT <=
                     length (filtered_data_ (this s2)))%nat).
    { unfold s2. cbn. rewrite Hf, Hlen. lia. }
    destruct (filtered_loop_stores (Z.to_nat ELECTRODE_COUNT) 0 s2 Hlen2)
      as (pairs & Hl & Hrd & Harr & Herr).
    change (Z.of_nat 0) with 0 in Hrd, Harr, Herr.
    destruct (for_from 0 _ _ s2) as [[] s3]. cbn [snd] in *.
    unfold ret in E. injection E as <- <-.
    split; [reflexivity|]. exists pairs.
    assert (Hfinal : filtered_data_ (this s3) =
              map (fun p => data_cast (Z.lor (Z.shiftl (u8 (snd p)) 8)
                                             (u8 (fst p)))) pairs).
    { rewrite Harr. unfold s2. cbn [this]. rewrite Hf, take_0.
      rewrite drop_ge by (rewrite Hlen; lia). now rewrite app_nil_r. }
    split; [exact Hl|]. split; [|split; [exact Hfinal|]].
    + rewrite Hrd. unfold s2. cbn [trace reads_of]. now rewrite Hr.
    + intros e He'. unfold getFilteredData, bind.
      rewrite isInitialized_eq, Herr. unfold s2. cbn [this].
      rewrite He, Hi.
      replace (ELECTRODE_COUNT <=? e) with false
        by (symmetry; apply Z.leb_gt; lia).
      cbn. unfold ret, get_this. now rewrite Hfinal.
  - exfalso. injection E as <- <-. cbn in Hreq. congruence.
Qed.

End Bursts.

(** ** Methods that edit the saved enable register *)

Section EnableRegister.

Context {hd : Header} {W : Type} {wire : TwoWire W}.

Section Edit.

(** [f] is the edit of [ecr_backup_] between the stop and the run. *)
Variable f : Z -> Z.

Lemma ecr_edit_method (s : Sys W) :
  error_bits_wf = true ->
  flag_set (error_byte_ (this s)) NOT_INITIALIZED_BIT = false ->
  let method : M W unit :=
    init <- isInitialized ;;
    if negb init then skip
    else
      o <- get_this ;;
      let was_running := running_ o in
      (if was_running then stop else skip) ;;
      modify (fun o => set_ecr_backup (f (ecr_backup_ o)) o) ;;
      if was_running then run else skip in
  let s' := snd (method s) in
  if running_ (this s) then
    exists r,
      rev (register_writes (trace s')) =
        rev (register_writes (trace s))
        ++ [(ECR, u8 (Z.land (u8 r) 0xC0)); (ECR, f (u8 r))] /\
      reads_of (trace s') = r :: reads_of (trace s) /\
      ecr_backup_ (this s') = f (u8 r) /\
      running_ (this s') = negb (Z.land (f (u8 r)) 0x3F =? 0)
  else
    trace s' = trace s /\ world s' = world s /\
    this s' = set_ecr_backup (f (ecr_backup_ (this s))) (this s).
Proof.
  intros Hwf Hi method s'.
  destruct (running_ (this s)) eqn:Hrun.
  - assert (E : exists r st0 got st1 st2 st3 w' e',
        method s =
        (tt, mkSys
               (set_error_byte e'
                  (set_running (negb (Z.land (f (u8 r)) 0x3F =? 0))
                     (set_ecr_backup (f (u8 r)) (this s))))
               w'
               (write_calls (address_ (this s)) ECR (f (u8 r)) st3
                  ++ write_calls (address_ (this s)) ECR
                       (u8 (Z.land (u8 r) 0xC0)) st2
                  ++ read_calls (address_ (this s)) ECR st0 got st1 r
                  ++ trace s))).
    { unfold method.
      unfold bind at 1; rewrite isInitialized_eq, Hi; cbn [negb];
        unfold bind at 1, get_this; cbv zeta; rewrite Hrun.
      unfold bind at 1.
      destruct (stop_spec s Hwf Hi)
        as (st0 & got & st1 & r & st2 & w1 & e1 & E1 & Hni & _).
      rewrite E1. unfold bind at 1, modify.
      cbn [this world trace ecr_backup_ set_error_byte set_running
           set_ecr_backup].
      match goal with |- context [run ?s2] =>
        assert (Hi2 : flag_set (error_byte_ (this s2)) NOT_INITIALIZED_BIT
                      = false) by exact Hni;
        destruct (run_spec s2 Hi2) as (st3 & w3 & E3) end.
      rewrite E3. cbn.
      exists r, st0, got, st1, st2, st3, w3. eexists. reflexivity. }
    destruct E as (r & st0 & got & st1 & st2 & st3 & w' & e' & E).
    exists r. unfold s'. rewrite E. cbn [snd this trace].
    rewrite register_writes_after_write, register_writes_after_write,
      register_writes_after_read.
    rewrite !reads_of_app. cbn. rewrite <- app_assoc.
    repeat split; reflexivity.
  - assert (E : method s =
        (tt, mkSys (set_ecr_backup (f (ecr_backup_ (this s))) (this s))
                   (world s) (trace s))).
    { unfold method.
      unfold bind at 1; rewrite isInitialized_eq, Hi; cbn [negb];
        unfold bind at 1, get_this; cbv zeta; rewrite Hrun.
      reflexivity. }
    unfold s'. rewrite E. cbn. auto.
Qed.

End Edit.

Lemma proximity_bits_field (mode : ProximityMode) (v : Z) :
  0 <= v < 256 ->
  Z.land (proximity_bits mode v) 0x30 = proximity_code mode /\
  Z.land (proximity_bits mode v) 0xCF = Z.land v 0xCF.
Proof.
  intros Hv.
  pose proof (byte_cases
    (fun v => (Z.land (proximity_bits mode v) 0x30 =? proximity_code mode) &&
              (Z.land (proximity_bits mode v) 0xCF =? Z.land v 0xCF))) as B.
  cbv beta in B.
  assert (Hall : forallb
            (fun v => (Z.land (proximity_bits mode v) 0x30 =? proximity_code mode) &&
                      (Z.land (proximity_bits mode v) 0xCF =? Z.land v 0xCF))
            (map Z.of_nat (seq 0 256)) = true)
    by (destruct mode; vm_compute; reflexivity).
  specialize (B Hall v Hv).
  apply andb_true_iff in B. rewrite !Z.eqb_eq in B. exact B.
Qed.

(** X15.  [setProximityMode] on an initialized handle.  Stopped: no call
    reaches the chip; only the saved ECR changes.  Running: ECR is read,
    written with its six low bits cleared, and written back with the mode
    in place.  In both cases the new byte has the mode's code in bits 5 and
    4 and every other bit as in the byte it was made from. *)
Theorem setProximityMode_edits_ELEPROX (mode : ProximityMode) (s : Sys W) :
  error_bits_wf = true ->
  flag_set (error_byte_ (this s)) NOT_INITIALIZED_BIT = false ->
  let s' := snd (setProximityMode mode s) in
  (if running_ (this s) then
     exists r,
       rev (register_writes (trace s')) =
         rev (register_writes (trace s))
         ++ [(ECR, u8 (Z.land (u8 r) 0xC0));
             (ECR, proximity_bits mode (u8 r))] /\
       reads_of (trace s') = r :: reads_of (trace s) /\
       ecr_backup_ (this s') = proximity_bits mode (u8 r) /\
       running_ (this s') = negb (Z.land (proximity_bits mode (u8 r)) 0x3F =? 0)
   else
     trace s' = trace s /\ world s' = world s /\
     this s' =
       set_ecr_backup (proximity_bits mode (ecr_backup_ (this s))) (this s)) /\
  (forall v, 0 <= v < 256 ->
     Z.land (proximity_bits mode v) 0x30 = proximity_code mode /\
     Z.land (proximity_bits mode v) 0xCF = Z.land v 0xCF).
Proof.
  intros Hwf Hi s'. subst s'. split.
  - exact (ecr_edit_method (proximity_bits mode) s Hwf Hi).
  - intros v Hv. now apply proximity_bits_field.
Qed.

Lemma pin_count_bits_field (pin_count v : Z) :
  0 <= v < 256 ->
  let n := if DIGITAL_PIN_COUNT_MAX <? pin_count then DIGITAL_PIN_COUNT_MAX
           else pin_count in
  Z.land (pin_count_bits pin_count v) 0x0F =
    ((ELECTRODE_COUNT - 1) - n) mod 16 /\
  Z.land (pin_count_bits pin_count v) 0xF0 = Z.land v 0xF0.
Proof.
  intros Hv n. unfold pin_count_bits. fold n.
  set (x := (ELECTRODE_COUNT - 1) - n).
  assert (Ha : Z.land 0x0F x = x mod 16).
  { rewrite Z.land_comm. change 15 with (Z.ones 4).
    rewrite Z.land_ones by lia. reflexivity. }
  rewrite Ha.
  assert (Hr : 0 <= x mod 16 < 16) by (apply Z.mod_pos_bound; lia).
  generalize dependent (x mod 16). intros a _ Ha.
  pose proof (byte_cases
    (fun v => forallb (fun a =>
       (Z.land (u8 (Z.lor a (Z.land v 0xF0))) 0x0F =? a) &&
       (Z.land (u8 (Z.lor a (Z.land v 0xF0))) 0xF0 =? Z.land v 0xF0))
       (map Z.of_nat (seq 0 16)))) as B.
  cbv beta in B. specialize (B ltac:(vm_compute; reflexivity) v Hv).
  rewrite forallb_forall in B.
  specialize (B a). 
  assert (Hin : In a (map Z.of_nat (seq 0 16))).
  { apply in_map_iff. exists (Z.to_nat a). split; [lia|]. apply in_seq. lia. }
  specialize (B Hin). apply andb_true_iff in B. rewrite !Z.eqb_eq in B.
  exact B.
Qed.

(** X16.  [setDigitalPinCount] on an initialized handle.  Stopped: no call
    reaches the chip; only the saved ECR changes.  Running: ECR is read,
    written with its six low bits cleared, and written back edited.  The
    edited byte keeps the high nibble and has
    [ELECTRODE_COUNT - 1 - min(pin_count, DIGITAL_PIN_COUNT_MAX)], modulo
    16, as its low nibble. *)
Theorem setDigitalPinCount_edits_low_nibble (pin_count : Z) (s : Sys W) :
  error_bits_wf = true ->
  flag_set (error_byte_ (this s)) NOT_INITIALIZED_BIT = false ->
  let s' := snd (setDigitalPinCount pin_count s) in
  let n := if DIGITAL_PIN_COUNT_MAX <? pin_count then DIGITAL_PIN_COUNT_MAX
           else pin_count in
  (if running_ (this s) then
     exists r,
       rev (register_writes (trace s')) =
         rev (register_writes (trace s))
         ++ [(ECR, u8 (Z.land (u8 r) 0xC0));
             (ECR, pin_count_bits pin_count (u8 r))] /\
       reads_of (trace s') = r :: reads_of (trace s) /\
       ecr_backup_ (this s') = pin_count_bits pin_count (u8 r) /\
       running_ (this s') =
         negb (Z.land (pin_count_bits pin_count (u8 r)) 0x3F =? 0)
   else
     trace s' = trace s /\ world s' = world s /\
     this s' =
       set_ecr_backup (pin_count_bits pin_count (ecr_backup_ (this s)))
                      (this s)) /\
  (forall v, 0 <= v < 256 ->
     Z.land (pin_count_bits pin_count v) 0x0F =
       ((ELECTRODE_COUNT - 1) - n) mod 16 /\
     Z.land (pin_count_bits pin_count v) 0xF0 = Z.land v 0xF0).
Proof.
  intros Hwf Hi s' n. subst s'. split.
  - exact (ecr_edit_method (pin_count_bits pin_count) s Hwf Hi).
  - intros v Hv. now apply pin_count_bits_field.
Qed.

End EnableRegister.

(** ** The digital pins *)

Section Gpio.

Context {hd : Header} {W : Type} {wire : TwoWire W}.

Lemma setRegister_gpio (reg value : Z) (s : Sys W) :
  gpio_register reg ->
  let s' := snd (setRegister reg value s) in
  register_writes (trace s') = (reg, value) :: register_writes (trace s) /\
  register_reads (trace s') = register_reads (trace s) /\
  scan_untouched s s'.
Proof.
  intros [Hne Hge] s'. subst s'. unfold setRegister.
  rewrite setRegister_body_plain by (auto; now left).
  destruct (write_register_spec reg value s) as (st & w' & E). rewrite E.
  cbn [snd this trace]. rewrite register_writes_after_write.
  unfold scan_untouched. cbn. repeat split.
Qed.

Lemma getRegister_gpio (reg : Z) (s : Sys W) :
  exists r,
    fst (getRegister reg s) = u8 r /\
    let s' := snd (getRegister reg s) in
    register_writes (trace s') = register_writes (trace s) /\
    register_reads (trace s') = (reg, r) :: register_reads (trace s) /\
    scan_untouched s s'.
Proof.
  destruct (getRegister_shape reg s) as (st0 & got & st & r & w' & e' & E).
  exists r. rewrite E. cbv zeta. cbn [fst snd this trace].
  rewrite register_writes_after_read.
  unfold scan_untouched. cbn. repeat split.
Qed.

(** Read a register, write back an edit of the byte. *)
Lemma read_modify_write (reg : Z) (g : Z -> Z) (s : Sys W) :
  gpio_register reg ->
  let s' := snd ((v <- getRegister reg ;; setRegister reg (g v)) s) in
  exists r,
    register_writes (trace s') =
      (reg, g (u8 r)) :: register_writes (trace s) /\
    register_reads (trace s') = (reg, r) :: register_reads (trace s) /\
    scan_untouched s s'.
Proof.
  intros Hreg s'. subst s'. unfold bind.
  destruct (getRegister_gpio reg s) as (r & Hv & Hw & Hr & Hs).
  destruct (getRegister reg s) as [v s1]. cbn [fst snd] in *. subst v.
  destruct (setRegister_gpio reg (g (u8 r)) s1 Hreg) as (Hw2 & Hr2 & Hs2).
  exists r. rewrite Hw2, Hw, Hr2, Hr.
  unfold scan_untouched in *. intuition congruence.
Qed.

(** X17.  On an initialized handle and an electrode from 4 to 11,
    [digitalWrite] is one write of the electrode's bit to SET (value not
    zero) or to CLR (value zero) and [digitalToggle] one write of it to
    TOG, when these are GPIO registers.  Nothing is read, ECR is not
    written, and the running flag and the saved ECR stay as they were: the
    scan is not stopped. *)
Theorem digital_output_is_one_write (e v : Z) (s : Sys W) :
  flag_set (error_byte_ (this s)) NOT_INITIALIZED_BIT = false ->
  4 <= e <= 11 ->
  gpio_register SET -> gpio_register CLR -> gpio_register TOG ->
  (let s' := snd (digitalWrite e v s) in
   register_writes (trace s') =
     ((if v =? 0 then CLR else SET), one_hot e) :: register_writes (trace s) /\
   register_reads (trace s') = register_reads (trace s) /\
   scan_untouched s s') /\
  (let s' := snd (digitalToggle e s) in
   register_writes (trace s') =
     (TOG, one_hot e) :: register_writes (trace s) /\
   register_reads (trace s') = register_reads (trace s) /\
   scan_untouched s s') /\
  one_hot e = 2 ^ (e - 4).
Proof.
  intros Hi He Hset Hclr Htog.
  assert (Hg : (e <? 4) || (11 <? e) = false).
  { apply orb_false_iff. rewrite !Z.ltb_ge. lia. }
  split; [|split].
  - cbv zeta. unfold digitalWrite, bind. rewrite isInitialized_eq, Hi, Hg.
    cbn [negb orb]. destruct (v =? 0); cbn [negb];
      now apply setRegister_gpio.
  - cbv zeta. unfold digitalToggle, bind. rewrite isInitialized_eq, Hi, Hg.
    cbn [negb orb]. now apply setRegister_gpio.
  - unfold one_hot, u8. rewrite Z.shiftl_1_l.
    apply Z.mod_small. split; [apply Z.pow_nonneg; lia|].
    change 256 with (2 ^ 8). apply Z.pow_lt_mono_r; lia.
Qed.

Lemma scan_untouched_trans (s1 s2 s3 : Sys W) :
  scan_untouched s1 s2 -> scan_untouched s2 s3 -> scan_untouched s1 s3.
Proof. unfold scan_untouched. intuition congruence. Qed.

Lemma edit_bit_spec (b : bool) (reg bitmask : Z) (s : Sys W) :
  gpio_register reg ->
  let s' := snd (edit_bit b reg bitmask s) in
  exists r,
    register_writes (trace s') =
      (reg, with_bit b bitmask (u8 r)) :: register_writes (trace s) /\
    register_reads (trace s') = (reg, r) :: register_reads (trace s) /\
    scan_untouched s s'.
Proof.
  intros Hreg. unfold edit_bit, with_bit, or_register, andnot_register.
  destruct b.
  - exact (read_modify_write reg (fun v => u8 (Z.lor v bitmask)) s Hreg).
  - exact (read_modify_write reg
             (fun v => u8 (Z.land v (Z.lnot bitmask))) s Hreg).
Qed.

Lemma four_edits (b1 b2 b3 b4 : bool) (bitmask : Z) (s : Sys W) :
  gpio_register EN -> gpio_register DIR ->
  gpio_register CTL0 -> gpio_register CTL1 ->
  let s' := snd ((edit_bit b1 EN bitmask ;; edit_bit b2 DIR bitmask ;;
                  edit_bit b3 CTL0 bitmask ;; edit_bit b4 CTL1 bitmask) s) in
  exists r1 r2 r3 r4,
    register_reads (trace s') =
      (CTL1, r4) :: (CTL0, r3) :: (DIR, r2) :: (EN, r1)
        :: register_reads (trace s) /\
    register_writes (trace s') =
      (CTL1, with_bit b4 bitmask (u8 r4))
        :: (CTL0, with_bit b3 bitmask (u8 r3))
        :: (DIR, with_bit b2 bitmask (u8 r2))
        :: (EN, with_bit b1 bitmask (u8 r1))
        :: register_writes (trace s) /\
    scan_untouched s s'.
Proof.
  intros H1 H2 H3 H4 s'. subst s'. unfold bind.
  destruct (edit_bit_spec b1 EN bitmask s H1) as (r1 & W1 & R1 & S1).
  destruct (edit_bit b1 EN bitmask s) as [[] s1]. cbn [snd] in *.
  destruct (edit_bit_spec b2 DIR bitmask s1 H2) as (r2 & W2 & R2 & S2).
  destruct (edit_bit b2 DIR bitmask s1) as [[] s2]. cbn [snd] in *.
  destruct (edit_bit_spec b3 CTL0 bitmask s2 H3) as (r3 & W3 & R3 & S3).
  destruct (edit_bit b3 CTL0 bitmask s2) as [[] s3]. cbn [snd] in *.
  destruct (edit_bit_spec b4 CTL1 bitmask s3 H4) as (r4 & W4 & R4 & S4).
  exists r1, r2, r3, r4.
  rewrite R4, R3, R2, R1, W4, W3, W2, W1. repeat split; try reflexivity;
    unfold scan_untouched in *; intuition congruence.
Qed.

Lemma one_hot_eq (e : Z) : 4 <= e <= 11 -> one_hot e = 2 ^ (e - 4).
Proof.
  intros He. unfold one_hot, u8. rewrite Z.shiftl_1_l.
  apply Z.mod_small. split; [apply Z.pow_nonneg; lia|].
  change 256 with (2 ^ 8). apply Z.pow_lt_mono_r; lia.
Qed.

(** Editing with the electrode's mask changes the electrode's bit and no
    other. *)
Lemma with_bit_one_hot (b : bool) (e x i : Z) :
  4 <= e <= 11 -> 0 <= i < 8 ->
  Z.testbit (with_bit b (one_hot e) x) i =
    if i =? e - 4 then b else Z.testbit x i.
Proof.
  intros He Hi. rewrite one_hot_eq by lia. unfold with_bit.
  destruct b; rewrite testbit_u8 by lia.
  - rewrite Z.lor_spec, Z.pow2_bits_eqb by lia.
    destruct (Z.ltb_spec i 8); [|lia]. rewrite andb_true_r.
    rewrite (Z.eqb_sym (e - 4) i).
    destruct (i =? e - 4); [apply orb_true_r | apply orb_false_r].
  - rewrite Z.land_spec, Z.lnot_spec, Z.pow2_bits_eqb by lia.
    destruct (Z.ltb_spec i 8); [|lia]. rewrite andb_true_r.
    rewrite (Z.eqb_sym (e - 4) i).
    destruct (i =? e - 4); [apply andb_false_r | apply andb_true_r].
Qed.

(** X18.  [pinMode(electrode, PinMode)] on an initialized handle and an
    electrode from 4 to 11 reads and writes back EN, DIR, CTL0 and CTL1, in
    this order, when these are GPIO registers.  Each byte written is the
    byte read with the electrode's bit set or cleared as the mode's comment
    says and every other bit kept.  ECR is not written and the running flag
    and the saved ECR stay as they were. *)
Theorem pinMode_edits_one_bit_of_four_registers
    (e : Z) (mode : PinMode) (s : Sys W) :
  flag_set (error_byte_ (this s)) NOT_INITIALIZED_BIT = false ->
  4 <= e <= 11 ->
  gpio_register EN -> gpio_register DIR ->
  gpio_register CTL0 -> gpio_register CTL1 ->
  let s' := snd (pinMode e mode s) in
  let '(en, dir, ctl0, ctl1) := pin_mode_bits mode in
  (exists r1 r2 r3 r4,
     register_reads (trace s') =
       (CTL1, r4) :: (CTL0, r3) :: (DIR, r2) :: (EN, r1)
         :: register_reads (trace s) /\
     register_writes (trace s') =
       (CTL1, with_bit ctl1 (one_hot e) (u8 r4))
         :: (CTL0, with_bit ctl0 (one_hot e) (u8 r3))
         :: (DIR, with_bit dir (one_hot e) (u8 r2))
         :: (EN, with_bit en (one_hot e) (u8 r1))
         :: register_writes (trace s)) /\
  scan_untouched s s' /\
  (forall b x i, 0 <= i < 8 ->
     Z.testbit (with_bit b (one_hot e) x) i =
       if i =? e - 4 then b else Z.testbit x i).
Proof.
  intros Hi He H1 H2 H3 H4.
  assert (Hg : (e <? 4) || (11 <? e) = false).
  { apply orb_false_iff. rewrite !Z.ltb_ge. lia. }
  assert (E : forall b1 b2 b3 b4,
    pin_mode_bits mode = (b1, b2, b3, b4) ->
    pinMode e mode s =
      (edit_bit b1 EN (one_hot e) ;; edit_bit b2 DIR (one_hot e) ;;
       edit_bit b3 CTL0 (one_hot e) ;; edit_bit b4 CTL1 (one_hot e)) s).
  { intros b1 b2 b3 b4 Hm. unfold pinMode. unfold bind at 1.
    rewrite isInitialized_eq, Hi, Hg. cbn [negb orb fst snd].
    destruct mode; injection Hm as <- <- <- <-; reflexivity. }
  destruct (pin_mode_bits mode) as [[[en dir] ctl0] ctl1] eqn:Hm.
  cbv zeta. rewrite (E _ _ _ _ eq_refl).
  destruct (four_edits en dir ctl0 ctl1 (one_hot e) s H1 H2 H3 H4)
    as (r1 & r2 & r3 & r4 & HR & HW & HS).
  split; [exists r1, r2, r3, r4; split; assumption|].
  split; [assumption|].
  intros b x i Hb. now apply with_bit_one_hot.
Qed.

(** X19.  [digitalRead] on an initialized handle and an electrode from 4 to
    11 reads DAT once and returns the electrode's bit of the byte read; it
    writes no register. *)
Theorem digitalRead_returns_DAT_bit (e : Z) (s : Sys W) :
  flag_set (error_byte_ (this s)) NOT_INITIALIZED_BIT = false ->
  4 <= e <= 11 ->
  let s' := snd (digitalRead e s) in
  exists r,
    register_reads (trace s') = (DAT, r) :: register_reads (trace s) /\
    fst (digitalRead e s) = Z.testbit r (e - 4) /\
    register_writes (trace s') = register_writes (trace s) /\
    scan_untouched s s'.
Proof.
  intros Hi He.
  assert (Hg : (e <? 4) || (11 <? e) = false).
  { apply orb_false_iff. rewrite !Z.ltb_ge. lia. }
  assert (E : digitalRead e s =
    (d <- getRegister DAT ;; ret (Z.land (Z.shiftr d (e - 4)) 1 =? 1)) s).
  { unfold digitalRead. unfold bind at 1.
    rewrite isInitialized_eq, Hi, Hg. reflexivity. }
  cbv zeta. rewrite E. unfold bind, ret.
  destruct (getRegister_gpio DAT s) as (r & Hv & Hw & Hr & Hs).
  destruct (getRegister DAT s) as [v s1]. cbn [fst snd] in *. subst v.
  exists r. split; [assumption|]. split; [|split; assumption].
  assert (Hb : Z.testbit r (e - 4) = Z.testbit (u8 r) (e - 4)).
  { rewrite testbit_u8 by lia.
    destruct (Z.ltb_spec (e - 4) 8); [now rewrite andb_true_r | lia]. }
  rewrite Hb, Z.testbit_odd.
  set (y := Z.shiftr (u8 r) (e - 4)).
  assert (Hy : Z.land y 1 = y mod 2) by (apply (Z.land_ones y 1); lia).
  pose proof (Z.bit0_mod y) as Hm. rewrite Z.bit0_odd in Hm.
  rewrite Hy, <- Hm. destruct (Z.odd y); reflexivity.
Qed.

Lemma pwm_byte_nibbles (e sv x : Z) :
  0 <= sv < 16 -> 0 <= x < 256 ->
  if Z.even (e - 4)
  then Z.land (pwm_byte e sv x) 0x0F = sv /\
       Z.land (pwm_byte e sv x) 0xF0 = Z.land x 0xF0
  else Z.shiftr (pwm_byte e sv x) 4 = sv /\
       Z.land (pwm_byte e sv x) 0x0F = Z.land x 0x0F.
Proof.
  intros Hsv Hx. unfold pwm_byte.
  pose proof (byte_cases
    (fun x => forallb (fun sv =>
       (Z.land (u8 (Z.lor (Z.land sv 0x0F) (Z.land x 0xF0))) 0x0F =? sv) &&
       (Z.land (u8 (Z.lor (Z.land sv 0x0F) (Z.land x 0xF0))) 0xF0
          =? Z.land x 0xF0) &&
       (Z.shiftr (u8 (Z.lor (Z.shiftl (Z.land sv 0x0F) 4) (Z.land x 0x0F))) 4
          =? sv) &&
       (Z.land (u8 (Z.lor (Z.shiftl (Z.land sv 0x0F) 4) (Z.land x 0x0F))) 0x0F
          =? Z.land x 0x0F))
       (map Z.of_nat (seq 0 16)))) as B.
  cbv beta in B. specialize (B ltac:(vm_compute; reflexivity) x Hx).
  rewrite forallb_forall in B. specialize (B sv).
  assert (Hin : In sv (map Z.of_nat (seq 0 16))).
  { apply in_map_iff. exists (Z.to_nat sv). split; [lia|]. apply in_seq. lia. }
  specialize (B Hin). rewrite !andb_true_iff, !Z.eqb_eq in B.
  destruct B as (((B1 & B2) & B3) & B4).
  destruct (Z.even (e - 4)); split; assumption.
Qed.

(** X20.  [analogWrite] on an initialized handle and an electrode from 4 to
    11 writes the electrode's bit to SET (value of 16 or more) or to CLR
    (value below 16), then reads the electrode's PWM register and writes it
    back with the electrode's nibble replaced by the top four bits of the
    value and the other nibble kept.  ECR is not written and the running
    flag and the saved ECR stay as they were. *)
Theorem analogWrite_edits_one_nibble (e value : Z) (s : Sys W) :
  flag_set (error_byte_ (this s)) NOT_INITIALIZED_BIT = false ->
  4 <= e <= 11 -> 0 <= value < 256 ->
  gpio_register SET -> gpio_register CLR ->
  gpio_register PWM0 -> gpio_register PWM1 ->
  gpio_register PWM2 -> gpio_register PWM3 ->
  let s' := snd (analogWrite e value s) in
  exists r,
    register_reads (trace s') =
      (pwm_register e, r) :: register_reads (trace s) /\
    register_writes (trace s') =
      (pwm_register e, pwm_byte e (Z.shiftr value 4) (u8 r))
        :: ((if value <? 16 then CLR else SET), one_hot e)
        :: register_writes (trace s) /\
    scan_untouched s s' /\
    (let b := pwm_byte e (Z.shiftr value 4) (u8 r) in
     if Z.even (e - 4)
     then Z.land b 0x0F = Z.shiftr value 4 /\
          Z.land b 0xF0 = Z.land (u8 r) 0xF0
     else Z.shiftr b 4 = Z.shiftr value 4 /\
          Z.land b 0x0F = Z.land (u8 r) 0x0F).
Proof.
  intros Hi He Hv Hset Hclr H0 H1 H2 H3.
  assert (Hg : (e <? 4) || (11 <? e) = false).
  { apply orb_false_iff. rewrite !Z.ltb_ge. lia. }
  assert (Hsv : 0 <= Z.shiftr value 4 < 16).
  { rewrite Z.shiftr_div_pow2 by lia. change (2 ^ 4) with 16.
    split; [apply Z.div_pos; lia|]. apply Z.div_lt_upper_bound; lia. }
  assert (Hlt : (0 <? Z.shiftr value 4) = negb (value <? 16)).
  { rewrite Z.shiftr_div_pow2 by lia. change (2 ^ 4) with 16.
    destruct (Z.ltb_spec value 16) as [Hl|Hl]; cbn [negb].
    - rewrite Z.div_small by lia. reflexivity.
    - apply Z.ltb_lt. apply Z.div_str_pos. lia. }
  set (first := if value <? 16 then CLR else SET).
  assert (Hfirst : gpio_register first) by (unfold first; now destruct (value <? 16)).
  assert (E : forall (tail : M W unit),
    (init <- isInitialized ;;
     if (e <? 4) || (11 <? e) || negb init then skip
     else
       (if 0 <? Z.shiftr value 4 then setRegister SET (u8 (Z.shiftl 1 (e - 4)))
        else setRegister CLR (u8 (Z.shiftl 1 (e - 4)))) ;; tail) s =
    (setRegister first (one_hot e) ;; tail) s).
  { intros tail. unfold bind at 1.
    rewrite isInitialized_eq, Hi, Hg. cbn [negb orb fst snd].
    rewrite Hlt. unfold first. destruct (value <? 16); reflexivity. }
  cbv zeta.
  assert (Hcases : e = 4 \/ e = 5 \/ e = 6 \/ e = 7 \/
                   e = 8 \/ e = 9 \/ e = 10 \/ e = 11) by lia.
  pose proof (fun x => pwm_byte_nibbles e (Z.shiftr value 4) x) as Hnib.
  assert (Hrun : forall reg (g : Z -> Z),
    gpio_register reg ->
    let s' := snd ((setRegister first (one_hot e) ;;
                    (v <- getRegister reg ;; setRegister reg (g v))) s) in
    exists r,
      register_reads (trace s') = (reg, r) :: register_reads (trace s) /\
      register_writes (trace s') =
        (reg, g (u8 r)) :: (first, one_hot e) :: register_writes (trace s) /\
      scan_untouched s s').
  { intros reg g Hreg. cbv zeta.
    pose proof (fun s1 => read_modify_write reg g s1 Hreg) as RMW.
    cbv zeta in RMW.
    set (m2 := bind (getRegister reg) (fun v => setRegister reg (g v))) in *.
    unfold bind.
    destruct (setRegister_gpio first (one_hot e) s Hfirst) as (W1 & R1 & S1).
    destruct (setRegister first (one_hot e) s) as [[] s1]. cbn [snd] in *.
    destruct (RMW s1) as (r & W2 & R2 & S2).
    exists r. rewrite R2, R1, W2, W1. repeat split; try reflexivity;
      unfold scan_untouched in *; intuition congruence. }
  assert (Hreg : gpio_register (pwm_register e)).
  { destruct Hcases as [->|[->|[->|[->|[->|[->|[->| ->]]]]]]]; assumption. }
  assert (Htail :
    match e - 4 with
    | 0 => pwm_low PWM0 (Z.shiftr value 4)
    | 1 => pwm_high PWM0 (Z.shiftr value 4)
    | 2 => pwm_low PWM1 (Z.shiftr value 4)
    | 3 => pwm_high PWM1 (Z.shiftr value 4)
    | 4 => pwm_low PWM2 (Z.shiftr value 4)
    | 5 => pwm_high PWM2 (Z.shiftr value 4)
    | 6 => pwm_low PWM3 (Z.shiftr value 4)
    | 7 => pwm_high PWM3 (Z.shiftr value 4)
    | _ => skip
    end =
    (scratch <- getRegister (pwm_register e) ;;
     setRegister (pwm_register e)
       (pwm_byte e (Z.shiftr value 4) scratch) : M W unit)).
  { destruct Hcases as [->|[->|[->|[->|[->|[->|[->| ->]]]]]]]; reflexivity. }
  unfold analogWrite. cbv zeta. rewrite E, Htail.
  destruct (Hrun (pwm_register e) (pwm_byte e (Z.shiftr value 4)) Hreg)
    as (r & HR & HW & HS).
  exists r. split; [exact HR|]. split; [exact HW|]. split; [exact HS|].
  exact (Hnib (u8 r) Hsv (u8_range r)).
Qed.

End Gpio.

(** ** Before the handle is set up *)

Section Guards.

Context {hd : Header} {sh : SettingsHeader} {order : OperandOrder}
        {W : Type} {wire : TwoWire W} {pins : ArduinoPins W}
        {setup : TwoWireSetup W}.

Lemma void_returns {A} (m : M W A) (x : A) (s : Sys W) :
  m s = (x, s) -> void m s = (tt, s).
Proof. intros E. unfold void, bind. now rewrite E. Qed.

Lemma exec_guarded (op : Op) (s : Sys W) :
  flag_set (error_byte_ (this s)) NOT_INITIALIZED_BIT = true ->
  guarded op = true -> exec op s = (tt, s).
Proof.
  intros Hi Hg.
  destruct (guarded_methods_return_early s Hi)
    as (G1 & G2 & G3 & G4 & G5 & G6 & G7 & G8 & G9 & G10 & G11 & G12 & G13
        & G14 & G15).
  destruct (guarded_mutators_return_early s Hi)
    as (M1 & M2 & M3 & M4 & M5 & M6 & M7 & M8 & M9 & M10 & M11 & M12).
  destruct op; try discriminate Hg; cbn [exec];
    try (eapply void_returns; eauto; fail); auto.
  unfold updateAll, bind. rewrite G1, G2, G3. reflexivity.
Qed.

(** X21.  On a handle whose not-initialized flag is set, a program made of
    the methods that test [isInitialized()] first does nothing at all: the
    handle, the bus and the pins are after the last call as they were before
    the first, and no call was made on the bus or the pins. *)
Theorem guarded_calls_do_nothing_before_set_up (ops : list Op) (s : Sys W) :
  flag_set (error_byte_ (this s)) NOT_INITIALIZED_BIT = true ->
  forallb guarded ops = true ->
  exec_all ops s = (tt, s).
Proof.
  intros Hi. induction ops as [|op ops IH]; intros Hg; [reflexivity|].
  cbn [forallb] in Hg. apply andb_true_iff in Hg as [Hop Hops].
  cbn [exec_all]. unfold bind. rewrite (exec_guarded op s Hi Hop).
  exact (IH Hops).
Qed.

(** X22.  On an initialized, stopped handle and an electrode below
    [ELECTRODE_COUNT], [getTouchThreshold] and [getReleaseThreshold] read
    the register [setTouchThreshold] and [setReleaseThreshold] write for
    this electrode, return the byte read and write nothing; the setters
    write the threshold to it and read nothing. *)
Theorem threshold_getter_reads_what_setter_writes (e t : Z) (s : Sys W) :
  flag_set (error_byte_ (this s)) NOT_INITIALIZED_BIT = false ->
  running_ (this s) = false ->
  e < ELECTRODE_COUNT ->
  u8 (E0TTH + Z.shiftl e 1) <> ECR -> u8 (E0RTH + Z.shiftl e 1) <> ECR ->
  (register_writes (trace (snd (setTouchThreshold e t s))) =
     (u8 (E0TTH + Z.shiftl e 1), t) :: register_writes (trace s) /\
   register_reads (trace (snd (setTouchThreshold e t s))) =
     register_reads (trace s)) /\
  (register_writes (trace (snd (setReleaseThreshold e t s))) =
     (u8 (E0RTH + Z.shiftl e 1), t) :: register_writes (trace s) /\
   register_reads (trace (snd (setReleaseThreshold e t s))) =
     register_reads (trace s)) /\
  (exists r,
     fst (getTouchThreshold e s) = u8 r /\
     register_reads (trace (snd (getTouchThreshold e s))) =
       (u8 (E0TTH + Z.shiftl e 1), r) :: register_reads (trace s) /\
     register_writes (trace (snd (getTouchThreshold e s))) =
       register_writes (trace s)) /\
  (exists r,
     fst (getReleaseThreshold e s) = u8 r /\
     register_reads (trace (snd (getReleaseThreshold e s))) =
       (u8 (E0RTH + Z.shiftl e 1), r) :: register_reads (trace s) /\
     register_writes (trace (snd (getReleaseThreshold e s))) =
       register_writes (trace s)).
Proof.
  intros Hi Hr He Ht Hrl.
  assert (Hg : (ELECTRODE_COUNT <=? e) = false) by (apply Z.leb_gt; lia).
  assert (E1 : setTouchThreshold e t s =
               setRegister (u8 (E0TTH + Z.shiftl e 1)) t s).
  { unfold setTouchThreshold, bind. now rewrite isInitialized_eq, Hi, Hg. }
  assert (E2 : setReleaseThreshold e t s =
               setRegister (u8 (E0RTH + Z.shiftl e 1)) t s).
  { unfold setReleaseThreshold, bind. now rewrite isInitialized_eq, Hi, Hg. }
  assert (E3 : getTouchThreshold e s =
               getRegister (u8 (E0TTH + Z.shiftl e 1)) s).
  { unfold getTouchThreshold, bind. now rewrite isInitialized_eq, Hi, Hg. }
  assert (E4 : getReleaseThreshold e s =
               getRegister (u8 (E0RTH + Z.shiftl e 1)) s).
  { unfold getReleaseThreshold, bind. now rewrite isInitialized_eq, Hi, Hg. }
  rewrite E1, E2, E3, E4.
  assert (Hset : forall reg, reg <> ECR ->
    register_writes (trace (snd (setRegister reg t s))) =
      (reg, t) :: register_writes (trace s) /\
    register_reads (trace (snd (setRegister reg t s))) =
      register_reads (trace s)).
  { intros reg Hne. unfold setRegister.
    rewrite setRegister_body_plain by (auto; now right).
    destruct (write_register_spec reg t s) as (st & w' & E). rewrite E.
    cbn [snd this trace]. rewrite register_writes_after_write.
    split; reflexivity. }
  assert (Hget : forall reg, exists r,
    fst (getRegister reg s) = u8 r /\
    register_reads (trace (snd (getRegister reg s))) =
      (reg, r) :: register_reads (trace s) /\
    register_writes (trace (snd (getRegister reg s))) =
      register_writes (trace s)).
  { intros reg. destruct (getRegister_gpio reg s) as (r & Hv & Hw & Hrd & _).
    exists r. auto. }
  split; [exact (Hset _ Ht)|]. split; [exact (Hset _ Hrl)|].
  split; [exact (Hget _)|exact (Hget _)].
Qed.

End Guards.
(** ** Past the initialization guard *)

Ltac appends_step :=
  first
    [ simple apply adds_only_ret | simple apply adds_only_modify
    | simple apply adds_only_get_this | simple apply adds_only_set_flag_if
    | simple apply setRegister_adds | simple apply run_adds
    | simple apply stop_adds
    | simple apply getRegister_adds; reflexivity
    | simple apply adds_only_digitalRead; intros; reflexivity
    | simple apply adds_only_beginTransmission; reflexivity
    | simple apply adds_only_write; reflexivity
    | simple apply adds_only_endTransmission; intros; reflexivity
    | simple apply adds_only_requestFrom; intros; reflexivity
    | simple apply adds_only_read; intros; reflexivity
    | simple apply adds_only_for_from; intros
    | simple apply adds_only_bind; [|intros]
    | match goal with
      | H : context [adds_only] |- adds_only _ _ => simple apply H
      | |- adds_only _ (if ?c then _ else _) => destruct c
      | |- adds_only _ (match ?x with _ => _ end) => destruct x
      end ].

Ltac appends := unfold skip, void, for_electrodes; repeat appends_step.

Section PastTheGuard.

Context {hd : Header} {sh : SettingsHeader} {order : OperandOrder}
        {W : Type} {wire : TwoWire W} {pins : ArduinoPins W}
        {setup : TwoWireSetup W}.

Lemma adds_only_pinMode (P : Call -> bool) (pin mode : Z) :
  P (SetPinMode pin mode) = true -> adds_only P (Arduino_pinMode pin mode).
Proof. intros H s. exists [SetPinMode pin mode]. cbn. now rewrite H. Qed.

(** *** What the bodies append to the trace *)

Lemma updateBaselineData_adds : adds_only any_call updateBaselineData.
Proof.
  pose proof (adds_only_weaken _ note_touchStatusChanged_adds).
  unfold updateBaselineData, isInitialized. appends.
Qed.

Lemma updateFilteredData_adds : adds_only any_call updateFilteredData.
Proof.
  pose proof (adds_only_weaken _ note_touchStatusChanged_adds).
  unfold updateFilteredData, isInitialized. appends.
Qed.

Lemma setTouchThreshold_adds (e t : Z) :
  adds_only any_call (setTouchThreshold e t).
Proof. unfold setTouchThreshold, isInitialized. appends. Qed.

Lemma setReleaseThreshold_adds (e t : Z) :
  adds_only any_call (setReleaseThreshold e t).
Proof. unfold setReleaseThreshold, isInitialized. appends. Qed.

Lemma or_register_adds (r m : Z) : adds_only any_call (or_register r m).
Proof. unfold or_register. appends. Qed.

Lemma andnot_register_adds (r m : Z) :
  adds_only any_call (andnot_register r m).
Proof. unfold andnot_register. appends. Qed.

Lemma pwm_low_adds (r v : Z) : adds_only any_call (pwm_low r v).
Proof. unfold pwm_low. appends. Qed.

Lemma pwm_high_adds (r v : Z) : adds_only any_call (pwm_high r v).
Proof. unfold pwm_high. appends. Qed.

(** The queries answer from the handle, from every state. *)
Lemma touched_off_bus (e : Z) :
  adds_only is_pin_call (touched e : M W bool).
Proof. unfold touched, isInitialized. appends. Qed.

Lemma getPreviousTouchData_off_bus (e : Z) :
  adds_only is_pin_call (getPreviousTouchData e : M W bool).
Proof. unfold getPreviousTouchData, isInitialized. appends. Qed.

Lemma count_touched_off_bus (n : nat) :
  forall start acc,
    adds_only is_pin_call (count_touched start n acc : M W Z).
Proof.
  pose proof touched_off_bus.
  induction n as [|n IH]; intros start acc; cbn [count_touched]; appends.
Qed.

Lemma queries_off_bus (e : Z) :
  adds_only is_pin_call (getTouchCount : M W Z) /\
  adds_only is_pin_call (getBaselineData e : M W Z) /\
  adds_only is_pin_call (getFilteredData e : M W Z) /\
  adds_only is_pin_call (isNewTouch e : M W bool) /\
  adds_only is_pin_call (isNewRelease e : M W bool) /\
  adds_only is_pin_call (setInterruptPin e : M W unit).
Proof.
  pose proof touched_off_bus. pose proof getPreviousTouchData_off_bus.
  pose proof count_touched_off_bus.
  repeat split.
  - unfold getTouchCount, isInitialized. appends.
  - unfold getBaselineData, isInitialized. appends.
  - unfold getFilteredData, isInitialized. appends.
  - unfold isNewTouch, isInitialized. appends.
  - unfold isNewRelease, isInitialized. appends.
  - unfold setInterruptPin, isInitialized. appends.
    apply adds_only_pinMode. reflexivity.
Qed.

(** *** One call past the guard *)

Lemma issues_void {A} (m : M W A) (s : Sys W) :
  issues_transaction m s -> issues_transaction (void m) s.
Proof.
  intros H. unfold void. apply issues_bind; [exact H|].
  intros a. apply adds_only_ret.
Qed.

Lemma off_bus_void {A} (m : M W A) (s : Sys W) :
  stays_off_bus m s -> stays_off_bus (void m) s.
Proof.
  intros (new & E & F). exists new. unfold void, bind, skip, ret.
  destruct (m s) as [a s1]. cbn [snd] in *. auto.
Qed.

Lemma off_bus_same {A} (m : M W A) (s : Sys W) :
  trace (snd (m s)) = trace s -> stays_off_bus m s.
Proof. intros E. exists []. split; [exact E | reflexivity]. Qed.

Lemma issues_ext {A} (m1 m2 : M W A) (s : Sys W) :
  m1 s = m2 s -> issues_transaction m2 s -> issues_transaction m1 s.
Proof. intros E. unfold issues_transaction. now rewrite E. Qed.

Lemma issues_past_isInitialized {A} (k : bool -> M W A) (s : Sys W) :
  issues_transaction
    (k (negb (flag_set (error_byte_ (this s)) NOT_INITIALIZED_BIT))) s ->
  issues_transaction (init <- isInitialized ;; k init) s.
Proof.
  unfold issues_transaction, bind. now rewrite isInitialized_eq.
Qed.

(** A sequence that starts by setting a bit of EN. *)
Lemma issues_after_or_register
    (r m : Z) (k : unit -> M W unit) (s : Sys W) :
  (forall a, adds_only any_call (k a)) ->
  issues_transaction (x <- or_register r m ;; k x) s.
Proof.
  intros Hk. apply issues_bind; [|exact Hk].
  unfold or_register. apply issues_after_getRegister.
  intros v. apply setRegister_adds.
Qed.

(** The two threshold loops: [set] is [setTouchThreshold] or
    [setReleaseThreshold]. *)
Lemma threshold_loop_past_the_guard
    (set : Z -> Z -> M W unit) (t : Z) (s : Sys W) :
  (forall e t, adds_only any_call (set e t)) ->
  (forall e t s,
     flag_set (error_byte_ (this s)) NOT_INITIALIZED_BIT = false ->
     e < ELECTRODE_COUNT -> issues_transaction (set e t) s) ->
  flag_set (error_byte_ (this s)) NOT_INITIALIZED_BIT = false ->
  let method : M W unit :=
    init <- isInitialized ;;
    if negb init then skip
    else
      o <- get_this ;;
      let was_running := running_ o in
      (if was_running then stop else skip) ;;
      for_electrodes ELECTRODE_COUNT (fun electrode =>
        set (u8 electrode) t) ;;
      if was_running then run else skip in
  if running_ (this s) || (0 <? ELECTRODE_COUNT)
  then issues_transaction method s
  else stays_off_bus method s.
Proof.
  intros Hadds Hissues Hi method.
  destruct (running_ (this s)) eqn:Hrun; cbn [orb].
  - apply (issues_ext _
      (stop ;;
       for_electrodes ELECTRODE_COUNT (fun electrode => set (u8 electrode) t) ;;
       run)).
    { unfold method. unfold bind at 1. rewrite isInitialized_eq, Hi.
      cbn [negb]. unfold bind at 1, get_this. now rewrite Hrun. }
    apply issues_bind; [now apply initialized_methods_reach_bus|].
    intros _. appends.
  - assert (E : method s =
      (for_electrodes ELECTRODE_COUNT (fun electrode => set (u8 electrode) t) ;;
       skip) s).
    { unfold method. unfold bind at 1. rewrite isInitialized_eq, Hi.
      cbn [negb]. unfold bind at 1, get_this. now rewrite Hrun. }
    destruct (Z.ltb_spec 0 ELECTRODE_COUNT) as [Hpos|Hzero].
    + apply (issues_ext _ _ _ E). unfold for_electrodes.
      destruct (Z.to_nat ELECTRODE_COUNT) as [|k] eqn:Hn; [lia|].
      cbn [for_from].
      apply issues_bind; [|intros _; apply adds_only_ret].
      apply issues_bind; [apply Hissues; [exact Hi | change (u8 0) with 0; lia]|].
      intros _. apply adds_only_for_from. intros i. apply Hadds.
    + apply off_bus_same. rewrite E. unfold for_electrodes.
      replace (Z.to_nat ELECTRODE_COUNT) with O by lia. reflexivity.
Qed.

(** The two methods that edit the saved ECR: [f] is the edit. *)
Lemma ecr_edit_past_the_guard (f : Z -> Z) (s : Sys W) :
  flag_set (error_byte_ (this s)) NOT_INITIALIZED_BIT = false ->
  let method : M W unit :=
    init <- isInitialized ;;
    if negb init then skip
    else
      o <- get_this ;;
      let was_running := running_ o in
      (if was_running then stop else skip) ;;
      modify (fun o => set_ecr_backup (f (ecr_backup_ o)) o) ;;
      if was_running then run else skip in
  if running_ (this s)
  then issues_transaction method s
  else stays_off_bus method s.
Proof.
  intros Hi method.
  destruct (running_ (this s)) eqn:Hrun.
  - apply (issues_ext _
      (stop ;; modify (fun o => set_ecr_backup (f (ecr_backup_ o)) o) ;; run)).
    { unfold method. unfold bind at 1. rewrite isInitialized_eq, Hi.
      cbn [negb]. unfold bind at 1, get_this. now rewrite Hrun. }
    apply issues_bind; [now apply initialized_methods_reach_bus|].
    intros _. appends.
  - apply off_bus_same. unfold method. unfold bind at 1.
    rewrite isInitialized_eq, Hi. cbn [negb]. unfold bind at 1, get_this.
    rewrite Hrun. reflexivity.
Qed.

(** On an initialized handle every guarded method with its argument in
    range goes to the chip when its body has a call that does, and only
    then. *)
Lemma guarded_methods_past_the_guard (op : Op) (s : Sys W) :
  flag_set (error_byte_ (this s)) NOT_INITIALIZED_BIT = false ->
  guarded op = true -> in_range op = true ->
  if talks_to_chip (running_ (this s)) op
  then issues_transaction (exec op) s
  else stays_off_bus (exec op) s.
Proof.
  intros Hi Hg Hr.
  destruct (initialized_methods_reach_bus s Hi) as (Irun & Istop & Itd & Ibd & Ifd).
  destruct (initialized_electrode_methods_reach_bus s Hi) as [Iel Ipin].
  destruct op; try discriminate Hg; cbn [talks_to_chip exec];
    cbn [in_range] in Hr.
  - (* updateTouchData *) exact Itd.
  - (* updateBaselineData *) apply issues_void, Ibd.
  - (* updateFilteredData *) apply issues_void, Ifd.
  - (* updateAll *)
    unfold updateAll. apply issues_bind; [exact Itd|]. intros _.
    pose proof updateBaselineData_adds. pose proof updateFilteredData_adds.
    appends.
  - (* touched *) apply off_bus_void, (touched_off_bus electrode s).
  - (* getTouchCount *)
    apply off_bus_void. destruct (queries_off_bus 0) as (H & _). apply (H s).
  - apply off_bus_void.
    destruct (queries_off_bus electrode) as (_ & H & _). apply (H s).
  - apply off_bus_void.
    destruct (queries_off_bus electrode) as (_ & _ & H & _). apply (H s).
  - apply off_bus_void.
    destruct (queries_off_bus electrode) as (_ & _ & _ & H & _). apply (H s).
  - apply off_bus_void.
    destruct (queries_off_bus electrode) as (_ & _ & _ & _ & H & _).
    apply (H s).
  - apply off_bus_void, (getPreviousTouchData_off_bus electrode s).
  - (* setTouchThreshold(threshold) *)
    apply (threshold_loop_past_the_guard setTouchThreshold threshold s);
      [apply setTouchThreshold_adds | | exact Hi].
    intros e t s0 Hi0 He.
    now apply (initialized_electrode_methods_reach_bus s0 Hi0).
  - (* setTouchThreshold(electrode, threshold) *)
    apply Z.ltb_lt in Hr. now apply (Iel electrode threshold).
  - (* setReleaseThreshold(threshold) *)
    apply (threshold_loop_past_the_guard setReleaseThreshold threshold s);
      [apply setReleaseThreshold_adds | | exact Hi].
    intros e t s0 Hi0 He.
    now apply (initialized_electrode_methods_reach_bus s0 Hi0).
  - apply Z.ltb_lt in Hr. now apply (Iel electrode threshold).
  - (* getTouchThreshold *)
    apply Z.ltb_lt in Hr. apply issues_void. now apply (Iel electrode 0).
  - apply Z.ltb_lt in Hr. apply issues_void. now apply (Iel electrode 0).
  - exact Irun.
  - exact Istop.
  - (* setInterruptPin *)
    destruct (queries_off_bus pin) as (_ & _ & _ & _ & _ & H). apply (H s).
  - (* setProximityMode *)
    exact (ecr_edit_past_the_guard (proximity_bits mode) s Hi).
  - (* setDigitalPinCount *)
    exact (ecr_edit_past_the_guard (pin_count_bits pin_count) s Hi).
  - (* pinMode(electrode, PinMode) *)
    apply andb_true_iff in Hr as [H4 H11].
    apply Z.leb_le in H4. apply Z.leb_le in H11.
    assert (Hrange : (electrode <? 4) || (11 <? electrode) = false).
    { apply orb_false_iff. rewrite !Z.ltb_ge. lia. }
    pose proof or_register_adds. pose proof andnot_register_adds.
    unfold pinMode. apply issues_past_isInitialized.
    rewrite Hi, Hrange. cbn [negb orb].
    destruct mode; apply issues_after_or_register; intros _; appends.
  - (* pinMode(electrode, int) *)
    pose proof or_register_adds. pose proof andnot_register_adds.
    destruct (mode =? OUTPUT) eqn:Ho; cbn [orb];
      [|destruct (mode =? INPUT) eqn:Hin].
    + unfold pinMode_int. apply issues_past_isInitialized.
      rewrite Hi, Ho. cbn [negb].
      apply issues_after_or_register; intros _; appends.
    + unfold pinMode_int. apply issues_past_isInitialized.
      rewrite Hi, Ho, Hin. cbn [negb].
      apply issues_after_or_register; intros _; appends.
    + apply off_bus_same. unfold pinMode_int, bind.
      rewrite isInitialized_eq, Hi, Ho, Hin. reflexivity.
  - (* digitalWrite *)
    apply andb_true_iff in Hr as [H4 H11].
    apply Z.leb_le in H4. apply Z.leb_le in H11.
    now apply (Ipin electrode val).
  - apply andb_true_iff in Hr as [H4 H11].
    apply Z.leb_le in H4. apply Z.leb_le in H11.
    now apply (Ipin electrode 0).
  - apply andb_true_iff in Hr as [H4 H11].
    apply Z.leb_le in H4. apply Z.leb_le in H11.
    apply issues_void. now apply (Ipin electrode 0).
  - (* analogWrite *)
    apply andb_true_iff in Hr as [H4 H11].
    apply Z.leb_le in H4. apply Z.leb_le in H11.
    assert (Hrange : (electrode <? 4) || (11 <? electrode) = false).
    { apply orb_false_iff. rewrite !Z.ltb_ge. lia. }
    pose proof pwm_low_adds. pose proof pwm_high_adds.
    unfold analogWrite. apply issues_past_isInitialized.
    rewrite Hi, Hrange. cbn [negb orb].
    apply issues_bind.
    + destruct (0 <? _); apply setRegister_issues.
    + intros _. appends.
Qed.

(** A method that stays off the bus opens no transmission. *)
Lemma off_bus_not_issues {A} (m : M W A) (s : Sys W) :
  stays_off_bus m s -> ~ issues_transaction m s.
Proof.
  intros (new & E & F) (new' & E' & Hin).
  rewrite E in E'. apply app_inv_tail in E'. subst new'.
  rewrite forallb_forall in F. specialize (F _ Hin). discriminate F.
Qed.

(** ** Clearing the error byte *)

(** C10.  [clearError()] leaves the error byte zero, whatever it held, the
    not-initialized bit included, and [isInitialized()] then answers true:
    the handle is arbitrary, [begin()] or [reset()] need never have run on
    it.  Every method that tests [isInitialized()] first, called with its
    argument in range, then gets past the test.  Those whose body has a
    call to the chip open a transmission: [run], [stop], the data
    refreshes, the per-electrode threshold methods, the digital pin
    methods; the two threshold loops when the handle is running or there
    is an electrode; [setProximityMode] and [setDigitalPinCount] when the
    handle is running.  The others make no call on the bus: the queries
    ([touched], [getTouchCount], [getBaselineData], [getFilteredData],
    [isNewTouch], [isNewRelease], [getPreviousTouchData]),
    [setInterruptPin], and [setProximityMode] and [setDigitalPinCount] on a
    stopped handle. *)
Theorem clearError_makes_initialized (s : Sys W) :
  let s1 := snd (clearError s) in
  error_byte_ (this s1) = 0 /\
  isInitialized s1 = (true, s1) /\
  forall op, guarded op = true -> in_range op = true ->
    if talks_to_chip (running_ (this s1)) op
    then issues_transaction (exec op) s1
    else stays_off_bus (exec op) s1.
Proof.
  intros s1.
  assert (E : error_byte_ (this s1) = 0) by reflexivity.
  assert (F : flag_set (error_byte_ (this s1)) NOT_INITIALIZED_BIT = false)
    by (rewrite E; apply flag_set_zero).
  split; [exact E|]. split.
  - rewrite isInitialized_eq, F. reflexivity.
  - intros op Hg Hr. now apply guarded_methods_past_the_guard.
Qed.

End PastTheGuard.

(** * Closed examples on the simulated chip *)

#[local] Existing Instance example_header.
#[local] Existing Instance TS1_first.
#[local] Existing Instance example_settings_header.

(** C1.  On the handle the constructor leaves, whose not-initialized flag is
    set, [setSamplePeriod] reads AFE2 and writes it back: ten calls reach
    the bus and the chip's register changes.  The other methods return at
    once there ([guarded_methods_return_early],
    [guarded_mutators_return_early]); this one has no test
    ([setSamplePeriod_unguarded]). *)
Theorem setSamplePeriod_runs_uninitialized :
  let s := fresh (chip_with (regs_of [(0x5D, 0x24)])) in
  let s' := snd (setSamplePeriod 3 s) in
  fst (isInitialized s) = false /\
  rev (trace s') =
    [BeginTransmission 0x5A; WriteByte 0x5D; EndTransmission false 0;
     RequestFrom 0x5A 1 1; EndTransmission true 0; ReadByte 0x24;
     BeginTransmission 0x5A; WriteByte 0x5D; WriteByte 0x23;
     EndTransmission true 0] /\
  chip_regs (world s) 0x5D = 0x24 /\
  chip_regs (world s') 0x5D = 0x23.
Proof. vm_compute. repeat split. Qed.

(** C2.  On a handle that went through the constructor and [clearError()],
    the driver raises the overcurrent flag by a read of TS2 that returns
    0x80, and the out-of-range flag by a read of OORS1 that returns a byte
    other than zero.  From either state one successful read of ECR,
    which is none of TS2, OORS1, OORS2, returns with the flag cleared. *)
Theorem register_read_clears_fault_flags :
  let c := chip_with (regs_of [(0x01, 0x80); (0x02, 0x01); (0x5E, 0x0C)]) in
  let s0 := snd (clearError (fresh c)) in
  let s_oc := snd (getRegister TS2 s0) in
  let s_oor := snd (getRegister OORS1 s0) in
  error_byte_ (this s_oc) = 0x08 /\
  flag_set (error_byte_ (this s_oc)) OVERCURRENT_FLAG_BIT = true /\
  error_byte_ (this s_oor) = 0x10 /\
  flag_set (error_byte_ (this s_oor)) OUT_OF_RANGE_BIT = true /\
  fst (getRegister ECR s_oc) = 0x0C /\
  last_end_status (trace (snd (getRegister ECR s_oc))) = Some 0 /\
  error_byte_ (this (snd (getRegister ECR s_oc))) = 0 /\
  fst (getRegister ECR s_oor) = 0x0C /\
  last_end_status (trace (snd (getRegister ECR s_oor))) = Some 0 /\
  error_byte_ (this (snd (getRegister ECR s_oor))) = 0.
Proof. vm_compute. repeat split. Qed.

(** C3.  The chip answers every transaction, AFE2 reads its default 0x24 and
    TS2 reads 0x80, overcurrent.  After the soft reset, the readback check
    and the overcurrent check, the overcurrent flag is set in the error
    byte; [reset()] nevertheless returns [SUCCESS], and the flag is gone
    when it returns. *)
Theorem reset_succeeds_with_overcurrent :
  let s := started (chip_with (regs_of [(0x5D, 0x24); (0x01, 0x80)])) in
  let checks : M Chip unit :=
    setRegister SRST 0x63 ;;
    v <- getRegister AFE2 ;;
    set_flag_if (negb (v =? 0x24)) READBACK_FAIL_BIT ;;
    t <- getRegister TS2 ;;
    set_flag_if (negb (Z.land t 0x80 =? 0)) OVERCURRENT_FLAG_BIT in
  flag_set (error_byte_ (this (snd (checks s)))) OVERCURRENT_FLAG_BIT = true /\
  fst (reset s) = SUCCESS /\
  error_byte_ (this (snd (reset s))) = 0.
Proof. vm_compute. repeat split. Qed.

(** C4.  After the constructor and [clearError()], a read of TS2 that
    returns 0x80 raises the overcurrent flag, the only flag set; the order
    of precedence gives [OVERCURRENT_FLAG].
    [getError()] returns [NO_ERROR]: its own reads of OORS1 and OORS2 clear
    the flag before the tests, and the branch that returns
    [OVERCURRENT_FLAG] is never taken.  The case the specification names
    holds: with the not-initialized and the out-of-range flag set the report
    is [NOT_INITIALIZED]. *)
Theorem getError_drops_overcurrent :
  let c := chip_with (regs_of [(0x01, 0x80)]) in
  let s := snd (getRegister TS2 (snd (clearError (fresh c)))) in
  let c2 := chip_with (regs_of [(0x02, 0x01)]) in
  let s2 := snd (getRegister OORS1 (fresh c2)) in
  error_byte_ (this s) = 0x08 /\
  current_error (flags_of (error_byte_ (this s))) = OVERCURRENT_FLAG /\
  fst (getError s) = NO_ERROR /\
  error_byte_ (this (snd (getError s))) = 0 /\
  error_byte_ (this s2) = 0x11 /\
  current_error (flags_of (error_byte_ (this s2))) = NOT_INITIALIZED /\
  fst (getError s2) = NOT_INITIALIZED.
Proof. vm_compute. repeat split. Qed.

(** ** The theorems at concrete inputs *)

Lemma stop_then_run_restores_enable_register_witness :
  let s := started (chip_with (regs_of [(0x5E, 0xCC)])) in
  error_bits_wf = true /\
  flag_set (error_byte_ (this s)) NOT_INITIALIZED_BIT = false /\
  exists st0 got st1 r st2 st3 w' e',
    (stop ;; run) s =
    (tt, mkSys
           (set_error_byte e'
              (set_running (negb (Z.land (u8 r) 0x3F =? 0))
                           (set_ecr_backup (u8 r) (this s))))
           w'
           (write_calls (address_ (this s)) ECR (u8 r) st3
              ++ write_calls (address_ (this s)) ECR
                   (u8 (Z.land (u8 r) 0xC0)) st2
              ++ read_calls (address_ (this s)) ECR st0 got st1 r
              ++ trace s))
    /\ Z.land (u8 (Z.land (u8 r) 0xC0)) 0x3F = 0
    /\ Z.land (u8 (Z.land (u8 r) 0xC0)) 0xC0 = Z.land (u8 r) 0xC0.
Proof.
  intros s. split; [reflexivity|]. split; [reflexivity|].
  apply (stop_then_run_restores_enable_register s); reflexivity.
Defined.



Lemma address_unknown_reflects_last_transaction_witness :
  let s := started (mkChip (regs_of []) false 255 1 0 [] []) in
  error_bits_wf = true /\
  reflects_last_transaction s (snd (setRegister 0x2B 1 s)) /\
  reflects_last_transaction s (snd (getRegister 0x2B s)).
Proof.
  intros s. split; [reflexivity|].
  apply (address_unknown_reflects_last_transaction 0x2B 1 s). reflexivity.
Defined.

Lemma short_burst_leaves_data_unmodified_witness :
  let s := started (mkChip (regs_of [(0x1E, 7)]) true 5 1 0 [] []) in
  flag_set (error_byte_ (this s)) NOT_INITIALIZED_BIT = false /\
  last_request_count (trace (snd (updateBaselineData s))) = Some 5 /\
  5 < ELECTRODE_COUNT /\
  fst (updateBaselineData s) = negb SUCCESS /\
  baseline_data_ (this (snd (updateBaselineData s))) = baseline_data_ (this s).
Proof.
  intros s.
  assert (H0 : flag_set (error_byte_ (this s)) NOT_INITIALIZED_BIT = false)
    by reflexivity.
  assert (H1 : last_request_count (trace (snd (updateBaselineData s))) = Some 5)
    by reflexivity.
  assert (H2 : 5 < ELECTRODE_COUNT) by (cbn; lia).
  split; [exact H0|]. split; [exact H1|]. split; [exact H2|].
  destruct (short_burst_leaves_data_unmodified s H0) as (_ & H & _).
  destruct (H 5 H1) as [Hshort _]. exact (Hshort H2).
Defined.

Lemma out_of_range_electrode_returns_sentinel_witness :
  let s := started (chip_with (regs_of [(0x00, 0xFF); (0x01, 0x1F)])) in
  ELECTRODE_COUNT <= 13 /\ (3 < 4 \/ 11 < 3) /\
  touched 13 s = (false, s) /\
  getBaselineData 13 s = (0xFFFF, s) /\
  getFilteredData 13 s = (0xFFFF, s) /\
  isNewTouch 13 s = (false, s) /\
  isNewRelease 13 s = (false, s) /\
  getTouchThreshold 13 s = (0xFF, s) /\
  getReleaseThreshold 13 s = (0xFF, s) /\
  getPreviousTouchData 13 s = (negb SUCCESS, s) /\
  digitalRead 3 s = (negb SUCCESS, s).
Proof.
  intros s.
  assert (H1 : ELECTRODE_COUNT <= 13) by (cbn; lia).
  assert (H2 : 3 < 4 \/ 11 < 3) by (left; lia).
  split; [exact H1|]. split; [exact H2|].
  apply (out_of_range_electrode_returns_sentinel 13 3 s H1 H2).
Defined.

Lemma clearError_makes_initialized_witness :
  let s := fresh (chip_with (regs_of [])) in
  let s1 := snd (clearError s) in
  fst (isInitialized s) = false /\
  isInitialized s1 = (true, s1) /\
  issues_transaction (exec op_updateAll) s1 /\
  issues_transaction (exec (op_setTouchThreshold_all 40)) s1 /\
  issues_transaction (exec (op_analogWrite 5 0x80)) s1 /\
  stays_off_bus (exec (op_setProximityMode PROX0_3)) s1.
Proof.
  intros s s1.
  destruct (clearError_makes_initialized s) as (_ & H1 & H).
  split; [reflexivity|]. split; [exact H1|].
  split; [exact (H op_updateAll eq_refl eq_refl)|].
  split; [exact (H (op_setTouchThreshold_all 40) eq_refl eq_refl)|].
  split; [exact (H (op_analogWrite 5 0x80) eq_refl eq_refl)|].
  exact (H (op_setProximityMode PROX0_3) eq_refl eq_refl).
Defined.

(** C10, counterexample: guarded methods whose body has no call to the
    chip.  After [clearError()] on the handle the
    constructor leaves, [touched(0)], [setInterruptPin(4)] and
    [setProximityMode(PROX0_3)] get past their test and open no
    transmission. *)
Lemma clearError_makes_initialized_counterexample :
  let s1 := snd (clearError (fresh (chip_with (regs_of [])))) in
  isInitialized s1 = (true, s1) /\
  guarded (op_touched 0) = true /\
  guarded (op_setInterruptPin 4) = true /\
  guarded (op_setProximityMode PROX0_3) = true /\
  trace (snd (touched 0 s1)) = [] /\
  trace (snd (setInterruptPin 4 s1)) = [SetPinMode 4 INPUT_PULLUP] /\
  interrupt_pin_ (this (snd (setInterruptPin 4 s1))) = 4 /\
  trace (snd (setProximityMode PROX0_3 s1)) = [] /\
  ecr_backup_ (this (snd (setProximityMode PROX0_3 s1))) = 0x20 /\
  ~ issues_transaction (touched 0) s1 /\
  ~ issues_transaction (setInterruptPin 4) s1 /\
  ~ issues_transaction (setProximityMode PROX0_3) s1.
Proof.
  intros s1.
  do 9 (split; [reflexivity|]).
  split; [|split]; apply off_bus_not_issues.
  - exists []. split; reflexivity.
  - exists [SetPinMode 4 INPUT_PULLUP]. split; reflexivity.
  - exists []. split; reflexivity.
Qed.

(** ** The further properties at concrete inputs *)

Lemma only_set_up_changes_isInitialized_witness :
  let s := fresh (chip_with (regs_of [(0x5E, 0xCC)])) in
  let ops := [op_reset; op_setRegister 0x5E 0xCC; op_run; op_updateAll;
              op_getError] in
  error_bits_wf = true /\
  forallb (fun op => negb (sets_up op)) ops = true /\
  fst (isInitialized (snd (exec_all ops s))) = fst (isInitialized s).
Proof.
  intros s ops.
  assert (Hwf : error_bits_wf = true) by reflexivity.
  assert (Hops : forallb (fun op => negb (sets_up op)) ops = true)
    by reflexivity.
  split; [exact Hwf|]. split; [exact Hops|].
  apply (only_set_up_changes_isInitialized ops s Hwf Hops).
Defined.

Lemma touch_status_flag_is_sticky_witness :
  let c := chip_with (regs_of [(0x1E, 7)]) in
  let s := mkSys (set_auto_flag true (this (started c))) c [] in
  let ops := [op_updateBaselineData; op_getTouchCount; op_touchStatusChanged;
              op_setTouchThreshold_all 40] in
  let s' := snd (exec_all ops s) in
  forallb (fun op => negb (refreshes_touch op)) ops = true /\
  auto_touch_status_flag_ (this s) = true /\
  auto_touch_status_flag_ (this s') = true /\
  touchStatusChanged s' = (true, s').
Proof.
  intros c s ops s'. split; [reflexivity|]. split; [reflexivity|].
  apply (touch_status_flag_is_sticky ops s); reflexivity.
Defined.

Lemma touch_edges_witness :
  let c := chip_with (regs_of []) in
  let s := mkSys (set_touch 2 1 (this (started c))) c [] in
  flag_set (error_byte_ (this s)) NOT_INITIALIZED_BIT = false /\
  0 <= 1 < ELECTRODE_COUNT /\
  isNewTouch 1 s = (true, s) /\
  isNewRelease 1 s = (false, s) /\
  isNewRelease 0 s = (true, s).
Proof.
  intros c s.
  assert (Hi : flag_set (error_byte_ (this s)) NOT_INITIALIZED_BIT = false)
    by reflexivity.
  assert (H1 : 0 <= 1 < ELECTRODE_COUNT) by (cbn; lia).
  assert (H0 : 0 <= 0 < ELECTRODE_COUNT) by (cbn; lia).
  split; [exact Hi|]. split; [exact H1|].
  destruct (touch_edges 1 s Hi H1) as (A & B & _).
  destruct (touch_edges 0 s Hi H0) as (_ & C & _).
  split; [exact A|]. split; [exact B|exact C].
Defined.

Lemma updateTouchData_shifts_bitmaps_witness :
  let c := chip_with (regs_of [(0x00, 0xFF); (0x01, 0x1F)]) in
  let s := mkSys (set_touch 5 3 (this (started c))) c [] in
  let s' := snd (updateTouchData (order := TS2_first) s) in
  flag_set (error_byte_ (this s)) NOT_INITIALIZED_BIT = false /\
  exists lo hi st0 got0 st1 st2 got2 st3,
    trace s' =
      (read_calls (address_ (this s)) TS1 st0 got0 st1 lo
       ++ read_calls (address_ (this s)) TS2 st2 got2 st3 hi)
      ++ trace s /\
    touch_data_previous_ (this s') = 5 /\
    touch_data_ (this s') = u8 lo + 256 * u8 hi /\
    auto_touch_status_flag_ (this s') = false.
Proof.
  intros c s s'. split; [reflexivity|].
  apply (updateTouchData_shifts_bitmaps (order := TS2_first) s). reflexivity.
Defined.

Lemma getTouchCount_counts_set_bits_witness :
  let c := chip_with (regs_of []) in
  let s := mkSys (set_touch 0x100B 0 (this (started c))) c [] in
  flag_set (error_byte_ (this s)) NOT_INITIALIZED_BIT = false /\
  0 <= ELECTRODE_COUNT <= 255 /\
  getTouchCount s = (4, s).
Proof.
  intros c s.
  assert (Hi : flag_set (error_byte_ (this s)) NOT_INITIALIZED_BIT = false)
    by reflexivity.
  assert (Hc : 0 <= ELECTRODE_COUNT <= 255) by (cbn; lia).
  split; [exact Hi|]. split; [exact Hc|].
  rewrite (getTouchCount_counts_set_bits s Hi Hc). reflexivity.
Defined.

Lemma reset_succeeds_when_not_initialized_witness :
  let s := fresh (mkChip (regs_of []) false 255 1 0 [] []) in
  error_bits_wf = true /\
  flag_set (error_byte_ (this s)) NOT_INITIALIZED_BIT = true /\
  fst (reset s) = SUCCESS.
Proof.
  intros s. split; [reflexivity|]. split; [reflexivity|].
  apply (reset_succeeds_when_not_initialized s); reflexivity.
Defined.

Lemma reset_fails_on_readback_mismatch_witness :
  let s := started (chip_with (regs_of [(0x5D, 0x25)])) in
  error_bits_wf = true /\
  flag_set (error_byte_ (this s)) NOT_INITIALIZED_BIT = false /\
  fst (getRegister AFE2 (snd (setRegister SRST 0x63 s))) <> 0x24 /\
  fst (reset s) = negb SUCCESS /\
  flag_set (error_byte_ (this (snd (reset s)))) READBACK_FAIL_BIT = true.
Proof.
  intros s.
  assert (Hwf : error_bits_wf = true) by reflexivity.
  assert (Hi : flag_set (error_byte_ (this s)) NOT_INITIALIZED_BIT = false)
    by reflexivity.
  assert (Hr : fst (getRegister AFE2 (snd (setRegister SRST 0x63 s))) <> 0x24)
    by (vm_compute; lia).
  split; [exact Hwf|]. split; [exact Hi|]. split; [exact Hr|].
  apply (reset_fails_on_readback_mismatch s Hwf Hi Hr).
Defined.

Lemma getError_reports_out_of_range_from_OORS2_witness :
  let s := started (chip_with (regs_of [(0x02, 0x01)])) in
  error_bits_wf = true /\ OORS2 <> TS2 /\
  fst (getRegister OORS2 (snd (getRegister OORS1 s))) = 0 /\
  fst (getError s) <> OVERCURRENT_FLAG /\
  fst (getError s) <> OUT_OF_RANGE.
Proof.
  intros s.
  assert (Hwf : error_bits_wf = true) by reflexivity.
  assert (Hne : OORS2 <> TS2) by (cbn; lia).
  split; [exact Hwf|]. split; [exact Hne|]. split; [reflexivity|].
  destruct (getError_reports_out_of_range_from_OORS2 s Hwf Hne) as [A B].
  split; [exact A|]. apply B. reflexivity.
Defined.

Lemma applySettings_initializes_witness :
  let s := fresh (chip_with (regs_of [])) in
  error_bits_wf = true /\
  fst (isInitialized s) = false /\
  fst (isInitialized (snd (applySettings example_settings s))) = true.
Proof.
  intros s. split; [reflexivity|]. split; [reflexivity|].
  apply (applySettings_initializes example_settings s). reflexivity.
Defined.

Lemma begin_leaves_initialized_witness :
  let s := fresh (mkChip (regs_of []) false 255 1 0 [] []) in
  error_bits_wf = true /\
  fst (begin s) = negb SUCCESS /\
  fst (isInitialized (snd (begin s))) = true.
Proof.
  intros s.
  assert (Hwf : error_bits_wf = true) by reflexivity.
  split; [exact Hwf|].
  destruct (begin_leaves_initialized s Hwf) as [A B].
  split; [|exact B]. rewrite A. reflexivity.
Defined.

Lemma threshold_methods_write_each_electrode_once_witness :
  let c := chip_with (regs_of [(0x5E, 0xCC)]) in
  let s := mkSys (set_running true (this (started c))) c [] in
  error_bits_wf = true /\
  flag_set (error_byte_ (this s)) NOT_INITIALIZED_BIT = false /\
  0 <= ELECTRODE_COUNT <= 256 /\
  (forall e, 0 <= e < ELECTRODE_COUNT ->
     u8 (E0TTH + Z.shiftl e 1) <> ECR /\ u8 (E0RTH + Z.shiftl e 1) <> ECR) /\
  (exists r,
     rev (register_writes (trace (snd (setTouchThreshold_all 40 s)))) =
       rev (register_writes (trace s))
       ++ [(ECR, u8 (Z.land (u8 r) 0xC0))]
       ++ threshold_writes E0TTH 40 ELECTRODE_COUNT
       ++ [(ECR, u8 r)]) /\
  (exists r,
     rev (register_writes (trace (snd (setReleaseThreshold_all 40 s)))) =
       rev (register_writes (trace s))
       ++ [(ECR, u8 (Z.land (u8 r) 0xC0))]
       ++ threshold_writes E0RTH 40 ELECTRODE_COUNT
       ++ [(ECR, u8 r)]).
Proof.
  intros c s.
  assert (Hwf : error_bits_wf = true) by reflexivity.
  assert (Hi : flag_set (error_byte_ (this s)) NOT_INITIALIZED_BIT = false)
    by reflexivity.
  assert (Hc : 0 <= ELECTRODE_COUNT <= 256) by (cbn; lia).
  assert (Hregs : forall e, 0 <= e < ELECTRODE_COUNT ->
     u8 (E0TTH + Z.shiftl e 1) <> ECR /\ u8 (E0RTH + Z.shiftl e 1) <> ECR).
  { intros e He. cbn in He. cbn [E0TTH E0RTH ECR example_header].
    unfold u8. rewrite Z.shiftl_mul_pow2 by lia. change (2 ^ 1) with 2.
    rewrite !Z.mod_small by lia. lia. }
  split; [exact Hwf|]. split; [exact Hi|]. split; [exact Hc|].
  split; [exact Hregs|].
  exact (threshold_methods_write_each_electrode_once 40 s Hwf Hi Hc Hregs).
Defined.

Lemma full_baseline_burst_is_stored_witness :
  let s := started (chip_with (regs_of [(0x1E, 7); (0x1F, 9)])) in
  let s' := snd (updateBaselineData s) in
  flag_set (error_byte_ (this s)) NOT_INITIALIZED_BIT = false /\
  0 <= ELECTRODE_COUNT /\
  length (baseline_data_ (this s)) = Z.to_nat ELECTRODE_COUNT /\
  last_request_count (trace s') = Some ELECTRODE_COUNT /\
  fst (updateBaselineData s) = SUCCESS /\
  exists bytes,
    length bytes = Z.to_nat ELECTRODE_COUNT /\
    reads_of (trace s') = rev bytes ++ reads_of (trace s) /\
    baseline_data_ (this s') = map (fun r => data_cast (Z.shiftl r 2)) bytes /\
    forall e, 0 <= e < ELECTRODE_COUNT ->
      getBaselineData e s' =
      (default 0 (map (fun r => data_cast (Z.shiftl r 2)) bytes
                    !! Z.to_nat e), s').
Proof.
  intros s s'.
  assert (Hi : flag_set (error_byte_ (this s)) NOT_INITIALIZED_BIT = false)
    by reflexivity.
  assert (Hc : 0 <= ELECTRODE_COUNT) by (cbn; lia).
  assert (Hl : length (baseline_data_ (this s)) = Z.to_nat ELECTRODE_COUNT)
    by reflexivity.
  assert (Hq : last_request_count (trace (snd (updateBaselineData s))) =
               Some ELECTRODE_COUNT) by reflexivity.
  split; [exact Hi|]. split; [exact Hc|]. split; [exact Hl|].
  split; [exact Hq|].
  exact (full_baseline_burst_is_stored s Hi Hc Hl Hq).
Defined.

Lemma full_filtered_burst_is_stored_witness :
  let s := started (chip_with (regs_of [(0x04, 0x34); (0x05, 0x02)])) in
  let s' := snd (updateFilteredData s) in
  let value p := data_cast (Z.lor (Z.shiftl (u8 (snd p)) 8) (u8 (fst p))) in
  flag_set (error_byte_ (this s)) NOT_INITIALIZED_BIT = false /\
  0 <= ELECTRODE_COUNT /\
  length (filtered_data_ (this s)) = Z.to_nat ELECTRODE_COUNT /\
  last_request_count (trace s') = Some 26 /\
  fst (updateFilteredData s) = SUCCESS /\
  exists pairs : list (Z * Z),
    length pairs = Z.to_nat ELECTRODE_COUNT /\
    reads_of (trace s') =
      rev (concat (map (fun p => [fst p; snd p]) pairs))
      ++ reads_of (trace s) /\
    filtered_data_ (this s') = map value pairs /\
    forall e, 0 <= e < ELECTRODE_COUNT ->
      getFilteredData e s' = (default 0 (map value pairs !! Z.to_nat e), s').
Proof.
  intros s s' value.
  assert (Hi : flag_set (error_byte_ (this s)) NOT_INITIALIZED_BIT = false)
    by reflexivity.
  assert (Hc : 0 <= ELECTRODE_COUNT) by (cbn; lia).
  assert (Hl : length (filtered_data_ (this s)) = Z.to_nat ELECTRODE_COUNT)
    by reflexivity.
  assert (Hq : last_request_count (trace (snd (updateFilteredData s))) =
               Some 26) by reflexivity.
  split; [exact Hi|]. split; [exact Hc|]. split; [exact Hl|].
  split; [exact Hq|].
  exact (full_filtered_burst_is_stored s Hi Hc Hl Hq).
Defined.

Lemma setProximityMode_edits_ELEPROX_witness :
  let c := chip_with (regs_of [(0x5E, 0x0C)]) in
  let s := mkSys (set_running true (this (started c))) c [] in
  let s' := snd (setProximityMode PROX0_3 s) in
  error_bits_wf = true /\
  flag_set (error_byte_ (this s)) NOT_INITIALIZED_BIT = false /\
  (exists r,
     rev (register_writes (trace s')) =
       rev (register_writes (trace s))
       ++ [(ECR, u8 (Z.land (u8 r) 0xC0));
           (ECR, proximity_bits PROX0_3 (u8 r))] /\
     reads_of (trace s') = r :: reads_of (trace s) /\
     ecr_backup_ (this s') = proximity_bits PROX0_3 (u8 r) /\
     running_ (this s') =
       negb (Z.land (proximity_bits PROX0_3 (u8 r)) 0x3F =? 0)) /\
  Z.land (proximity_bits PROX0_3 0x0C) 0x30 = 0x20.
Proof.
  intros c s s'.
  assert (Hwf : error_bits_wf = true) by reflexivity.
  assert (Hi : flag_set (error_byte_ (this s)) NOT_INITIALIZED_BIT = false)
    by reflexivity.
  split; [exact Hwf|]. split; [exact Hi|].
  destruct (setProximityMode_edits_ELEPROX PROX0_3 s Hwf Hi) as [A B].
  split; [exact A|].
  apply (B 0x0C). lia.
Defined.

Lemma setDigitalPinCount_edits_low_nibble_witness :
  let c := chip_with (regs_of [(0x5E, 0x0C)]) in
  let s := started c in
  let s' := snd (setDigitalPinCount 4 s) in
  error_bits_wf = true /\
  flag_set (error_byte_ (this s)) NOT_INITIALIZED_BIT = false /\
  trace s' = trace s /\ world s' = world s /\
  this s' = set_ecr_backup (pin_count_bits 4 (ecr_backup_ (this s))) (this s) /\
  Z.land (pin_count_bits 4 0xCC) 0x0F = 8.
Proof.
  intros c s s'.
  assert (Hwf : error_bits_wf = true) by reflexivity.
  assert (Hi : flag_set (error_byte_ (this s)) NOT_INITIALIZED_BIT = false)
    by reflexivity.
  split; [exact Hwf|]. split; [exact Hi|].
  destruct (setDigitalPinCount_edits_low_nibble 4 s Hwf Hi) as [A B].
  destruct A as (A1 & A2 & A3).
  split; [exact A1|]. split; [exact A2|]. split; [exact A3|].
  destruct (B 0xCC) as [B1 _]; [lia|]. exact B1.
Defined.

Lemma digital_output_is_one_write_witness :
  let s := started (chip_with (regs_of [])) in
  flag_set (error_byte_ (this s)) NOT_INITIALIZED_BIT = false /\
  4 <= 5 <= 11 /\
  gpio_register SET /\ gpio_register CLR /\ gpio_register TOG /\
  register_writes (trace (snd (digitalWrite 5 1 s))) = [(SET, 2)] /\
  register_writes (trace (snd (digitalWrite 5 0 s))) = [(CLR, 2)] /\
  register_writes (trace (snd (digitalToggle 5 s))) = [(TOG, 2)].
Proof.
  intros s.
  assert (Hi : flag_set (error_byte_ (this s)) NOT_INITIALIZED_BIT = false)
    by reflexivity.
  assert (He : 4 <= 5 <= 11) by lia.
  assert (H1 : gpio_register SET) by (unfold gpio_register; cbn; lia).
  assert (H2 : gpio_register CLR) by (unfold gpio_register; cbn; lia).
  assert (H3 : gpio_register TOG) by (unfold gpio_register; cbn; lia).
  split; [exact Hi|]. split; [exact He|].
  split; [exact H1|]. split; [exact H2|]. split; [exact H3|].
  destruct (digital_output_is_one_write 5 1 s Hi He H1 H2 H3)
    as ((A & _) & (C & _) & _).
  destruct (digital_output_is_one_write 5 0 s Hi He H1 H2 H3)
    as ((B & _) & _).
  split; [exact A|]. split; [exact B|exact C].
Defined.

Lemma pinMode_edits_one_bit_of_four_registers_witness :
  let s := started (chip_with (regs_of [(0x77, 0x01); (0x76, 0x02)])) in
  let s' := snd (pinMode 5 INPUT_PD s) in
  flag_set (error_byte_ (this s)) NOT_INITIALIZED_BIT = false /\
  4 <= 5 <= 11 /\
  gpio_register EN /\ gpio_register DIR /\
  gpio_register CTL0 /\ gpio_register CTL1 /\
  (exists r1 r2 r3 r4,
     register_reads (trace s') =
       (CTL1, r4) :: (CTL0, r3) :: (DIR, r2) :: (EN, r1)
         :: register_reads (trace s) /\
     register_writes (trace s') =
       (CTL1, with_bit false (one_hot 5) (u8 r4))
         :: (CTL0, with_bit true (one_hot 5) (u8 r3))
         :: (DIR, with_bit false (one_hot 5) (u8 r2))
         :: (EN, with_bit true (one_hot 5) (u8 r1))
         :: register_writes (trace s)) /\
  scan_untouched s s'.
Proof.
  intros s s'.
  assert (Hi : flag_set (error_byte_ (this s)) NOT_INITIALIZED_BIT = false)
    by reflexivity.
  assert (He : 4 <= 5 <= 11) by lia.
  assert (H1 : gpio_register EN) by (unfold gpio_register; cbn; lia).
  assert (H2 : gpio_register DIR) by (unfold gpio_register; cbn; lia).
  assert (H3 : gpio_register CTL0) by (unfold gpio_register; cbn; lia).
  assert (H4 : gpio_register CTL1) by (unfold gpio_register; cbn; lia).
  split; [exact Hi|]. split; [exact He|].
  split; [exact H1|]. split; [exact H2|]. split; [exact H3|].
  split; [exact H4|].
  destruct (pinMode_edits_one_bit_of_four_registers 5 INPUT_PD s
              Hi He H1 H2 H3 H4) as (A & B & _).
  split; [exact A|exact B].
Defined.

Lemma digitalRead_returns_DAT_bit_witness :
  let s := started (chip_with (regs_of [(0x75, 0x02)])) in
  let s' := snd (digitalRead 5 s) in
  flag_set (error_byte_ (this s)) NOT_INITIALIZED_BIT = false /\
  4 <= 5 <= 11 /\
  exists r,
    register_reads (trace s') = (DAT, r) :: register_reads (trace s) /\
    fst (digitalRead 5 s) = Z.testbit r (5 - 4) /\
    register_writes (trace s') = register_writes (trace s) /\
    scan_untouched s s'.
Proof.
  intros s s'. split; [reflexivity|]. split; [lia|].
  apply (digitalRead_returns_DAT_bit 5 s); [reflexivity|lia].
Defined.

Lemma analogWrite_edits_one_nibble_witness :
  let s := started (chip_with (regs_of [(0x81, 0x3C)])) in
  let s' := snd (analogWrite 5 0x80 s) in
  flag_set (error_byte_ (this s)) NOT_INITIALIZED_BIT = false /\
  4 <= 5 <= 11 /\ 0 <= 0x80 < 256 /\
  gpio_register SET /\ gpio_register CLR /\
  gpio_register PWM0 /\ gpio_register PWM1 /\
  gpio_register PWM2 /\ gpio_register PWM3 /\
  exists r,
    register_reads (trace s') = (PWM0, r) :: register_reads (trace s) /\
    register_writes (trace s') =
      (PWM0, pwm_byte 5 8 (u8 r)) :: (SET, 2) :: register_writes (trace s) /\
    scan_untouched s s' /\
    Z.shiftr (pwm_byte 5 8 (u8 r)) 4 = 8 /\
    Z.land (pwm_byte 5 8 (u8 r)) 0x0F = Z.land (u8 r) 0x0F.
Proof.
  intros s s'.
  assert (Hi : flag_set (error_byte_ (this s)) NOT_INITIALIZED_BIT = false)
    by reflexivity.
  assert (He : 4 <= 5 <= 11) by lia.
  assert (Hv : 0 <= 0x80 < 256) by lia.
  assert (H1 : gpio_register SET) by (unfold gpio_register; cbn; lia).
  assert (H2 : gpio_register CLR) by (unfold gpio_register; cbn; lia).
  assert (P0 : gpio_register PWM0) by (unfold gpio_register; cbn; lia).
  assert (P1 : gpio_register PWM1) by (unfold gpio_register; cbn; lia).
  assert (P2 : gpio_register PWM2) by (unfold gpio_register; cbn; lia).
  assert (P3 : gpio_register PWM3) by (unfold gpio_register; cbn; lia).
  split; [exact Hi|]. split; [exact He|]. split; [exact Hv|].
  split; [exact H1|]. split; [exact H2|]. split; [exact P0|].
  split; [exact P1|]. split; [exact P2|]. split; [exact P3|].
  exact (analogWrite_edits_one_nibble 5 0x80 s Hi He Hv H1 H2 P0 P1 P2 P3).
Defined.

Lemma guarded_calls_do_nothing_before_set_up_witness :
  let s := fresh (chip_with (regs_of [(0x5E, 0xCC)])) in
  let ops := [op_run; op_updateAll; op_digitalWrite 5 1;
              op_setTouchThreshold_all 40; op_getTouchCount; op_stop] in
  flag_set (error_byte_ (this s)) NOT_INITIALIZED_BIT = true /\
  forallb guarded ops = true /\
  exec_all ops s = (tt, s).
Proof.
  intros s ops. split; [reflexivity|]. split; [reflexivity|].
  apply (guarded_calls_do_nothing_before_set_up ops s); reflexivity.
Defined.

Lemma threshold_getter_reads_what_setter_writes_witness :
  let s := started (chip_with (regs_of [(0x47, 40); (0x48, 20)])) in
  flag_set (error_byte_ (this s)) NOT_INITIALIZED_BIT = false /\
  running_ (this s) = false /\
  3 < ELECTRODE_COUNT /\
  u8 (E0TTH + Z.shiftl 3 1) <> ECR /\ u8 (E0RTH + Z.shiftl 3 1) <> ECR /\
  register_writes (trace (snd (setTouchThreshold 3 40 s))) = [(0x47, 40)] /\
  register_writes (trace (snd (setReleaseThreshold 3 20 s))) = [(0x48, 20)] /\
  (exists r,
     fst (getTouchThreshold 3 s) = u8 r /\
     register_reads (trace (snd (getTouchThreshold 3 s))) =
       (0x47, r) :: register_reads (trace s) /\
     register_writes (trace (snd (getTouchThreshold 3 s))) =
       register_writes (trace s)) /\
  (exists r,
     fst (getReleaseThreshold 3 s) = u8 r /\
     register_reads (trace (snd (getReleaseThreshold 3 s))) =
       (0x48, r) :: register_reads (trace s) /\
     register_writes (trace (snd (getReleaseThreshold 3 s))) =
       register_writes (trace s)).
Proof.
  intros s.
  assert (Hi : flag_set (error_byte_ (this s)) NOT_INITIALIZED_BIT = false)
    by reflexivity.
  assert (Hr : running_ (this s) = false) by reflexivity.
  assert (He : 3 < ELECTRODE_COUNT) by (cbn; lia).
  assert (Ht : u8 (E0TTH + Z.shiftl 3 1) <> ECR) by (vm_compute; lia).
  assert (Hl : u8 (E0RTH + Z.shiftl 3 1) <> ECR) by (vm_compute; lia).
  split; [exact Hi|]. split; [exact Hr|]. split; [exact He|].
  split; [exact Ht|]. split; [exact Hl|].
  destruct (threshold_getter_reads_what_setter_writes 3 40 s Hi Hr He Ht Hl)
    as ((A & _) & _ & C & D).
  destruct (threshold_getter_reads_what_setter_writes 3 20 s Hi Hr He Ht Hl)
    as (_ & (B & _) & _).
  split; [exact A|]. split; [exact B|]. split; [exact C|exact D].
Defined.
